(** * Progress tracker: task categorization, aggregation and caching

    A shallow embedding of the server module of the progress tracker
    (the categorization engine [categorizeTask], the agentic-pattern
    detector [detectAgenticPatterns], the aggregator [calculateProgress],
    the assignee filter of [searchCompletedTasks] and the quarter cache)
    together with the lookup tables of [goals.config.js].

    Modelling conventions.
    - A JavaScript string is a [string]: a sequence of 8-bit code units.
      [toLowerCase] folds the letters A-Z; every keyword and every regular
      expression of the program is ASCII, so no other code unit can take
      part in a match.
    - A regular expression literal is a value of [regex]; [regex_test]
      decides whether some substring matches, which is what [RegExp.test]
      computes for a pattern without the global or sticky flag.  Every
      pattern of the program carries the [i] flag, so literals are compared
      up to ASCII case.
    - A property that may be absent ([undefined] or [null]) is an [option].
    - A function that may throw returns a [Completion].
    - The clock is an explicit argument [now] (milliseconds since the epoch)
      of every operation that reads it; the readings made within one call
      are one instant. *)

From Stdlib Require Import Strings.String Strings.Ascii ZArith Bool List Permutation Lia.
From stdpp Require Import gmap strings list fin_maps.

Local Open Scope string_scope.

(* ================================================================== *)
(** ** Strings *)
(* ================================================================== *)

Definition code (c : ascii) : N := N_of_ascii c.

Definition in_range (lo hi : N) (c : ascii) : bool :=
  (lo <=? code c)%N && (code c <=? hi)%N.

Definition is_upper (c : ascii) : bool := in_range 65 90 c.

Definition lower_ascii (c : ascii) : ascii :=
  if is_upper c then ascii_of_N (code c + 32) else c.

(** [String.prototype.toLowerCase]. *)
Fixpoint toLowerCase (s : string) : string :=
  match s with
  | EmptyString => EmptyString
  | String c s' => String (lower_ascii c) (toLowerCase s')
  end.

(** [String.prototype.includes]: [includes s needle] is [s.includes(needle)]. *)
Fixpoint includes (s needle : string) : bool :=
  String.prefix needle s ||
  match s with
  | EmptyString => false
  | String _ s' => includes s' needle
  end.

(** [Array.prototype.includes] on an array of strings. *)
Definition array_includes (l : list string) (x : string) : bool :=
  existsb (String.eqb x) l.

(* ================================================================== *)
(** ** Regular expressions *)
(* ================================================================== *)

Inductive regex : Type :=
| RChr (c : ascii)            (* a literal character *)
| RSpace                      (* \s *)
| RDigit                      (* \d *)
| RWordB                      (* \b *)
| REps                        (* the empty pattern *)
| RSeq (r1 r2 : regex)        (* r1r2 *)
| RAlt (r1 r2 : regex)        (* r1|r2 *)
| ROpt (r : regex)            (* r? *)
| RStar (r : regex)           (* r* *)
| RPlus (r : regex).          (* r+ *)

(** The literal pattern spelled by a string. *)
Fixpoint lit (s : string) : regex :=
  match s with
  | EmptyString => REps
  | String c EmptyString => RChr c
  | String c s' => RSeq (RChr c) (lit s')
  end.

Declare Scope regex_scope.
Delimit Scope regex_scope with re.
Bind Scope regex_scope with regex.
Notation "r1 ⋅ r2" := (RSeq r1 r2) (at level 41, right associativity) : regex_scope.
Notation "r1 ∣ r2" := (RAlt r1 r2) (at level 42, right associativity) : regex_scope.
Notation "'\s*'" := (RStar RSpace) : regex_scope.
Notation "'\s+'" := (RPlus RSpace) : regex_scope.
Notation "'\b'" := RWordB : regex_scope.

(** White space of [\s] among the 8-bit code units: TAB, LF, VT, FF, CR,
    SPACE and NO-BREAK SPACE. *)
Definition is_space (c : ascii) : bool :=
  in_range 9 13 c || (code c =? 32)%N || (code c =? 160)%N.

Definition is_digit (c : ascii) : bool := in_range 48 57 c.

(** Word characters of [\b]: letters, digits and the underscore. *)
Definition is_word (c : ascii) : bool :=
  in_range 97 122 c || in_range 65 90 c || is_digit c || (code c =? 95)%N.

Definition is_word_opt (o : option ascii) : bool :=
  match o with Some c => is_word c | None => false end.

Definition head_char (s : string) : option ascii :=
  match s with EmptyString => None | String c _ => Some c end.

(** A continuation receives the character before the current position
    (needed by [\b]) and the rest of the input. *)
Definition cont : Type := option ascii -> string -> bool.

(** Iteration: zero or more rounds of [step], each consuming input. *)
Fixpoint iterate (step : option ascii -> string -> cont -> bool)
    (fuel : nat) (prev : option ascii) (s : string) (k : cont) : bool :=
  k prev s ||
  match fuel with
  | O => false
  | S fuel' =>
      step prev s (fun prev' s' =>
        (String.length s' <? String.length s)%nat && iterate step fuel' prev' s' k)
  end.

(** [matches r prev s k]: some match of [r] at the front of [s] leaves a
    rest accepted by [k]. *)
Fixpoint matches (r : regex) (prev : option ascii) (s : string) (k : cont) : bool :=
  match r with
  | RChr c =>
      match s with
      | String a s' => Ascii.eqb (lower_ascii a) (lower_ascii c) && k (Some a) s'
      | EmptyString => false
      end
  | RSpace =>
      match s with
      | String a s' => is_space a && k (Some a) s'
      | EmptyString => false
      end
  | RDigit =>
      match s with
      | String a s' => is_digit a && k (Some a) s'
      | EmptyString => false
      end
  | RWordB => xorb (is_word_opt prev) (is_word_opt (head_char s)) && k prev s
  | REps => k prev s
  | RSeq r1 r2 => matches r1 prev s (fun prev' s' => matches r2 prev' s' k)
  | RAlt r1 r2 => matches r1 prev s k || matches r2 prev s k
  | ROpt r1 => matches r1 prev s k || k prev s
  | RStar r1 => iterate (matches r1) (String.length s) prev s k
  | RPlus r1 =>
      matches r1 prev s (fun prev' s' =>
        iterate (matches r1) (String.length s') prev' s' k)
  end.

Fixpoint search (r : regex) (prev : option ascii) (s : string) : bool :=
  matches r prev s (fun _ _ => true) ||
  match s with
  | EmptyString => false
  | String a s' => search r (Some a) s'
  end.

(** [regex.test(s)]. *)
Definition regex_test (r : regex) (s : string) : bool := search r None s.

(* ================================================================== *)
(** ** Data model *)
(* ================================================================== *)

(** A tag as the task source delivers it; both properties may be absent. *)
Record Tag : Type := {
  tag_gid : option string;
  tag_name : option string;
}.

(** A task record.  [task_assignee] is [task.assignee?.name]; a follower is
    represented by its [name] property. *)
Record Task : Type := {
  task_gid : string;
  task_name : string;
  task_completed_at : option string;
  task_tags : option (list Tag);
  task_assignee : option string;
  task_followers : option (list (option string));
}.

(** A classification [{ category, deliverable }]. *)
Record Mapping : Type := {
  category : string;
  deliverable : string;
}.

(** The outcome of a call that may throw a [TypeError]. *)
Inductive Completion (A : Type) : Type :=
| Returned (a : A)
| ThrewTypeError.
Arguments Returned {A} a.
Arguments ThrewTypeError {A}.

(** A goal target: a number, or [null] for "as needed". *)
Definition Target : Type := option nat.

(* ================================================================== *)
(** ** goals.config.js: the tag tables *)
(* ================================================================== *)

Definition TAG_CATEGORY_MAP : gmap string Mapping := list_to_map [
  ("1212903104247034", {| category := "Build"; deliverable := "Side projects" |});
  ("1208438924809387", {| category := "Build"; deliverable := "goose contributions" |});
  ("1212903104247031", {| category := "Build"; deliverable := "goose contributions" |});
  ("1208125190486880", {| category := "Videos"; deliverable := "Tutorial videos" |});
  ("1204316592156255", {| category := "Videos"; deliverable := "Tutorial videos" |});
  ("1204316592156190", {| category := "Videos"; deliverable := "Shorts" |});
  ("1204316592156209", {| category := "Blogs"; deliverable := "Blog posts" |});
  ("1205607058770995", {| category := "Livestreams"; deliverable := "Vibe Code w/ goose streams" |});
  ("1212892322315514", {| category := "Public Speaking"; deliverable := "CFPs (submitted or accepted)" |});
  ("1204316592156237", {| category := "Public Speaking"; deliverable := "Talks delivered" |});
  ("1204316592156228", {| category := "Public Speaking"; deliverable := "Podcast recordings" |});
  ("1206441534238594", {| category := "Public Speaking"; deliverable := "Talks delivered" |});
  ("1200006700367828", {| category := "Community"; deliverable := "Newsletter issues" |});
  ("1204364638447788", {| category := "Community"; deliverable := "Community" |});
  ("1204316592156189", {| category := "Documentation"; deliverable := "Docs" |});
  ("1204463482160284", {| category := "Documentation"; deliverable := "Docs" |});
  ("1207924330531310", {| category := "Documentation"; deliverable := "Docs" |})
].

Definition TAG_NAME_MAP : gmap string Mapping := list_to_map [
  ("side project", {| category := "Build"; deliverable := "Side projects" |});
  ("goose", {| category := "Build"; deliverable := "goose contributions" |});
  ("goose contribution", {| category := "Build"; deliverable := "goose contributions" |});
  ("video tutorial", {| category := "Videos"; deliverable := "Tutorial videos" |});
  ("tutorial", {| category := "Videos"; deliverable := "Tutorial videos" |});
  ("video", {| category := "Videos"; deliverable := "Shorts" |});
  ("blog", {| category := "Blogs"; deliverable := "Blog posts" |});
  ("livestream", {| category := "Livestreams"; deliverable := "Vibe Code w/ goose streams" |});
  ("cfp", {| category := "Public Speaking"; deliverable := "CFPs (submitted or accepted)" |});
  ("public speaking", {| category := "Public Speaking"; deliverable := "Talks delivered" |});
  ("podcast", {| category := "Public Speaking"; deliverable := "Podcast recordings" |});
  ("workshop", {| category := "Public Speaking"; deliverable := "Talks delivered" |});
  ("newsletter", {| category := "Community"; deliverable := "Newsletter issues" |});
  ("community", {| category := "Community"; deliverable := "Community" |});
  ("documentation", {| category := "Documentation"; deliverable := "Docs" |});
  ("guide", {| category := "Documentation"; deliverable := "Docs" |});
  ("internal devrel", {| category := "Documentation"; deliverable := "Docs" |})
].

(** The key under which [obj[v]] reads a possibly absent value. *)
Definition propertyKey (v : option string) : string :=
  match v with Some s => s | None => "undefined" end.

(** Both tables are object literals, so [table[key]] also finds what
    [Object.prototype] provides under these names. *)
Definition Object_prototype_names : list string := [
  "constructor"; "__proto__"; "hasOwnProperty"; "isPrototypeOf";
  "propertyIsEnumerable"; "toLocaleString"; "toString"; "valueOf";
  "__defineGetter__"; "__defineSetter__"; "__lookupGetter__"; "__lookupSetter__"
].

(** What an inherited property looks like to the classifier: a truthy value
    whose [category] and [deliverable] are both [undefined].  The callers
    use the two as property keys, where [undefined] reads as the key
    ["undefined"], or compare them with the name of a category or of a
    deliverable, which ["undefined"] is not. *)
Definition inheritedProperty : Mapping :=
  {| category := "undefined"; deliverable := "undefined" |}.

(** [table[key]] for a tag table: [Some] when the value is truthy. *)
Definition tableLookup (table : gmap string Mapping) (key : string) : option Mapping :=
  match table !! key with
  | Some m => Some m
  | None =>
      if array_includes Object_prototype_names key then Some inheritedProperty
      else None
  end.

(* ================================================================== *)
(** ** The pattern library *)
(* ================================================================== *)

Definition EXCLUDED_ASSIGNEES : list string :=
  ["Anthony Giuliano"; "Eva Sasson"; "Adewale Abati"].

Definition re_schedul : regex := lit "schedul".
Definition re_post_on_to : regex :=
  (lit "post" ⋅ ROpt (lit "ed" ∣ lit "ing") ⋅ \s+ ⋅ (lit "on" ∣ lit "to"))%re.
Definition re_share_ds : regex := (lit "share" ⋅ ROpt (lit "d" ∣ lit "s"))%re.
Definition re_doc_for_goose : regex :=
  (lit "doc" ⋅ ROpt (lit "s" ∣ lit "umentation") ⋅ \s* ⋅ ROpt (lit "for" ⋅ \s+) ⋅ lit "goose")%re.

Definition EXCLUSION_PATTERNS : gmap string (list regex) := list_to_map [
  ("Blog posts", [
     lit "promo";
     lit "promot";
     (re_share_ds ⋅ \s+ ⋅ ROpt (lit "the" ⋅ \s+) ⋅ lit "blog")%re;
     (re_post_on_to ⋅ \s+ ⋅ (lit "social" ∣ lit "twitter" ∣ lit "linkedin" ∣ lit "x" ⋅ \b))%re;
     (lit "social" ⋅ \s* ⋅ lit "media")%re;
     lit "automat" ]);
  ("Shorts", [
     re_schedul;
     re_post_on_to;
     re_share_ds;
     lit "social";
     lit "distribute";
     lit "upload";
     lit "promo" ]);
  ("Tutorial videos", [
     re_schedul;
     re_post_on_to;
     re_share_ds;
     lit "social";
     lit "distribute";
     lit "promo" ]);
  ("Newsletter issues", [
     lit "prep";
     (lit "plan" ⋅ ROpt (lit "ning"))%re;
     lit "draft";
     lit "outline";
     lit "idea" ]);
  ("Metrics reports", [
     lit "expense";
     (lit "status" ⋅ \s* ⋅ lit "report")%re;
     (lit "weekly" ⋅ \s* ⋅ lit "report")%re;
     (lit "progress" ⋅ \s* ⋅ lit "report")%re ]);
  ("goose contributions", [
     lit "session";
     lit "meeting";
     (lit "prep" ⋅ ROpt (lit "are" ∣ lit "aring"))%re;
     re_schedul;
     lit "demo";
     lit "review";
     lit "learn";
     (lit "test" ⋅ ROpt (lit "ing") ⋅ \s+ ⋅ lit "goose")%re;
     (lit "goose" ⋅ \s* ⋅ lit "doc")%re;
     re_doc_for_goose ]);
  ("Docs", [
     lit "expense" ])
].

Definition CONFIRMATION_PATTERNS : gmap string (list regex) := list_to_map [
  ("goose contributions", [
     (\b ⋅ lit "pr" ⋅ \b)%re;
     (lit "pull" ⋅ \s* ⋅ lit "request")%re;
     (lit "merg" ⋅ (lit "e" ∣ lit "ed" ∣ lit "ing"))%re;
     (lit "fix" ⋅ ROpt (lit "ed" ∣ lit "ing" ∣ lit "es") ⋅ \b)%re;
     (\b ⋅ lit "bug" ⋅ \b)%re;
     lit "feature";
     lit "contribut";
     lit "implement";
     (lit "ship" ⋅ ROpt (lit "ped" ∣ lit "ping"))%re;
     (lit "issue" ⋅ \s* ⋅ ROpt (lit "#") ⋅ RPlus RDigit)%re;
     lit "resolv";
     (lit "clos" ⋅ (lit "e" ∣ lit "ed" ∣ lit "ing"))%re ]);
  ("Blog posts", [
     (lit "wr" ⋅ ROpt (lit "o") ⋅ lit "te")%re;
     (lit "writ" ⋅ (lit "e" ∣ lit "ing" ∣ lit "ten"))%re;
     lit "publish";
     lit "draft";
     (\b ⋅ lit "blog" ⋅ \s* ⋅ (lit "post" ∣ lit "article"))%re;
     lit "author" ]);
  ("Metrics reports", [
     lit "metrics";
     (lit "community" ⋅ \s* ⋅ (lit "metrics" ∣ lit "report"))%re;
     lit "analytics";
     (lit "discord" ⋅ \s* ⋅ (lit "metrics" ∣ lit "stats"))%re;
     (lit "github" ⋅ \s* ⋅ (lit "metrics" ∣ lit "stats"))%re ]);
  ("Side projects", [
     (lit "side" ⋅ \s* ⋅ lit "project")%re;
     (\b ⋅ lit "repo" ⋅ \b)%re;
     lit "repositor";
     lit "built";
     lit "building";
     (lit "ship" ⋅ ROpt (lit "ped"))%re ])
].

(** [AGENTIC_PATTERNS], in the order [Object.entries] enumerates it. *)
Definition AGENTIC_PATTERNS : list (string * list regex) := [
  ("MCP Apps", [ (lit "mcp" ⋅ \s* ⋅ lit "app")%re ]);
  ("MCP Sampling", [ (lit "mcp" ⋅ \s* ⋅ lit "sampl")%re; (\b ⋅ lit "sampling" ⋅ \b)%re ]);
  ("Skills", [ lit "skill"; lit "taste" ]);
  ("Elicitation", [ lit "elicit" ]);
  ("Recipes", [ lit "recipe" ]);
  ("Subagents", [ lit "subagent"; lit "sub-agent" ]);
  ("Code Mode", [ (lit "code" ⋅ \s* ⋅ lit "mode")%re ]);
  ("ACP", [ (\b ⋅ lit "acp" ⋅ \b)%re; (lit "agent" ⋅ \s* ⋅ lit "client" ⋅ \s* ⋅ lit "protocol")%re ]);
  ("RPI", [ (\b ⋅ lit "rpi" ⋅ \b)%re ]);
  ("Ralph Wiggum Loop", [ lit "ralph" ]);
  ("Context Engineering", [ (lit "context" ⋅ \s* ⋅ lit "engineer")%re; lit "agents.md"; lit "goosehints" ]);
  ("ai-rules", [ lit "ai-rules"; (lit "ai" ⋅ \s* ⋅ lit "rules")%re ]);
  ("Plans", [ (\b ⋅ lit "plan" ⋅ ROpt (lit "s") ⋅ \b)%re; (lit "planning" ⋅ \s* ⋅ lit "mode")%re ]);
  ("Beads", [ (\b ⋅ lit "bead" ⋅ ROpt (lit "s") ⋅ \b)%re ])
].

Definition CONTENT_DELIVERABLES : list string :=
  ["Tutorial videos"; "Shorts"; "Blog posts"; "Vibe Code w/ goose streams"].

(** [patterns.some(pattern => pattern.test(taskName))]. *)
Definition some_test (patterns : list regex) (taskName : string) : bool :=
  existsb (fun pattern => regex_test pattern taskName) patterns.

Definition detectAgenticPatterns (taskName : string) : list string :=
  map fst (List.filter (fun entry => some_test (snd entry) taskName) AGENTIC_PATTERNS).

(** [isExcluded] and [hasConfirmation] are called with the deliverable names
    of the tag tables and of the rules only, none of which names a property
    that the two pattern tables inherit. *)
Definition isExcluded (taskName category : string) : bool :=
  match EXCLUSION_PATTERNS !! category with
  | None => false
  | Some patterns => some_test patterns taskName
  end.

Definition hasConfirmation (taskName category : string) : bool :=
  match CONFIRMATION_PATTERNS !! category with
  | None => true
  | Some patterns => some_test patterns taskName
  end.

(* ================================================================== *)
(** ** categorizeTask *)
(* ================================================================== *)

(** [t.gid === g]. *)
Definition gid_is (t : Tag) (g : string) : bool :=
  match tag_gid t with Some x => String.eqb x g | None => false end.

(** [t.name?.toLowerCase() === s]. *)
Definition name_lower_is (t : Tag) (s : string) : bool :=
  match tag_name t with Some n => String.eqb (toLowerCase n) s | None => false end.

Definition hasSideProjectTag (tags : list Tag) : bool :=
  existsb (fun t => gid_is t "1212903104247034" || name_lower_is t "side project") tags.

Definition hasCfpTag (tags : list Tag) : bool :=
  existsb (fun t => gid_is t "1212892322315514" || name_lower_is t "cfp") tags.

Definition hasGooseContributionTag (tags : list Tag) : bool :=
  existsb (fun t => gid_is t "1212903104247031" || name_lower_is t "goose contribution") tags.

Definition hasTutorialTag (tags : list Tag) : bool :=
  existsb (fun t => gid_is t "1208125190486880" || gid_is t "1204316592156255") tags.

Definition hasVideoTag (tags : list Tag) : bool :=
  existsb (fun t => gid_is t "1204316592156190") tags.

(** What the body of a [for (const tag of tags)] loop does with one tag. *)
Inductive TagStep : Type :=
| Continue                  (* go on with the next tag *)
| Return (mapping : Mapping) (* return from categorizeTask *)
| Throw.                    (* a TypeError escapes *)

Fixpoint forTags (body : Tag -> TagStep) (tags : list Tag) : TagStep :=
  match tags with
  | [] => Continue
  | tag :: rest =>
      match body tag with
      | Continue => forTags body rest
      | Return mapping => Return mapping
      | Throw => Throw
      end
  end.

(** [/under\s*(60|1\s*min)/i] *)
Definition re_under_60 : regex :=
  (lit "under" ⋅ \s* ⋅ (lit "60" ∣ lit "1" ⋅ \s* ⋅ lit "min"))%re.

(** Phase 1, one tag: identifier-keyed lookup with validation. *)
Definition phase1_tag (tags : list Tag) (taskName taskNameOriginal : string)
    (tag : Tag) : TagStep :=
  match tableLookup TAG_CATEGORY_MAP (propertyKey (tag_gid tag)) with
  | None => Continue
  | Some mapping =>
      if gid_is tag "1212903104247034" || gid_is tag "1212892322315514"
         || gid_is tag "1212903104247031" then Continue
      else if gid_is tag "1204316592156190" then
        if (includes taskName "short" || includes taskName "[shorts]"
            || includes taskName "quick tip" || regex_test re_under_60 taskName)
           && negb (includes taskName "shortcut")
           && negb (isExcluded taskNameOriginal "Shorts")
        then Return {| category := "Videos"; deliverable := "Shorts" |}
        else if (hasTutorialTag tags || includes taskName "tutorial"
                 || includes taskName "plug & play" || includes taskName "plug and play"
                 || includes taskName "flight school")
                && negb (isExcluded taskNameOriginal "Tutorial videos")
        then Return {| category := "Videos"; deliverable := "Tutorial videos" |}
        else if negb (isExcluded taskNameOriginal "Shorts")
        then Return {| category := "Videos"; deliverable := "Shorts" |}
        else Continue
      else if gid_is tag "1208125190486880" || gid_is tag "1204316592156255" then
        let hasVideoKeyword :=
          includes taskName "video" || includes taskName "filmed"
          || includes taskName "recorded" || includes taskName "youtube" in
        if hasVideoTag tags || hasVideoKeyword
        then Return {| category := "Videos"; deliverable := "Tutorial videos" |}
        else Return {| category := "Documentation"; deliverable := "Docs" |}
      else if gid_is tag "1212903104247031" then
        Return {| category := "Build"; deliverable := "goose contributions" |}
      else if gid_is tag "1208438924809387" then
        if isExcluded taskNameOriginal "goose contributions" then Continue
        else if hasConfirmation taskNameOriginal "goose contributions"
        then Return {| category := "Build"; deliverable := "goose contributions" |}
        else Continue
      else if negb (isExcluded taskNameOriginal (deliverable mapping))
      then Return mapping
      else Continue
  end.

(** Phase 2, one tag: name-keyed fallback.  [tag.name.toLowerCase()] throws
    when the tag has no name. *)
Definition phase2_tag (taskNameOriginal : string) (tag : Tag) : TagStep :=
  match tag_name tag with
  | None => Throw
  | Some name =>
      let tagNameLower := toLowerCase name in
      match tableLookup TAG_NAME_MAP tagNameLower with
      | None => Continue
      | Some mapping =>
          if String.eqb tagNameLower "goose contribution" then
            Return {| category := "Build"; deliverable := "goose contributions" |}
          else if String.eqb tagNameLower "goose" then
            if isExcluded taskNameOriginal "goose contributions" then Continue
            else if hasConfirmation taskNameOriginal "goose contributions"
            then Return mapping
            else Continue
          else if negb (isExcluded taskNameOriginal (deliverable mapping))
          then Return mapping
          else Continue
      end
  end.

(** The video indicators of phase 3. *)
Definition hasVideoIndicator (taskName : string) : bool :=
  includes taskName "video" || includes taskName "filmed"
  || includes taskName "recorded" || includes taskName "youtube"
  || (includes taskName "published" && negb (includes taskName "doc")
      && negb (includes taskName "blog")).

(** Phase 3: keyword matching on the task name. *)
Definition phase3 (taskName taskNameOriginal : string) : option Mapping :=
  if (includes taskName "[shorts]" || includes taskName "quick tip"
      || (includes taskName "short" && negb (includes taskName "shortcut")))
     && negb (isExcluded taskNameOriginal "Shorts")
  then Some {| category := "Videos"; deliverable := "Shorts" |}
  else if (includes taskName "tutorial" || includes taskName "plug & play"
           || includes taskName "plug and play" || includes taskName "flight school")
          && hasVideoIndicator taskName
          && negb (isExcluded taskNameOriginal "Tutorial videos")
  then Some {| category := "Videos"; deliverable := "Tutorial videos" |}
  else if (includes taskName "tutorial" || includes taskName "plug & play"
           || includes taskName "plug and play")
          && negb (hasVideoIndicator taskName)
          && negb (isExcluded taskNameOriginal "Docs")
  then Some {| category := "Documentation"; deliverable := "Docs" |}
  else if includes taskName "livestream" || includes taskName "vibe code"
          || (includes taskName "stream" && includes taskName "goose")
  then Some {| category := "Livestreams"; deliverable := "Vibe Code w/ goose streams" |}
  else if (includes taskName "blog" || includes taskName "article")
          && negb (isExcluded taskNameOriginal "Blog posts")
          && hasConfirmation taskNameOriginal "Blog posts"
  then Some {| category := "Blogs"; deliverable := "Blog posts" |}
  else if includes taskName "cfp"
          || (includes taskName "submit"
              && (includes taskName "conference" || includes taskName "talk"))
  then Some {| category := "Public Speaking"; deliverable := "CFPs (submitted or accepted)" |}
  else if includes taskName "podcast" || includes taskName "guest recording"
          || (includes taskName "recording" && includes taskName "guest")
  then Some {| category := "Public Speaking"; deliverable := "Podcast recordings" |}
  else if includes taskName "keynote" || includes taskName "workshop"
          || (includes taskName "talk"
              && (includes taskName "deliver" || includes taskName "gave"
                  || includes taskName "present"))
  then Some {| category := "Public Speaking"; deliverable := "Talks delivered" |}
  else if includes taskName "newsletter"
          && negb (isExcluded taskNameOriginal "Newsletter issues")
  then Some {| category := "Community"; deliverable := "Newsletter issues" |}
  else if includes taskName "spotlight"
  then Some {| category := "Community"; deliverable := "Spotlights" |}
  else if (includes taskName "metrics" || includes taskName "report")
          && negb (isExcluded taskNameOriginal "Metrics reports")
          && hasConfirmation taskNameOriginal "Metrics reports"
  then Some {| category := "Community"; deliverable := "Metrics reports" |}
  else if includes taskName "goose"
          && negb (isExcluded taskNameOriginal "goose contributions")
          && hasConfirmation taskNameOriginal "goose contributions"
  then Some {| category := "Build"; deliverable := "goose contributions" |}
  else if (includes taskName "side project" || includes taskName "sideproject")
          && hasConfirmation taskNameOriginal "Side projects"
  then Some {| category := "Build"; deliverable := "Side projects" |}
  else if (includes taskName "goose doc" || includes taskName "goose-doc"
           || regex_test re_doc_for_goose taskNameOriginal
           || (includes taskName "goose" && includes taskName "documentation"))
          && negb (isExcluded taskNameOriginal "Docs")
  then Some {| category := "Documentation"; deliverable := "Docs" |}
  else if (includes taskName "documentation"
           || (includes taskName "doc"
               && (includes taskName "wrote" || includes taskName "update"
                   || includes taskName "add")))
          && negb (isExcluded taskNameOriginal "Docs")
  then Some {| category := "Documentation"; deliverable := "Docs" |}
  else None.

(** [task.tags || []] *)
Definition tagsOf (task : Task) : list Tag :=
  match task_tags task with Some l => l | None => [] end.

(** [categorizeTask(task)]: [Returned None] is the result [null]. *)
Definition categorizeTask (task : Task) : Completion (option Mapping) :=
  let tags := tagsOf task in
  let taskName := toLowerCase (task_name task) in
  let taskNameOriginal := task_name task in
  (* Phase 0: priority tags *)
  if hasSideProjectTag tags then
    Returned (Some {| category := "Build"; deliverable := "Side projects" |})
  else if hasCfpTag tags then
    Returned (Some {| category := "Public Speaking";
                      deliverable := "CFPs (submitted or accepted)" |})
  else if hasGooseContributionTag tags then
    Returned (Some {| category := "Build"; deliverable := "goose contributions" |})
  else
    (* Phase 1: tag identifiers *)
    match forTags (phase1_tag tags taskName taskNameOriginal) tags with
    | Return mapping => Returned (Some mapping)
    | Throw => ThrewTypeError
    | Continue =>
        (* Phase 2: tag names *)
        match forTags (phase2_tag taskNameOriginal) tags with
        | Return mapping => Returned (Some mapping)
        | Throw => ThrewTypeError
        | Continue =>
            (* Phase 3: keywords *)
            Returned (phase3 taskName taskNameOriginal)
        end
    end.

(* ================================================================== *)
(** ** searchCompletedTasks: the assignee filter *)
(* ================================================================== *)

(** The callback of [uniqueTasks.filter(...)]. *)
Definition keepsTask (task : Task) : bool :=
  match task_assignee task with
  | None => true
  | Some assigneeName =>
      if String.eqb assigneeName "" then true
      else negb (array_includes EXCLUDED_ASSIGNEES assigneeName)
  end.

(** [filteredTasks], the list [searchCompletedTasks] returns. *)
Definition filteredTasks (uniqueTasks : list Task) : list Task :=
  List.filter keepsTask uniqueTasks.

(* ================================================================== *)
(** ** calculateProgress *)
(* ================================================================== *)

(** The display record pushed on a deliverable's task list;
    [sourceDeliverable] is set on the copies kept for "Agentic patterns
    owned". *)
Record TaskData : Type := {
  td_gid : string;
  td_name : string;
  td_completed_at : option string;
  td_assignee : string;
  td_collaborators : list string;
  td_tags : list (option string);
  td_agenticPatterns : list string;
  td_sourceDeliverable : option string;
}.

(** One slot of the progress object. *)
Record Entry : Type := {
  completed : nat;
  tasks : list TaskData;
  patternsFound : option (list string);
}.

Definition emptyEntry : Entry :=
  {| completed := 0; tasks := []; patternsFound := None |}.

(** Followers that are named, are not the assignee and are not excluded. *)
Fixpoint collaboratorsOf (assigneeName : option string)
    (followers : list (option string)) : list string :=
  match followers with
  | [] => []
  | Some name :: rest =>
      if negb (String.eqb name "")
         && negb (match assigneeName with
                  | Some a => String.eqb name a
                  | None => false
                  end)
         && negb (array_includes EXCLUDED_ASSIGNEES name)
      then name :: collaboratorsOf assigneeName rest
      else collaboratorsOf assigneeName rest
  | None :: rest => collaboratorsOf assigneeName rest
  end.

Definition makeTaskData (task : Task) (patterns : list string) : TaskData :=
  {| td_gid := task_gid task;
     td_name := task_name task;
     td_completed_at := task_completed_at task;
     td_assignee :=
       match task_assignee task with
       | Some n => if String.eqb n "" then "Unassigned" else n
       | None => "Unassigned"
       end;
     td_collaborators :=
       collaboratorsOf (task_assignee task)
         (match task_followers task with Some l => l | None => [] end);
     td_tags :=
       match task_tags task with Some l => map tag_name l | None => [] end;
     td_agenticPatterns := patterns;
     td_sourceDeliverable := None |}.

Definition withSourceDeliverable (taskData : TaskData) (d : string) : TaskData :=
  {| td_gid := td_gid taskData;
     td_name := td_name taskData;
     td_completed_at := td_completed_at taskData;
     td_assignee := td_assignee taskData;
     td_collaborators := td_collaborators taskData;
     td_tags := td_tags taskData;
     td_agenticPatterns := td_agenticPatterns taskData;
     td_sourceDeliverable := Some d |}.

(** [Set.prototype.add] on a set kept in insertion order. *)
Definition Set_add (s : list string) (x : string) : list string :=
  if array_includes s x then s else s ++ [x].

(** [progress[c]?.[d]] *)
Definition lookupEntry (progress : gmap string (gmap string Entry))
    (c d : string) : option Entry :=
  progress !! c ≫= (.!! d).

(** The mutable state of the loop over the tasks. *)
Record Accumulator : Type := {
  progress : gmap string (gmap string Entry);
  agenticPatternsFound : list string;
  agenticPatternsTasks : list TaskData;
}.

(** [completed++] and [tasks.push(taskData)] on one slot. *)
Definition countTask (taskData : TaskData) (e : Entry) : Entry :=
  {| completed := S (completed e);
     tasks := tasks e ++ [taskData];
     patternsFound := patternsFound e |}.

(** The body of [for (const task of tasks)]. *)
Definition processTask (acc : Accumulator) (task : Task) : Completion Accumulator :=
  match categorizeTask task with
  | ThrewTypeError => ThrewTypeError
  | Returned None => Returned acc
  | Returned (Some mapping) =>
      match lookupEntry (progress acc) (category mapping) (deliverable mapping) with
      | None => Returned acc
      | Some _ =>
          let patterns := detectAgenticPatterns (task_name task) in
          let taskData := makeTaskData task patterns in
          let progress' :=
            alter (alter (countTask taskData) (deliverable mapping))
                  (category mapping) (progress acc) in
          if array_includes CONTENT_DELIVERABLES (deliverable mapping)
             && (0 <? length patterns)%nat
          then Returned
                 {| progress := progress';
                    agenticPatternsFound :=
                      fold_left Set_add patterns (agenticPatternsFound acc);
                    agenticPatternsTasks :=
                      agenticPatternsTasks acc
                      ++ [withSourceDeliverable taskData (deliverable mapping)] |}
          else Returned
                 {| progress := progress';
                    agenticPatternsFound := agenticPatternsFound acc;
                    agenticPatternsTasks := agenticPatternsTasks acc |}
      end
  end.

Fixpoint processTasks (acc : Accumulator) (input : list Task) : Completion Accumulator :=
  match input with
  | [] => Returned acc
  | task :: rest =>
      match processTask acc task with
      | ThrewTypeError => ThrewTypeError
      | Returned acc' => processTasks acc' rest
      end
  end.

(** A zero count and an empty task list for every declared pair. *)
Definition initialProgress (goals : gmap string (gmap string Target))
    : gmap string (gmap string Entry) :=
  (fun deliverables : gmap string Target =>
     (fun _ : Target => emptyEntry) <$> deliverables) <$> goals.

(** The final write to the slot of "Agentic patterns owned". *)
Definition populatePatterns (acc : Accumulator) (e : Entry) : Entry :=
  {| completed := length (agenticPatternsFound acc);
     tasks := agenticPatternsTasks acc;
     patternsFound := Some (agenticPatternsFound acc) |}.

(** The state before the loop: the initialised progress object, an empty
    pattern set and an empty list of pattern tasks. *)
Definition initialAccumulator (goals : gmap string (gmap string Target))
    : Accumulator :=
  {| progress := initialProgress goals;
     agenticPatternsFound := [];
     agenticPatternsTasks := [] |}.

Definition calculateProgress (input : list Task)
    (goals : gmap string (gmap string Target))
    : Completion (gmap string (gmap string Entry)) :=
  match processTasks (initialAccumulator goals) input with
  | ThrewTypeError => ThrewTypeError
  | Returned acc =>
      match lookupEntry (progress acc) "Build" "Agentic patterns owned" with
      | Some _ =>
          Returned (alter (alter (populatePatterns acc) "Agentic patterns owned")
                          "Build" (progress acc))
      | None => Returned (progress acc)
      end
  end.

(* ================================================================== *)
(** ** The quarter cache *)
(* ================================================================== *)

Record QuarterConfig : Type := {
  quarter_name : string;
  startDate : string;
  endDate : string;
  months : list string;
}.

Definition QUARTER_CONFIG : gmap string QuarterConfig := list_to_map [
  ("2026-Q1", {| quarter_name := "Q1 2026"; startDate := "2025-12-31";
                 endDate := "2026-04-01";
                 months := ["January"; "February"; "March"] |});
  ("2026-Q2", {| quarter_name := "Q2 2026"; startDate := "2026-03-31";
                 endDate := "2026-07-01";
                 months := ["April"; "May"; "June"] |});
  ("2026-Q3", {| quarter_name := "Q3 2026"; startDate := "2026-06-30";
                 endDate := "2026-10-01";
                 months := ["July"; "August"; "September"] |});
  ("2026-Q4", {| quarter_name := "Q4 2026"; startDate := "2026-09-30";
                 endDate := "2027-01-01";
                 months := ["October"; "November"; "December"] |})
].

(** Days between 1970-01-01 and a date of the proleptic Gregorian calendar. *)
Definition days_from_civil (y m d : Z) : Z :=
  let y' := if (m <=? 2)%Z then (y - 1)%Z else y in
  let era := (y' / 400)%Z in
  let yoe := (y' - era * 400)%Z in
  let mp := if (m >? 2)%Z then (m - 3)%Z else (m + 9)%Z in
  let doy := ((153 * mp + 2) / 5 + d - 1)%Z in
  let doe := (yoe * 365 + yoe / 4 - yoe / 100 + doy)%Z in
  (era * 146097 + doe - 719468)%Z.

Definition digit_value (c : ascii) : option Z :=
  if is_digit c then Some (Z.of_N (code c) - 48)%Z else None.

Fixpoint digits_value (acc : Z) (s : string) : option Z :=
  match s with
  | EmptyString => Some acc
  | String c s' =>
      match digit_value c with
      | Some v => digits_value (acc * 10 + v)%Z s'
      | None => None
      end
  end.

(** [new Date(s).getTime()] for a date-only string [YYYY-MM-DD], which is
    read as midnight UTC; [None] is an invalid date. *)
Definition Date_parse (s : string) : option Z :=
  if (String.length s =? 10)%nat
     && String.eqb (substring 4 1 s) "-" && String.eqb (substring 7 1 s) "-"
  then
    match digits_value 0 (substring 0 4 s), digits_value 0 (substring 5 2 s),
          digits_value 0 (substring 8 2 s) with
    | Some y, Some m, Some d =>
        if (1 <=? m)%Z && (m <=? 12)%Z && (1 <=? d)%Z && (d <=? 31)%Z
        then Some (days_from_civil y m d * 86400000)%Z
        else None
    | _, _, _ => None
    end
  else None.

Definition CURRENT_QUARTER_TTL : Z := 5 * 60 * 1000.

(** [endDate < now]; a comparison with an invalid date is false, and so is
    the result for a quarter without configuration. *)
Definition isQuarterPast (now : Z) (quarterId : string) : bool :=
  match QUARTER_CONFIG !! quarterId with
  | None => false
  | Some config =>
      match Date_parse (endDate config) with
      | Some endMs => (endMs <? now)%Z
      | None => false
      end
  end.

Record CacheEntry (Data : Type) : Type := {
  data : Data;
  timestamp : Z;
  isPast : bool;
}.
Arguments data {Data} _.
Arguments timestamp {Data} _.
Arguments isPast {Data} _.

Definition getCacheKey (quarterId : string) : string := quarterId.

Definition isCacheValid {Data : Type} (now : Z)
    (cacheEntry : option (CacheEntry Data)) (quarterId : string) : bool :=
  match cacheEntry with
  | None => false
  | Some e =>
      if isQuarterPast now quarterId && isPast e then true
      else (now - timestamp e <? CURRENT_QUARTER_TTL)%Z
  end.

Definition setCache {Data : Type} (now : Z) (quarterId : string) (payload : Data)
    (quarters : gmap string (CacheEntry Data)) : gmap string (CacheEntry Data) :=
  <[getCacheKey quarterId :=
      {| data := payload; timestamp := now; isPast := isQuarterPast now quarterId |}]>
    quarters.

(** [getCache]: the value returned ([None] for [null]) and the cache map
    after the call. *)
Definition getCache {Data : Type} (now : Z) (quarterId : string)
    (quarters : gmap string (CacheEntry Data))
    : option Data * gmap string (CacheEntry Data) :=
  let key := getCacheKey quarterId in
  let entry := quarters !! key in
  if isCacheValid now entry quarterId then (data <$> entry, quarters)
  else
    match entry with
    | Some _ => (None, delete key quarters)
    | None => (None, quarters)
    end.

(** A run of [getCache] calls for one quarter at the given instants: the
    values returned, in order, and the cache map at the end. *)
Fixpoint getCacheAt {Data : Type} (instants : list Z) (quarterId : string)
    (quarters : gmap string (CacheEntry Data))
    : list (option Data) * gmap string (CacheEntry Data) :=
  match instants with
  | [] => ([], quarters)
  | now :: later =>
      let '(r, quarters') := getCache now quarterId quarters in
      let '(rs, quarters'') := getCacheAt later quarterId quarters' in
      (r :: rs, quarters'')
  end.

(* ================================================================== *)
(** ** Vocabulary of the statements *)
(* ================================================================== *)

(** [categorizeTask] returns the pair [(c, d)] for the task. *)
Definition classifiedAs (c d : string) (task : Task) : bool :=
  match categorizeTask task with
  | Returned (Some m) => String.eqb (category m) c && String.eqb (deliverable m) d
  | _ => false
  end.

(** The goal spec declares the pair [(c, d)]. *)
Definition declaredIn (goals : gmap string (gmap string Target)) (c d : string) : bool :=
  match goals !! c ≫= (.!! d) with Some _ => true | None => false end.

(** [categorizeTask] returns a pair for the task and the goal spec declares it. *)
Definition classifiedToDeclared (goals : gmap string (gmap string Target))
    (task : Task) : bool :=
  match categorizeTask task with
  | Returned (Some m) => declaredIn goals (category m) (deliverable m)
  | _ => false
  end.

(** The display record [calculateProgress] builds for a task. *)
Definition taskDataOf (task : Task) : TaskData :=
  makeTaskData task (detectAgenticPatterns (task_name task)).

(** The slot of the derived aggregate. *)
Definition isPatternsSlot (c d : string) : bool :=
  String.eqb c "Build" && String.eqb d "Agentic patterns owned".

(** The sum of [weight c d entry] over all slots of a progress object. *)
Definition sumSlots (weight : string -> string -> Entry -> nat)
    (p : gmap string (gmap string Entry)) : nat :=
  sum_list_with
    (fun cds => sum_list_with (fun de => weight cds.1 de.1 de.2) (map_to_list cds.2))
    (map_to_list p).

(** The sum of the completed counts over all slots. *)
Definition sumCompleted (p : gmap string (gmap string Entry)) : nat :=
  sumSlots (fun _ _ e => completed e) p.

(** The same sum without the slot of the derived aggregate. *)
Definition sumCompletedOfTasks (p : gmap string (gmap string Entry)) : nat :=
  sumSlots (fun c d e => if isPatternsSlot c d then 0 else completed e) p.

(** Every tag of the task has a name. *)
Definition tagsNamed (task : Task) : bool :=
  forallb (fun tag => match tag_name tag with Some _ => true | None => false end)
          (tagsOf task).

(** The derived aggregate of a progress object: its count and pattern set. *)
Definition patternsOwned (p : gmap string (gmap string Entry))
    : option (nat * list string) :=
  match lookupEntry p "Build" "Agentic patterns owned" with
  | Some e =>
      match patternsFound e with
      | Some found => Some (completed e, found)
      | None => None
      end
  | None => None
  end.

(** A task that contributes its patterns to the derived aggregate. *)
Definition isContentTask (goals : gmap string (gmap string Target)) (task : Task) : bool :=
  match categorizeTask task with
  | Returned (Some m) =>
      declaredIn goals (category m) (deliverable m)
      && array_includes CONTENT_DELIVERABLES (deliverable m)
  | _ => false
  end.

(** Every deliverable name [categorizeTask] can return; ["undefined"] stands
    for the [deliverable] of an inherited property. *)
Definition classifierDeliverables : list string := [
  "Side projects"; "goose contributions"; "Tutorial videos"; "Shorts";
  "Blog posts"; "Vibe Code w/ goose streams"; "CFPs (submitted or accepted)";
  "Talks delivered"; "Podcast recordings"; "Newsletter issues"; "Spotlights";
  "Metrics reports"; "Community"; "Docs"; "undefined"
].

(** The slots of a progress object are the pairs the goal spec declares. *)
Definition slotsMatch (goals : gmap string (gmap string Target))
    (p : gmap string (gmap string Entry)) : Prop :=
  forall c d, is_Some (lookupEntry p c d) <-> declaredIn goals c d = true.

(** The slot [e] after the tasks [l] have been counted on it, in order. *)
Definition addTasks (l : list Task) (e : Entry) : Entry :=
  {| completed := completed e + length l;
     tasks := tasks e ++ map taskDataOf l;
     patternsFound := patternsFound e |}.

(** Some tag of the list has the identifier [g]. *)
Definition carriesGid (tags : list Tag) (g : string) : Prop :=
  exists tag, In tag tags /\ tag_gid tag = Some g.

(** The deliverables that have an exclusion set. *)
Definition exclusionSets : list string := [
  "Blog posts"; "Shorts"; "Tutorial videos"; "Newsletter issues";
  "Metrics reports"; "goose contributions"; "Docs"
].

(** The generic "goose" tag: that identifier under that name. *)
Definition isGenericGooseTag (tag : Tag) : bool :=
  gid_is tag "1208438924809387" && name_lower_is tag "goose".

(** A tag neither table knows: its identifier is not a key of
    [TAG_CATEGORY_MAP] and its name, which it has, is not a key of
    [TAG_NAME_MAP]. *)
Definition isUnrecognizedTag (tag : Tag) : bool :=
  match tableLookup TAG_CATEGORY_MAP (propertyKey (tag_gid tag)) with
  | Some _ => false
  | None =>
      match tag_name tag with
      | Some name =>
          match tableLookup TAG_NAME_MAP (toLowerCase name) with
          | Some _ => false
          | None => true
          end
      | None => false
      end
  end.

(** The Shorts rule of the keyword phase applies to the name. *)
Definition shortsRuleApplies (taskName taskNameOriginal : string) : bool :=
  (includes taskName "[shorts]" || includes taskName "quick tip"
   || (includes taskName "short" && negb (includes taskName "shortcut")))
  && negb (isExcluded taskNameOriginal "Shorts").

(** A tutorial keyword common to both tutorial rules of the keyword phase. *)
Definition hasTutorialKeyword (taskName : string) : bool :=
  includes taskName "tutorial" || includes taskName "plug & play"
  || includes taskName "plug and play".

(** One of the four video-evidence keywords. *)
Definition hasVideoEvidence (taskName : string) : bool :=
  includes taskName "video" || includes taskName "filmed"
  || includes taskName "recorded" || includes taskName "youtube".

(* ================================================================== *)
(** ** Sample data *)
(* ================================================================== *)

(** [QUARTERLY_GOALS['2026-Q1']] of goals.config.js. *)
Definition QUARTERLY_GOALS_2026_Q1 : gmap string (gmap string Target) := list_to_map [
  ("Build", list_to_map [
     ("Side projects", Some 4); ("goose contributions", Some 4);
     ("Agentic patterns owned", Some 4) ]);
  ("Videos", list_to_map [ ("Tutorial videos", Some 4); ("Shorts", Some 6) ]);
  ("Blogs", list_to_map [ ("Blog posts", Some 10) ]);
  ("Livestreams", list_to_map [ ("Vibe Code w/ goose streams", Some 6) ]);
  ("Public Speaking", list_to_map [
     ("CFPs (submitted or accepted)", Some 6); ("Talks delivered", Some 4);
     ("Podcast recordings", Some 4) ]);
  ("Community", list_to_map [
     ("Newsletter issues", Some 3); ("Spotlights", Some 3);
     ("Metrics reports", Some 3) ]);
  ("Documentation", list_to_map [ ("Docs", None) ])
].

(** An unassigned task with the given name and tags. *)
Definition sampleTask (name : string) (tags : list Tag) : Task :=
  {| task_gid := "1"; task_name := name; task_completed_at := None;
     task_tags := Some tags; task_assignee := None; task_followers := None |}.

(** A task with the given name, no tags and the given assignee. *)
Definition assignedTask (name assignee : string) : Task :=
  {| task_gid := "2"; task_name := name; task_completed_at := None;
     task_tags := None; task_assignee := Some assignee; task_followers := None |}.

Definition sideProjectTag : Tag :=
  {| tag_gid := Some "1212903104247034"; tag_name := Some "side project" |}.
Definition cfpTag : Tag :=
  {| tag_gid := Some "1212892322315514"; tag_name := Some "cfp" |}.
Definition gooseContributionTag : Tag :=
  {| tag_gid := Some "1212903104247031"; tag_name := Some "goose contribution" |}.
Definition gooseTag : Tag :=
  {| tag_gid := Some "1208438924809387"; tag_name := Some "goose" |}.

(** A tag object with an unknown identifier and no [name] field. *)
Definition namelessTag : Tag :=
  {| tag_gid := Some "999"; tag_name := None |}.

(* ================================================================== *)
(** ** searchCompletedTasks: removal of duplicates *)
(* ================================================================== *)

(** The loop that removes duplicates: a task is kept unless its [gid] is in
    [seenGids], the set of the identifiers of the tasks kept so far. *)
Fixpoint uniqueTasksFrom (seenGids : gset string) (allTasks : list Task) : list Task :=
  match allTasks with
  | [] => []
  | task :: rest =>
      if decide (task_gid task ∈ seenGids) then uniqueTasksFrom seenGids rest
      else task :: uniqueTasksFrom ({[task_gid task]} ∪ seenGids) rest
  end.

(** [uniqueTasks], computed from [allTasks]. *)
Definition uniqueTasks (allTasks : list Task) : list Task :=
  uniqueTasksFrom ∅ allTasks.

(* ================================================================== *)
(** ** searchCompletedTasks: the date ranges queried *)
(* ================================================================== *)

(** A date is represented by its day number (days since 1970-01-01): the
    [Date] of a date-only string is midnight UTC of that day, and the
    program reads it back with [toISOString().split('T')[0]].  The step
    [setDate(getDate() + 7)] is taken in a time zone whose offset does not
    change over the range, where it adds seven whole days. *)

(** The loop [while (currentStart < end)]: the chunks still to be queried
    from [currentStart] on.  [fuel] bounds the number of iterations. *)
Fixpoint weeklyChunks (fuel : nat) (currentStart endDay : Z) : list (Z * Z) :=
  match fuel with
  | O => []
  | S fuel' =>
      if (currentStart <? endDay)%Z then
        let currentEnd :=
          if (currentStart + 7 >? endDay)%Z then endDay else (currentStart + 7)%Z in
        (currentStart, currentEnd) :: weeklyChunks fuel' currentEnd endDay
      else []
  end.

(** The ranges [(after, before)] of the queries [searchCompletedTasks]
    sends: weekly chunks when the range is longer than seven days, the range
    itself otherwise.  Every iteration of the loop advances by a day at
    least, so [daysDiff] iterations suffice. *)
Definition searchRanges (startDate endDate : Z) : list (Z * Z) :=
  let daysDiff := (endDate - startDate)%Z in
  if (daysDiff >? 7)%Z then weeklyChunks (Z.to_nat daysDiff) startDate endDate
  else [(startDate, endDate)].

(** [searchCompletedTasks(startDate, endDate)] over a task source [api] that
    answers the query for a range with the [data] of its response, if any:
    the responses are concatenated ([response.data || []]), duplicates are
    removed and the tasks of excluded assignees are filtered out. *)
Definition searchCompletedTasks (api : Z -> Z -> option (list Task))
    (startDate endDate : Z) : list Task :=
  let allTasks :=
    concat (map (fun range =>
                   match api range.1 range.2 with
                   | Some tasks => tasks
                   | None => []
                   end)
                (searchRanges startDate endDate)) in
  filteredTasks (uniqueTasks allTasks).

(** Sample data: a task source over three completed tasks. *)

(** A completed task without tags. *)
Definition completedTask (gid name completedAt : string) (assignee : option string)
    (followers : list string) : Task :=
  {| task_gid := gid; task_name := name; task_completed_at := Some completedAt;
     task_tags := Some []; task_assignee := assignee;
     task_followers := Some (map Some followers) |}.

(** The day number of the date part of [completed_at]. *)
Definition completedDay (task : Task) : Z :=
  match task_completed_at task with
  | Some completedAt =>
      match Date_parse (substring 0 10 completedAt) with
      | Some ms => (ms / 86400000)%Z
      | None => 0%Z
      end
  | None => 0%Z
  end.

Definition sampleCompletedTasks : list Task := [
  completedTask "101" "Published blog post on MCP apps" "2026-01-05T10:00:00.000Z"
    (Some "Ada") ["Eva Sasson"; "Grace"; "Ada"];
  completedTask "102" "Published blog post on recipes" "2026-01-07T10:00:00.000Z"
    (Some "Grace") [];
  completedTask "103" "Published blog post on skills" "2026-01-12T10:00:00.000Z"
    (Some "Eva Sasson") ["Ada"]
].

(** A source that answers with the sample tasks completed strictly between
    the two bounds. *)
Definition sampleSource (after before : Z) : option (list Task) :=
  Some (List.filter
          (fun task => (after <? completedDay task)%Z && (completedDay task <? before)%Z)
          sampleCompletedTasks).

(** The deliverable a task is classified into ([""] when it is classified
    to none or the classifier throws). *)
Definition deliverableOf (task : Task) : string :=
  match categorizeTask task with
  | Returned (Some m) => deliverable m
  | _ => ""
  end.

(** A task whose record is pushed on [agenticPatternsTasks]: a content task
    in whose name a pattern is detected. *)
Definition isPatternTask (goals : gmap string (gmap string Target)) (task : Task) : bool :=
  isContentTask goals task && (0 <? length (detectAgenticPatterns (task_name task)))%nat.

(** The record of a task on the list of "Agentic patterns owned". *)
Definition patternTaskDataOf (task : Task) : TaskData :=
  withSourceDeliverable (taskDataOf task) (deliverableOf task).

(** The pattern set the loop builds: the patterns detected in the content
    tasks, each added to the set in the order of detection. *)
Definition patternsOf (goals : gmap string (gmap string Target))
    (input : list Task) : list string :=
  fold_left Set_add
    (concat (map (fun task => detectAgenticPatterns (task_name task))
                 (List.filter (isContentTask goals) input)))
    [].

(** The slot of "Agentic patterns owned" as the final write leaves it. *)
Definition patternsEntry (goals : gmap string (gmap string Target))
    (input : list Task) : Entry :=
  {| completed := length (patternsOf goals input);
     tasks := map patternTaskDataOf (List.filter (isPatternTask goals) input);
     patternsFound := Some (patternsOf goals input) |}.

(** Two slots added up: counts are summed, task lists are appended. *)
Definition mergeEntries (e1 e2 : Entry) : Entry :=
  {| completed := completed e1 + completed e2;
     tasks := (tasks e1 ++ tasks e2)%list;
     patternsFound := patternsFound e1 |}.

(** Two tags that differ in the letter case of their names at most. *)
Definition sameTagUpToCase (tag tag' : Tag) : Prop :=
  tag_gid tag = tag_gid tag' /\
  option_map toLowerCase (tag_name tag) = option_map toLowerCase (tag_name tag').

(** Two tasks that differ in the letter case of their name and of the names
    of their tags at most (and in the fields [categorizeTask] does not
    read). *)
Definition sameTaskUpToCase (task task' : Task) : Prop :=
  toLowerCase (task_name task) = toLowerCase (task_name task') /\
  Forall2 sameTagUpToCase (tagsOf task) (tagsOf task').

(** Continuations that do not tell the letter case of what they are given. *)
Definition caseBlind (k k' : cont) : Prop :=
  forall prev prev' s s',
    option_map lower_ascii prev = option_map lower_ascii prev' ->
    toLowerCase s = toLowerCase s' ->
    k prev s = k' prev' s'.

(** The classifications [categorizeTask] can return: fourteen pairs of a
    category and a deliverable, and the inherited property of a tag table. *)
Definition classifierPairs : list Mapping := [
  {| category := "Build"; deliverable := "Side projects" |};
  {| category := "Build"; deliverable := "goose contributions" |};
  {| category := "Videos"; deliverable := "Tutorial videos" |};
  {| category := "Videos"; deliverable := "Shorts" |};
  {| category := "Blogs"; deliverable := "Blog posts" |};
  {| category := "Livestreams"; deliverable := "Vibe Code w/ goose streams" |};
  {| category := "Public Speaking"; deliverable := "CFPs (submitted or accepted)" |};
  {| category := "Public Speaking"; deliverable := "Talks delivered" |};
  {| category := "Public Speaking"; deliverable := "Podcast recordings" |};
  {| category := "Community"; deliverable := "Newsletter issues" |};
  {| category := "Community"; deliverable := "Spotlights" |};
  {| category := "Community"; deliverable := "Metrics reports" |};
  {| category := "Community"; deliverable := "Community" |};
  {| category := "Documentation"; deliverable := "Docs" |};
  inheritedProperty
].

(** A tag with the given identifier and the name "tag". *)
Definition tagWithGid (gid : string) : Tag :=
  {| tag_gid := Some gid; tag_name := Some "tag" |}.

(** One task for each classification. *)
Definition classifierSamples : list Task := [
  sampleTask "Team sync" [sideProjectTag];
  sampleTask "Team sync" [gooseContributionTag];
  sampleTask "Recorded a tutorial video on skills" [];
  sampleTask "Quick tip on recipes" [];
  sampleTask "Wrote a blog post on MCP apps and skills" [];
  sampleTask "Livestream with a guest" [];
  sampleTask "Team sync" [cfpTag];
  sampleTask "Keynote in Berlin" [];
  sampleTask "Podcast with a guest" [];
  sampleTask "Newsletter for January" [];
  sampleTask "Spotlight on a contributor" [];
  sampleTask "Community metrics for January" [];
  sampleTask "Team sync" [tagWithGid "1204364638447788"];
  sampleTask "Team sync" [tagWithGid "1204316592156189"];
  sampleTask "Team sync" [tagWithGid "constructor"]
].

(* ================================================================== *)
(** ** The endpoint of the uncategorized tasks *)
(* ================================================================== *)







(** [categorizeTask] returns a classification for the task that the goal
    spec does not declare. *)
Definition classifiedToUndeclared (goals : gmap string (gmap string Target))
    (task : Task) : bool :=
  match categorizeTask task with
  | Returned (Some m) => negb (declaredIn goals (category m) (deliverable m))
  | _ => false
  end.

(* ================================================================== *)
(** ** Open documentation tasks *)
(* ================================================================== *)









(* ================================================================== *)
(** ** rateLimitedFetch: the request counter *)
(* ================================================================== *)

Definition RATE_LIMIT_WINDOW : Z := 60 * 1000.
Definition MAX_REQUESTS_PER_WINDOW : Z := 50.

(** The two module variables of the limiter. *)
Record Limiter : Type := {
  requestCount : Z;
  requestWindowStart : Z;
}.

(** What a call does at the end of a synchronous stretch: it sends its
    request, or it sleeps for [waitTime] milliseconds first. *)
Inductive Outcome : Type :=
| Sends
| Waits (waitTime : Z).

(** A synchronous stretch of [rateLimitedFetch] and what it did: whether it
    restarted the window, and its outcome. *)
Record Stretch : Type := {
  restarted : bool;
  outcome : Outcome;
}.

(** From the entry of [rateLimitedFetch] to its first [await].  The clock is
    read up to three times: in the test of the window, when the window is
    restarted, and for the waiting time. *)
Definition enter (tTest tRestart tWait : Z) (s : Limiter) : Limiter * Stretch :=
  let expired := (tTest - requestWindowStart s >? RATE_LIMIT_WINDOW)%Z in
  let s1 := if expired
            then {| requestCount := 0; requestWindowStart := tRestart |}
            else s in
  if (requestCount s1 >=? MAX_REQUESTS_PER_WINDOW)%Z then
    (s1, {| restarted := expired;
            outcome := Waits (RATE_LIMIT_WINDOW - (tWait - requestWindowStart s1)) |})
  else
    ({| requestCount := requestCount s1 + 1;
        requestWindowStart := requestWindowStart s1 |},
     {| restarted := expired; outcome := Sends |}).

(** From the end of the sleep of a waiting call to the [await] of its
    request: the window is restarted and the request counted. *)
Definition resume (now : Z) (s : Limiter) : Limiter * Stretch :=
  ({| requestCount := 0 + 1; requestWindowStart := now |},
   {| restarted := true; outcome := Sends |}).

(** The synchronous stretches that touch the limiter.  A call that is
    answered with status 429 sleeps and calls [rateLimitedFetch] again,
    which is another [Enter]. *)
Inductive LimiterEvent : Type :=
| Enter (tTest tRestart tWait : Z)
| Resume (now : Z).

Definition limiterStep (s : Limiter) (ev : LimiterEvent) : Limiter * Stretch :=
  match ev with
  | Enter tTest tRestart tWait => enter tTest tRestart tWait s
  | Resume now => resume now s
  end.

(** The stretches run in the given order, calls interleaved in any way:
    the final state and what each stretch did. *)
Fixpoint limiterRun (s : Limiter) (events : list LimiterEvent)
    : Limiter * list Stretch :=
  match events with
  | [] => (s, [])
  | ev :: later =>
      let '(s1, stretch) := limiterStep s ev in
      let '(s2, stretches) := limiterRun s1 later in
      (s2, stretch :: stretches)
  end.

(** The number of requests sent since the window was last restarted, [n]
    of them before the stretches. *)
Fixpoint sentInWindow (n : Z) (stretches : list Stretch) : Z :=
  match stretches with
  | [] => n
  | stretch :: later =>
      sentInWindow
        ((if restarted stretch then 0 else n)
         + (match outcome stretch with Sends => 1 | Waits _ => 0 end))%Z
        later
  end.

(* ================================================================== *)
(** ** getMonthDateRange *)
(* ================================================================== *)

Definition msPerDay : Z := 86400000.

(** [MakeDay(year, month, date)] of the language specification, as a day
    number: months beyond December run into the following years. *)
Definition MakeDay (year month date : Z) : Z :=
  (days_from_civil (year + month / 12) (month mod 12 + 1) 1 + date - 1)%Z.

(** The time value of [new Date(year, month, date)], [None] for an invalid
    date.  The arguments are read in local time: [localTZA t] is the offset
    of the local zone from UTC, in milliseconds, at the local time [t].
    Years 0 to 99 stand for 1900 to 1999. *)
Definition localDate (localTZA : Z -> Z) (year month date : Z) : option Z :=
  let fullYear := if (0 <=? year)%Z && (year <=? 99)%Z then (1900 + year)%Z else year in
  let t := (MakeDay fullYear month date * msPerDay)%Z in
  let utc := (t - localTZA t)%Z in
  if (Z.abs utc <=? 8640000000000000)%Z then Some utc else None.

(** [monthMap[monthName].month]: [Some None] is the [undefined] read from
    an inherited property of the table, [None] a month the table lacks. *)
Definition monthMap : gmap string Z := list_to_map [
  ("January", 0%Z); ("February", 1%Z); ("March", 2%Z); ("April", 3%Z);
  ("May", 4%Z); ("June", 5%Z); ("July", 6%Z); ("August", 7%Z);
  ("September", 8%Z); ("October", 9%Z); ("November", 10%Z); ("December", 11%Z)
].

Definition monthIndex (monthName : string) : option (option Z) :=
  match monthMap !! monthName with
  | Some month => Some (Some month)
  | None =>
      if array_includes Object_prototype_names monthName then Some None else None
  end.

(** The result of [getMonthDateRange]: the two dates, as day numbers, or
    the error thrown. *)
Inductive MonthRange : Type :=
| Range (start finish : Z)
| RangeThrewTypeError     (* [monthInfo] is undefined *)
| RangeThrewRangeError.   (* [toISOString] of an invalid date *)

(** [getMonthDateRange(year, monthName)] for an integral year; the date of
    [toISOString] is the UTC day of the time value. *)
Definition getMonthDateRange (localTZA : Z -> Z) (year : Z) (monthName : string)
    : MonthRange :=
  match monthIndex monthName with
  | None => RangeThrewTypeError
  | Some None => RangeThrewRangeError
  | Some (Some month) =>
      match localDate localTZA year month 0 with
      | None => RangeThrewRangeError
      | Some startDate =>
          match localDate localTZA year (month + 1) 1 with
          | None => RangeThrewRangeError
          | Some endDate => Range (startDate / msPerDay) (endDate / msPerDay)
          end
      end
  end.

(** The day number of a date-only string of the configuration. *)
Definition dayOf (date : string) : option Z :=
  (fun ms => (ms / msPerDay)%Z) <$> Date_parse date.

(** [parseInt(quarterId.split('-')[0])] for an identifier whose part before
    the first hyphen is a non-empty string of decimal digits; identifiers of
    another form are not covered ([None]). *)
Fixpoint beforeHyphen (s : string) : string :=
  match s with
  | EmptyString => EmptyString
  | String c s' => if Ascii.eqb c "-"%char then EmptyString else String c (beforeHyphen s')
  end.

Definition quarterYear (quarterId : string) : option Z :=
  match beforeHyphen quarterId with
  | EmptyString => None
  | digits => digits_value 0 digits
  end.

(** The windows of the monthly searches of [fetchQuarterData]. *)
Definition monthWindows (localTZA : Z -> Z) (year : Z) (monthNames : list string)
    : list MonthRange :=
  map (getMonthDateRange localTZA year) monthNames.

(** Windows of consecutive months with the given numbers of days, the first
    starting after the day [start]: each is bounded by the day before its
    first day and the day after its last day. *)
Fixpoint tiledWindows (start : Z) (lengths : list Z) : list MonthRange :=
  match lengths with
  | [] => []
  | n :: rest => Range start (start + n + 1) :: tiledWindows (start + n)%Z rest
  end.

(* ================================================================== *)
(** ** fetchQuarterData and the endpoints that use it *)
(* ================================================================== *)

(** The object [fetchQuarterData] builds: [payload] stands for the fields
    computed from the task source, [cached] and [cacheAge] are the two
    fields the progress endpoint assigns later. *)
Record QuarterData (Payload : Type) : Type := {
  payload : Payload;
  cached : bool;
  cacheAge : option Z;
}.
Arguments payload {Payload} _.
Arguments cached {Payload} _.
Arguments cacheAge {Payload} _.

(** [obj[key]] is truthy for a table whose values are objects: an own
    property or one inherited from [Object.prototype]. *)
Definition hasTruthyProperty {A : Type} (table : gmap string A) (key : string) : bool :=
  match table !! key with
  | Some _ => true
  | None => array_includes Object_prototype_names key
  end.

(** The keys of [QUARTERLY_GOALS]. *)
Definition QUARTERLY_GOALS : gmap string (gmap string (gmap string Target)) :=
  {[ "2026-Q1" := QUARTERLY_GOALS_2026_Q1 ]}.

(** [fetchQuarterData(quarterId)], for calls that run one after the other.
    [fresh] is what the computation of the data from the task source gives
    when it is run, [None] when it throws or a request fails; the clock is
    read by [getCache] at [tGet] and by [setCache] at [tSet].  The result is
    the object returned ([None] when an exception escapes) and the cache
    after the call. *)
Definition fetchQuarterData {Payload : Type} (fresh : option Payload) (tGet tSet : Z)
    (quarterId : string) (quarters : gmap string (CacheEntry (QuarterData Payload)))
    : option (QuarterData Payload) * gmap string (CacheEntry (QuarterData Payload)) :=
  let '(hit, quarters1) := getCache tGet quarterId quarters in
  match hit with
  | Some cachedData => (Some cachedData, quarters1)
  | None =>
      match fresh with
      | None => (None, quarters1)
      | Some p =>
          let freshData := {| payload := p; cached := false; cacheAge := None |} in
          (Some freshData, setCache tSet quarterId freshData quarters1)
      end
  end.

(** The answer of an endpoint: an error status or the data sent. *)
Inductive Response (Payload : Type) : Type :=
| Failure (status : nat)
| Success (body : QuarterData Payload).
Arguments Failure {Payload} status.
Arguments Success {Payload} body.

(** The handler of [GET /api/progress/:quarterId].  The object returned by
    [fetchQuarterData] is the one the cache entry holds, so the assignments
    to [data.cached] and [data.cacheAge] change the cached object as well;
    the clock is read at [tFlag] for the age. *)
Definition progressHandler {Payload : Type} (tokenSet : bool) (fresh : option Payload)
    (tGet tSet tFlag : Z) (quarterId : string)
    (quarters : gmap string (CacheEntry (QuarterData Payload)))
    : Response Payload * gmap string (CacheEntry (QuarterData Payload)) :=
  if negb tokenSet then (Failure 500, quarters)
  else if negb (hasTruthyProperty QUARTERLY_GOALS quarterId) then (Failure 404, quarters)
  else if negb (hasTruthyProperty QUARTER_CONFIG quarterId) then (Failure 404, quarters)
  else
    match fetchQuarterData fresh tGet tSet quarterId quarters with
    | (None, quarters1) => (Failure 500, quarters1)
    | (Some d, quarters1) =>
        match quarters1 !! getCacheKey quarterId with
        | Some cacheEntry =>
            let marked := {| payload := payload d; cached := true;
                             cacheAge := Some (tFlag - timestamp cacheEntry)%Z |} in
            (Success marked,
             <[getCacheKey quarterId :=
                 {| data := marked; timestamp := timestamp cacheEntry;
                    isPast := isPast cacheEntry |}]> quarters1)
        | None => (Success d, quarters1)
        end
    end.

(** The handler of [POST /api/refresh/:quarterId]. *)
Definition refreshHandler {Payload : Type} (tokenSet : bool) (fresh : option Payload)
    (tGet tSet : Z) (quarterId : string)
    (quarters : gmap string (CacheEntry (QuarterData Payload)))
    : Response Payload * gmap string (CacheEntry (QuarterData Payload)) :=
  if negb tokenSet then (Failure 500, quarters)
  else
    match fetchQuarterData fresh tGet tSet quarterId
            (delete (getCacheKey quarterId) quarters) with
    | (None, quarters1) => (Failure 500, quarters1)
    | (Some d, quarters1) => (Success d, quarters1)
    end.

(** The tag identifiers phase 1 treats by a rule of their own: the three
    priority tags, the video tag, the two tutorial tags and the generic
    goose tag. *)
Definition specialTagGids : list string := [
  "1212903104247034"; "1212892322315514"; "1212903104247031";
  "1204316592156190"; "1208125190486880"; "1204316592156255";
  "1208438924809387"
].

(** Some tag of the list has, up to letter case, the name [s]. *)
Definition carriesName (tags : list Tag) (s : string) : Prop :=
  exists tag, In tag tags /\ name_lower_is tag s = true.

(* ================================================================== *)
(** ** goals.config.js: getCurrentQuarter *)
(* ================================================================== *)

(** The character of a decimal digit. *)
Definition digitChar (d : Z) : ascii := ascii_of_N (Z.to_N (48 + d)).

(** The decimal digits of [n], most significant first, put before [rest]. *)
Fixpoint decimalFrom (fuel : nat) (n : Z) (rest : string) : string :=
  match fuel with
  | O => rest
  | S fuel' =>
      let rest' := String (digitChar (n mod 10)) rest in
      if (n <? 10)%Z then rest' else decimalFrom fuel' (n / 10)%Z rest'
  end.

(** The string of an integer in a template literal.  A number has no more
    decimal digits than binary ones, which bounds the recursion. *)
Definition Number_toString (n : Z) : string :=
  if (n <? 0)%Z
  then String "-" (decimalFrom (S (Z.to_nat (Z.log2 (- n)))) (- n) "")
  else decimalFrom (S (Z.to_nat (Z.log2 n))) n "".

(** [getCurrentQuarter()] when the clock reads the given year and month
    (0 to 11) in local time. *)
Definition getCurrentQuarter (year month : Z) : string :=
  let quarter :=
    if (month <? 3)%Z then 1%Z
    else if (month <? 6)%Z then 2%Z
    else if (month <? 9)%Z then 3%Z
    else 4%Z in
  Number_toString year ++ "-Q" ++ Number_toString quarter.

(** A string of decimal digits. *)
Fixpoint allDigits (s : string) : bool :=
  match s with
  | EmptyString => true
  | String c s' => is_digit c && allDigits s'
  end.

(* ================================================================== *)
(** * Properties *)
(* ================================================================== *)

(** ** Strings and arrays *)

Lemma array_includes_In (l : list string) (x : string) :
  array_includes l x = true <-> In x l.
Proof.
  unfold array_includes. rewrite existsb_exists. split.
  - intros (y & Hy & Heq). apply String.eqb_eq in Heq. now subst.
  - intros Hin. exists x. split; [assumption | apply String.eqb_refl].
Qed.

Lemma array_includes_false (l : list string) (x : string) :
  array_includes l x = false <-> ~ In x l.
Proof.
  rewrite <- array_includes_In. destruct (array_includes l x); split; congruence.
Qed.

(** ** Lookups in the progress object *)

Lemma lookupEntry_alter (f : Entry -> Entry) (c0 d0 c d : string)
    (p : gmap string (gmap string Entry)) :
  lookupEntry (alter (alter f d0) c0 p) c d =
  if decide (c = c0 /\ d = d0) then f <$> lookupEntry p c d else lookupEntry p c d.
Proof.
  unfold lookupEntry. destruct (decide (c = c0)) as [->|Hc].
  - rewrite lookup_alter_eq. destruct (p !! c0) as [ds|]; simpl.
    + destruct (decide (d = d0)) as [->|Hd].
      * rewrite lookup_alter_eq.
        rewrite decide_True by (split; reflexivity). reflexivity.
      * rewrite lookup_alter_ne by congruence.
        rewrite decide_False by (intros [_ ?]; contradiction). reflexivity.
    + destruct (decide _); reflexivity.
  - rewrite lookup_alter_ne by congruence.
    rewrite decide_False by (intros [? _]; contradiction). reflexivity.
Qed.

Lemma lookupEntry_initial (goals : gmap string (gmap string Target)) (c d : string) :
  lookupEntry (initialProgress goals) c d =
  if declaredIn goals c d then Some emptyEntry else None.
Proof.
  unfold lookupEntry, initialProgress, declaredIn.
  rewrite lookup_fmap. destruct (goals !! c) as [ds|]; simpl; [|done].
  rewrite lookup_fmap. by destruct (ds !! d).
Qed.

Lemma elem_of_slots (p : gmap string (gmap string Entry)) (c d : string) (e : Entry) :
  lookupEntry p c d = Some e <->
  exists ds, (c, ds) ∈ map_to_list p /\ (d, e) ∈ map_to_list ds.
Proof.
  unfold lookupEntry. split.
  - destruct (p !! c) as [ds|] eqn:Hc; simpl; [|done].
    intros Hd. exists ds. by rewrite !elem_of_map_to_list.
  - intros (ds & Hc & Hd). apply elem_of_map_to_list in Hc.
    apply elem_of_map_to_list in Hd. by rewrite Hc.
Qed.

(** ** Sums over the slots *)

Lemma sum_list_with_alter {A : Type} (w : string -> A -> nat) (g : A -> A)
    (k : string) (x : A) (m : gmap string A) :
  m !! k = Some x ->
  sum_list_with (fun kv => w kv.1 kv.2) (map_to_list (alter g k m)) + w k x =
  sum_list_with (fun kv => w kv.1 kv.2) (map_to_list m) + w k (g x).
Proof.
  intros Hk.
  assert (Halter : alter g k m = <[k := g x]> (delete k m)).
  { apply map_eq. intros j. destruct (decide (j = k)) as [->|Hne].
    - by rewrite lookup_alter_eq, lookup_insert_eq, Hk.
    - by rewrite lookup_alter_ne, lookup_insert_ne, lookup_delete_ne. }
  rewrite Halter.
  rewrite (map_to_list_insert (delete k m) k (g x)) by apply lookup_delete_eq.
  rewrite <- (map_to_list_delete m k x Hk).
  simpl. lia.
Qed.

Lemma sumSlots_alter (w : string -> string -> Entry -> nat) (g : Entry -> Entry)
    (c d : string) (e : Entry) (p : gmap string (gmap string Entry)) :
  lookupEntry p c d = Some e ->
  sumSlots w (alter (alter g d) c p) + w c d e = sumSlots w p + w c d (g e).
Proof.
  unfold lookupEntry, sumSlots. intros Hlook.
  destruct (p !! c) as [ds|] eqn:Hc; simpl in Hlook; [|done].
  pose proof (sum_list_with_alter
    (fun c ds => sum_list_with (fun de => w c de.1 de.2) (map_to_list ds))
    (alter g d) c ds p Hc) as Houter.
  pose proof (sum_list_with_alter (w c) g d e ds Hlook) as Hinner.
  simpl in *. lia.
Qed.

Lemma sumSlots_zero (w : string -> string -> Entry -> nat)
    (p : gmap string (gmap string Entry)) :
  (forall c d e, lookupEntry p c d = Some e -> w c d e = 0) ->
  sumSlots w p = 0.
Proof.
  intros Hzero. unfold sumSlots.
  assert (Hsum : forall {A} (f : A -> nat) (l : list A),
             (forall x, x ∈ l -> f x = 0) -> sum_list_with f l = 0).
  { intros A f l. induction l as [|a l IH]; intros Hl; simpl; [done|].
    rewrite Hl by set_solver. rewrite IH; [done|]. intros; apply Hl; set_solver. }
  apply Hsum. intros [c ds] Hc. apply Hsum. intros [d e] Hd. simpl in *.
  apply Hzero, elem_of_slots. eauto.
Qed.

(** ** The range of the classifier *)

Lemma list_to_map_values {A : Type} (P : A -> Prop) (l : list (string * A))
    (k : string) (v : A) :
  Forall (fun kv => P kv.2) l ->
  (list_to_map l : gmap string A) !! k = Some v -> P v.
Proof.
  intros Hall Hk. apply elem_of_list_to_map_2 in Hk.
  rewrite Forall_forall in Hall. by apply (Hall (k, v)).
Qed.

Ltac known_deliverable := apply array_includes_In; vm_compute; reflexivity.

Lemma tableLookup_category_deliverable (k : string) (m : Mapping) :
  tableLookup TAG_CATEGORY_MAP k = Some m -> In (deliverable m) classifierDeliverables.
Proof.
  unfold tableLookup. destruct (TAG_CATEGORY_MAP !! k) as [m'|] eqn:Hk.
  - intros [= <-]. revert Hk. unfold TAG_CATEGORY_MAP.
    apply (list_to_map_values (fun m => In (deliverable m) classifierDeliverables)).
    repeat (apply Forall_cons_2; [known_deliverable|]). apply Forall_nil_2.
  - destruct (array_includes _ _); intros [= <-]. known_deliverable.
Qed.

Lemma tableLookup_name_deliverable (k : string) (m : Mapping) :
  tableLookup TAG_NAME_MAP k = Some m -> In (deliverable m) classifierDeliverables.
Proof.
  unfold tableLookup. destruct (TAG_NAME_MAP !! k) as [m'|] eqn:Hk.
  - intros [= <-]. revert Hk. unfold TAG_NAME_MAP.
    apply (list_to_map_values (fun m => In (deliverable m) classifierDeliverables)).
    repeat (apply Forall_cons_2; [known_deliverable|]). apply Forall_nil_2.
  - destruct (array_includes _ _); intros [= <-]. known_deliverable.
Qed.

(** Case analysis on the conditions of a cascade of [if]s in [H]. *)
Ltac split_ifs H :=
  repeat match type of H with
         | context [if ?b then _ else _] => destruct b eqn:?
         end.

Lemma phase1_tag_deliverable (tags : list Tag) (n o : string) (tag : Tag) (m : Mapping) :
  phase1_tag tags n o tag = Return m -> In (deliverable m) classifierDeliverables.
Proof.
  unfold phase1_tag.
  destruct (tableLookup _ _) as [mapping|] eqn:Hlook; [|discriminate].
  apply tableLookup_category_deliverable in Hlook.
  intros H. split_ifs H; try discriminate;
    injection H as <-; first [assumption | known_deliverable].
Qed.

Lemma phase2_tag_deliverable (o : string) (tag : Tag) (m : Mapping) :
  phase2_tag o tag = Return m -> In (deliverable m) classifierDeliverables.
Proof.
  unfold phase2_tag. destruct (tag_name tag) as [name|]; [|discriminate].
  cbv zeta.
  destruct (tableLookup _ _) as [mapping|] eqn:Hlook; [|discriminate].
  apply tableLookup_name_deliverable in Hlook.
  intros H. split_ifs H; try discriminate;
    injection H as <-; first [assumption | known_deliverable].
Qed.

Lemma forTags_Return (body : Tag -> TagStep) (tags : list Tag) (m : Mapping) :
  forTags body tags = Return m ->
  exists tag, In tag tags /\ body tag = Return m.
Proof.
  induction tags as [|tag rest IH]; simpl; [discriminate|].
  destruct (body tag) eqn:Hbody.
  - intros H. destruct (IH H) as (tag' & Hin & Htag'). eauto.
  - intros [= <-]. eauto.
  - discriminate.
Qed.

Lemma phase3_deliverable (n o : string) (m : Mapping) :
  phase3 n o = Some m -> In (deliverable m) classifierDeliverables.
Proof.
  unfold phase3. intros H.
  split_ifs H; try discriminate; injection H as <-; known_deliverable.
Qed.

Lemma categorizeTask_deliverable (task : Task) (m : Mapping) :
  categorizeTask task = Returned (Some m) -> In (deliverable m) classifierDeliverables.
Proof.
  unfold categorizeTask. cbv zeta. intros H.
  destruct (hasSideProjectTag _); [injection H as <-; known_deliverable|].
  destruct (hasCfpTag _); [injection H as <-; known_deliverable|].
  destruct (hasGooseContributionTag _); [injection H as <-; known_deliverable|].
  destruct (forTags (phase1_tag _ _ _) _) as [|m1|] eqn:H1; [| |discriminate].
  - destruct (forTags (phase2_tag _) _) as [|m2|] eqn:H2; [| |discriminate].
    + injection H as H. by apply phase3_deliverable in H.
    + injection H as <-. apply forTags_Return in H2 as (tag & _ & H2).
      by apply phase2_tag_deliverable in H2.
  - injection H as <-. apply forTags_Return in H1 as (tag & _ & H1).
    by apply phase1_tag_deliverable in H1.
Qed.

(** No task is classified into the slot of the derived aggregate. *)
Lemma categorizeTask_not_patterns (task : Task) (m : Mapping) :
  categorizeTask task = Returned (Some m) ->
  isPatternsSlot (category m) (deliverable m) = false.
Proof.
  intros H. apply categorizeTask_deliverable in H.
  unfold isPatternsSlot. apply andb_false_iff. right.
  simpl in H. intuition (subst; match goal with H : _ = deliverable m |- _ => rewrite <- H end; reflexivity).
Qed.

(** ** Faults of the classifier *)

Lemma forTags_Throw (body : Tag -> TagStep) (tags : list Tag) :
  forTags body tags = Throw -> exists tag, In tag tags /\ body tag = Throw.
Proof.
  induction tags as [|tag rest IH]; simpl; [discriminate|].
  destruct (body tag) eqn:Hbody.
  - intros H. destruct (IH H) as (tag' & Hin & Htag'). eauto.
  - discriminate.
  - eauto.
Qed.

Lemma phase1_tag_no_Throw (tags : list Tag) (n o : string) (tag : Tag) :
  phase1_tag tags n o tag <> Throw.
Proof.
  unfold phase1_tag. intros H.
  destruct (tableLookup _ _); [|discriminate].
  split_ifs H; discriminate.
Qed.

Lemma phase2_tag_Throw (o : string) (tag : Tag) :
  phase2_tag o tag = Throw -> tag_name tag = None.
Proof.
  unfold phase2_tag. destruct (tag_name tag); [|reflexivity].
  cbv zeta. intros H. destruct (tableLookup _ _); [|discriminate].
  split_ifs H; discriminate.
Qed.

(** The classifier returns on every task whose tags all have a name. *)
Lemma categorizeTask_returns (task : Task) :
  tagsNamed task = true -> exists r, categorizeTask task = Returned r.
Proof.
  unfold tagsNamed, categorizeTask, tagsOf. cbv zeta. intros Hnamed.
  destruct (hasSideProjectTag _); [eauto|].
  destruct (hasCfpTag _); [eauto|].
  destruct (hasGooseContributionTag _); [eauto|].
  destruct (forTags (phase1_tag _ _ _) _) as [|m1|] eqn:H1; [|eauto|].
  - destruct (forTags (phase2_tag _) _) as [|m2|] eqn:H2; [eauto|eauto|].
    apply forTags_Throw in H2 as (tag & Hin & H2).
    apply phase2_tag_Throw in H2.
    rewrite forallb_forall in Hnamed. specialize (Hnamed tag Hin).
    rewrite H2 in Hnamed. discriminate.
  - apply forTags_Throw in H1 as (tag & _ & H1).
    by apply phase1_tag_no_Throw in H1.
Qed.

(** ** The loop of calculateProgress *)

Lemma processTask_throws (acc : Accumulator) (task : Task) :
  processTask acc task = ThrewTypeError <-> categorizeTask task = ThrewTypeError.
Proof.
  unfold processTask. destruct (categorizeTask task) as [[m|]|]; [| |tauto].
  - destruct (lookupEntry _ _ _); [|split; discriminate].
    cbv zeta. destruct (_ && _); split; discriminate.
  - split; discriminate.
Qed.

Lemma processTasks_throws (input : list Task) (acc : Accumulator) :
  processTasks acc input = ThrewTypeError <->
  exists task, In task input /\ categorizeTask task = ThrewTypeError.
Proof.
  revert acc. induction input as [|task rest IH]; intros acc; simpl.
  - split; [discriminate | intros (? & [] & _)].
  - destruct (processTask acc task) as [acc'|] eqn:Hstep.
    + rewrite IH. split.
      * intros (t & Hin & Ht). eauto.
      * intros (t & [<-|Hin] & Ht); [|eauto].
        apply (proj2 (processTask_throws acc task)) in Ht.
        rewrite Hstep in Ht. discriminate.
    + apply processTask_throws in Hstep. split; [eauto | reflexivity].
Qed.


Lemma processTask_lookup (acc acc' : Accumulator) (task : Task) (c d : string) :
  processTask acc task = Returned acc' ->
  lookupEntry (progress acc') c d =
  if classifiedAs c d task
  then countTask (taskDataOf task) <$> lookupEntry (progress acc) c d
  else lookupEntry (progress acc) c d.
Proof.
  unfold processTask, classifiedAs.
  destruct (categorizeTask task) as [[m|]|]; [| |discriminate].
  - destruct (lookupEntry (progress acc) (category m) (deliverable m)) eqn:Hslot.
    + cbv zeta. intros Hacc.
      assert (Hprogress : progress acc' =
                alter (alter (countTask (taskDataOf task)) (deliverable m))
                      (category m) (progress acc)).
      { destruct (_ && _); injection Hacc as <-; reflexivity. }
      rewrite Hprogress, lookupEntry_alter.
      destruct (String.eqb_spec (category m) c) as [<-|Hc];
        destruct (String.eqb_spec (deliverable m) d) as [<-|Hd]; simpl.
      * rewrite decide_True by (split; reflexivity). reflexivity.
      * rewrite decide_False by (intros [_ ?]; congruence). reflexivity.
      * rewrite decide_False by (intros [? _]; congruence). reflexivity.
      * rewrite decide_False by (intros [? _]; congruence). reflexivity.
    + intros [= <-].
      destruct (String.eqb_spec (category m) c) as [<-|Hc];
        destruct (String.eqb_spec (deliverable m) d) as [<-|Hd]; simpl;
        try reflexivity.
      rewrite Hslot. reflexivity.
  - intros [= <-]. reflexivity.
Qed.

Lemma processTask_dom (acc acc' : Accumulator) (task : Task) :
  processTask acc task = Returned acc' -> dom (progress acc') = dom (progress acc).
Proof.
  unfold processTask.
  destruct (categorizeTask task) as [[m|]|]; [| |discriminate].
  - destruct (lookupEntry _ _ _); [|by intros [= <-]].
    cbv zeta. destruct (_ && _); intros [= <-]; simpl; apply dom_alter_L.
  - by intros [= <-].
Qed.

Lemma addTasks_cons (task : Task) (l : list Task) (e : Entry) :
  addTasks (task :: l) e = addTasks l (countTask (taskDataOf task) e).
Proof.
  unfold addTasks, countTask. simpl. f_equal.
  - lia.
  - rewrite <- app_assoc. reflexivity.
Qed.

Lemma addTasks_nil (e : Entry) : addTasks [] e = e.
Proof.
  unfold addTasks. destruct e as [n l f]. simpl.
  rewrite Nat.add_0_r, app_nil_r. reflexivity.
Qed.

(** The slot of a pair after the loop: what was there before, with the input
    tasks classified into the pair counted on it in input order. *)
Lemma processTasks_lookup (input : list Task) (acc acc' : Accumulator) (c d : string) :
  processTasks acc input = Returned acc' ->
  lookupEntry (progress acc') c d =
  addTasks (List.filter (classifiedAs c d) input) <$> lookupEntry (progress acc) c d.
Proof.
  revert acc. induction input as [|task rest IH]; intros acc; simpl.
  - intros [= <-]. destruct (lookupEntry _ _ _) as [e|]; simpl; [|reflexivity].
    by rewrite addTasks_nil.
  - destruct (processTask acc task) as [acc1|] eqn:Hstep; [|discriminate].
    intros Hrest. rewrite (IH _ Hrest).
    rewrite (processTask_lookup _ _ _ c d Hstep).
    destruct (classifiedAs c d task); [|reflexivity].
    destruct (lookupEntry (progress acc) c d) as [e|]; simpl; [|reflexivity].
    by rewrite addTasks_cons.
Qed.

Lemma processTasks_dom (input : list Task) (acc acc' : Accumulator) :
  processTasks acc input = Returned acc' -> dom (progress acc') = dom (progress acc).
Proof.
  revert acc. induction input as [|task rest IH]; intros acc; simpl.
  - by intros [= <-].
  - destruct (processTask acc task) as [acc1|] eqn:Hstep; [|discriminate].
    intros Hrest. rewrite (IH _ Hrest). by apply processTask_dom in Hstep.
Qed.

Lemma processTasks_returns (input : list Task) (acc : Accumulator) :
  forallb tagsNamed input = true -> exists acc', processTasks acc input = Returned acc'.
Proof.
  intros Hnamed.
  destruct (processTasks acc input) as [acc'|] eqn:Hrun; [eauto|].
  apply processTasks_throws in Hrun as (task & Hin & Hthrow).
  rewrite forallb_forall in Hnamed.
  destruct (categorizeTask_returns task (Hnamed task Hin)) as [r Hr].
  congruence.
Qed.

Section Aggregation.

(** The goal spec of the aggregation. *)
Context (goals : gmap string (gmap string Target)).

Lemma calculateProgress_returns (input : list Task) :
  forallb tagsNamed input = true -> exists p, calculateProgress input goals = Returned p.
Proof.
  intros Hnamed. unfold calculateProgress. cbv zeta.
  destruct (processTasks_returns input
              (initialAccumulator goals) Hnamed) as [acc ->].
  destruct (lookupEntry _ _ _); eauto.
Qed.

Lemma slotsMatch_initial :
  slotsMatch goals (initialProgress goals).
Proof.
  intros c d. rewrite lookupEntry_initial.
  destruct (declaredIn goals c d); split; try done; intros []; discriminate.
Qed.

Lemma slotsMatch_step (acc acc' : Accumulator) (task : Task) :
  slotsMatch goals (progress acc) ->
  processTask acc task = Returned acc' ->
  slotsMatch goals (progress acc').
Proof.
  intros Hmatch Hstep c d. rewrite (processTask_lookup _ _ _ c d Hstep).
  rewrite <- (Hmatch c d).
  destruct (classifiedAs c d task); [|reflexivity].
  apply fmap_is_Some.
Qed.

Lemma progress_after_loop (input : list Task) (acc : Accumulator) (c d : string) :
  processTasks (initialAccumulator goals) input = Returned acc ->
  lookupEntry (progress acc) c d =
  if declaredIn goals c d
  then Some (addTasks (List.filter (classifiedAs c d) input) emptyEntry)
  else None.
Proof.
  intros Hrun. rewrite (processTasks_lookup _ _ _ c d Hrun). simpl.
  rewrite lookupEntry_initial. by destruct (declaredIn goals c d).
Qed.

Lemma isPatternsSlot_true (c d : string) :
  isPatternsSlot c d = true <-> c = "Build" /\ d = "Agentic patterns owned".
Proof.
  unfold isPatternsSlot. by rewrite andb_true_iff, !String.eqb_eq.
Qed.

(** C10. The progress object [calculateProgress] returns has exactly the
    categories and the (category, deliverable) pairs the goal spec declares;
    in every slot other than Build / "Agentic patterns owned" the completed
    count is the length of the task list, and the task list holds the
    display records of the input tasks classified into the pair, in input
    order.  The call returns whenever every tag of every task has a name. *)
Theorem calculateProgress_slots (input : list Task) :
  (forallb tagsNamed input = true ->
   exists p, calculateProgress input goals = Returned p) /\
  forall p, calculateProgress input goals = Returned p ->
    dom p = dom goals /\
    (forall c d, is_Some (lookupEntry p c d) <-> declaredIn goals c d = true) /\
    (forall c d e, lookupEntry p c d = Some e -> isPatternsSlot c d = false ->
       completed e = length (tasks e) /\
       tasks e = map taskDataOf (List.filter (classifiedAs c d) input)).
Proof.
  split; [apply calculateProgress_returns|].
  unfold calculateProgress. cbv zeta. intros p.
  destruct (processTasks _ input) as [acc|] eqn:Hrun; [|discriminate].
  pose proof (processTasks_dom _ _ _ Hrun) as Hdom. simpl in Hdom.
  assert (Hinit : dom (initialProgress goals) = dom goals).
  { unfold initialProgress. apply dom_fmap_L. }
  assert (Hslots : forall c d e,
             lookupEntry (progress acc) c d = Some e ->
             completed e = length (tasks e) /\
             tasks e = map taskDataOf (List.filter (classifiedAs c d) input)).
  { intros c d e. rewrite (progress_after_loop input acc c d Hrun).
    destruct (declaredIn goals c d); [|discriminate]. intros [= <-]. simpl.
    by rewrite length_map. }
  assert (Hdeclared : forall c d,
             is_Some (lookupEntry (progress acc) c d) <-> declaredIn goals c d = true).
  { intros c d. rewrite (progress_after_loop input acc c d Hrun).
    destruct (declaredIn goals c d); split; try done; intros []; discriminate. }
  destruct (lookupEntry (progress acc) "Build" "Agentic patterns owned")
    as [e0|]; intros [= <-].
  - split; [by rewrite dom_alter_L, Hdom|]. split.
    + intros c d. rewrite lookupEntry_alter, <- Hdeclared.
      destruct (decide _); [apply fmap_is_Some | reflexivity].
    + intros c d e. rewrite lookupEntry_alter. intros Hlook Hslot.
      rewrite decide_False in Hlook; [by apply Hslots|].
      intros Heq. apply isPatternsSlot_true in Heq. congruence.
  - split; [by rewrite Hdom|]. split; [apply Hdeclared|].
    intros c d e Hlook _. by apply Hslots.
Qed.

(** ** Totals *)

Lemma processTask_sum (acc acc' : Accumulator) (task : Task) :
  slotsMatch goals (progress acc) ->
  processTask acc task = Returned acc' ->
  sumCompletedOfTasks (progress acc') =
  sumCompletedOfTasks (progress acc)
  + (if classifiedToDeclared goals task then 1 else 0).
Proof.
  intros Hmatch. unfold processTask, classifiedToDeclared.
  destruct (categorizeTask task) as [[m|]|] eqn:Hcat; [| |discriminate].
  - pose proof (categorizeTask_not_patterns task m Hcat) as Hslot.
    pose proof (Hmatch (category m) (deliverable m)) as Hdecl.
    destruct (lookupEntry (progress acc) (category m) (deliverable m))
      as [e|] eqn:Hlook.
    + cbv zeta. intros Hacc.
      assert (Hprogress : progress acc' =
                alter (alter (countTask (taskDataOf task)) (deliverable m))
                      (category m) (progress acc)).
      { destruct (_ && _); injection Hacc as <-; reflexivity. }
      rewrite Hprogress. unfold sumCompletedOfTasks.
      pose proof (sumSlots_alter
        (fun c d e => if isPatternsSlot c d then 0 else completed e)
        (countTask (taskDataOf task)) _ _ e (progress acc) Hlook) as Hsum.
      simpl in Hsum. rewrite Hslot in Hsum.
      rewrite (proj1 Hdecl) by eauto. lia.
    + intros [= <-]. destruct (declaredIn goals _ _); [|lia].
      destruct (proj2 Hdecl eq_refl). discriminate.
  - intros [= <-]. lia.
Qed.

Lemma processTasks_sum (input : list Task) (acc acc' : Accumulator) :
  slotsMatch goals (progress acc) ->
  processTasks acc input = Returned acc' ->
  sumCompletedOfTasks (progress acc') =
  sumCompletedOfTasks (progress acc)
  + length (List.filter (classifiedToDeclared goals) input).
Proof.
  revert acc. induction input as [|task rest IH]; intros acc Hmatch; simpl.
  - intros [= <-]. lia.
  - destruct (processTask acc task) as [acc1|] eqn:Hstep; [|discriminate].
    intros Hrest.
    rewrite (IH acc1 (slotsMatch_step acc acc1 task Hmatch Hstep) Hrest).
    rewrite (processTask_sum acc acc1 task Hmatch Hstep).
    destruct (classifiedToDeclared goals task); simpl; lia.
Qed.

(** C1, as amended.  The completed counts of the progress object
    [calculateProgress] returns, summed over all declared pairs other than
    Build / "Agentic patterns owned", equal the number of input tasks
    classified into a declared pair.  The call returns whenever every tag
    of every task has a name. *)
Theorem calculateProgress_totals (input : list Task) :
  (forallb tagsNamed input = true ->
   exists p, calculateProgress input goals = Returned p) /\
  forall p, calculateProgress input goals = Returned p ->
    sumCompletedOfTasks p = length (List.filter (classifiedToDeclared goals) input).
Proof.
  split; [apply calculateProgress_returns|].
  unfold calculateProgress. cbv zeta. intros p.
  destruct (processTasks _ input) as [acc|] eqn:Hrun; [|discriminate].
  pose proof (processTasks_sum input (initialAccumulator goals)
                acc slotsMatch_initial Hrun)
    as Hsum. simpl in Hsum.
  assert (Hzero : sumCompletedOfTasks (initialProgress goals) = 0).
  { apply sumSlots_zero. intros c d e. rewrite lookupEntry_initial.
    destruct (declaredIn goals c d); [|discriminate]. intros [= <-].
    by destruct (isPatternsSlot c d). }
  rewrite Hzero in Hsum.
  destruct (lookupEntry (progress acc) "Build" "Agentic patterns owned")
    as [e|] eqn:Hlook; intros [= <-]; [|exact Hsum].
  pose proof (sumSlots_alter
    (fun c d e => if isPatternsSlot c d then 0 else completed e)
    (populatePatterns acc) _ _ e (progress acc) Hlook) as Hfinal.
  simpl in Hfinal. unfold sumCompletedOfTasks in *. lia.
Qed.

(** ** The set of agentic patterns *)

Lemma Set_add_elem (s : list string) (x y : string) :
  y ∈ Set_add s x <-> y ∈ s \/ y = x.
Proof.
  unfold Set_add. destruct (array_includes s x) eqn:Hin.
  - apply array_includes_In, list_elem_of_In in Hin. split; [tauto|].
    intros [?| ->]; assumption.
  - rewrite elem_of_app, list_elem_of_singleton. reflexivity.
Qed.

Lemma Set_add_NoDup (s : list string) (x : string) :
  NoDup s -> NoDup (Set_add s x).
Proof.
  intros Hs. unfold Set_add. destruct (array_includes s x) eqn:Hin; [assumption|].
  apply array_includes_false in Hin. rewrite <- list_elem_of_In in Hin.
  apply NoDup_app. split; [assumption|]. split.
  - intros y Hy Hx. apply list_elem_of_singleton in Hx. congruence.
  - apply NoDup_singleton.
Qed.

Lemma fold_Set_add_elem (l s : list string) (y : string) :
  y ∈ fold_left Set_add l s <-> y ∈ s \/ y ∈ l.
Proof.
  revert s. induction l as [|x l IH]; intros s; simpl.
  - rewrite elem_of_nil. tauto.
  - rewrite IH, Set_add_elem, elem_of_cons. tauto.
Qed.

Lemma fold_Set_add_NoDup (l s : list string) :
  NoDup s -> NoDup (fold_left Set_add l s).
Proof.
  revert s. induction l as [|x l IH]; intros s Hs; simpl; [assumption|].
  apply IH, Set_add_NoDup, Hs.
Qed.

Lemma processTask_patterns (acc acc' : Accumulator) (task : Task) :
  slotsMatch goals (progress acc) ->
  processTask acc task = Returned acc' ->
  agenticPatternsFound acc' =
  if isContentTask goals task
  then fold_left Set_add (detectAgenticPatterns (task_name task))
                 (agenticPatternsFound acc)
  else agenticPatternsFound acc.
Proof.
  intros Hmatch. unfold processTask, isContentTask.
  destruct (categorizeTask task) as [[m|]|]; [| |discriminate].
  - pose proof (Hmatch (category m) (deliverable m)) as Hdecl.
    destruct (lookupEntry (progress acc) (category m) (deliverable m)) as [e|].
    + cbv zeta. rewrite (proj1 Hdecl) by eauto. rewrite andb_true_l.
      destruct (array_includes CONTENT_DELIVERABLES (deliverable m)).
      * destruct (detectAgenticPatterns (task_name task)) as [|x l];
          intros [= <-]; reflexivity.
      * intros [= <-]. reflexivity.
    + intros [= <-]. destruct (declaredIn goals _ _); [|reflexivity].
      destruct (proj2 Hdecl eq_refl). discriminate.
  - intros [= <-]. reflexivity.
Qed.

(** The pattern set after the loop: what it held before, and the patterns
    detected in the content tasks of the input. *)
Lemma processTasks_patterns (input : list Task) (acc acc' : Accumulator) :
  slotsMatch goals (progress acc) ->
  processTasks acc input = Returned acc' ->
  (NoDup (agenticPatternsFound acc) -> NoDup (agenticPatternsFound acc')) /\
  forall x, x ∈ agenticPatternsFound acc' <->
            x ∈ agenticPatternsFound acc \/
            exists task, task ∈ input /\ isContentTask goals task = true /\
                         x ∈ detectAgenticPatterns (task_name task).
Proof.
  revert acc. induction input as [|task rest IH]; intros acc Hmatch; simpl.
  - intros [= <-]. split; [tauto|]. intros x. split; [tauto|].
    intros [?|(task & Hin & _)]; [assumption|]. by apply elem_of_nil in Hin.
  - destruct (processTask acc task) as [acc1|] eqn:Hstep; [|discriminate].
    intros Hrest.
    destruct (IH acc1 (slotsMatch_step acc acc1 task Hmatch Hstep) Hrest)
      as [Hnodup Helem].
    pose proof (processTask_patterns acc acc1 task Hmatch Hstep) as Hfound.
    split.
    + intros Hacc. apply Hnodup. rewrite Hfound.
      destruct (isContentTask goals task); [|assumption].
      by apply fold_Set_add_NoDup.
    + intros x. rewrite Helem, Hfound.
      destruct (isContentTask goals task) eqn:Hcontent.
      * rewrite fold_Set_add_elem. split.
        -- intros [[?|Hx]|(t & Hin & Ht & Hx)].
           ++ by left.
           ++ right. exists task. split; [by left|done].
           ++ right. exists t. split; [by right|done].
        -- intros [?|(t & Hin & Ht & Hx)]; [by left; left|].
           apply elem_of_cons in Hin as [->|Hin]; [by left; right|].
           right. eauto.
      * split.
        -- intros [?|(t & Hin & Ht & Hx)]; [by left|].
           right. exists t. split; [by right|done].
        -- intros [?|(t & Hin & Ht & Hx)]; [by left|].
           apply elem_of_cons in Hin as [->|Hin]; [congruence|].
           right. eauto.
Qed.

Lemma calculateProgress_throws (input : list Task) :
  calculateProgress input goals = ThrewTypeError <->
  exists task, In task input /\ categorizeTask task = ThrewTypeError.
Proof.
  rewrite <- (processTasks_throws input
                (initialAccumulator goals)).
  unfold calculateProgress. cbv zeta.
  destruct (processTasks _ input) as [acc|]; [|tauto].
  destruct (lookupEntry _ _ _); split; discriminate.
Qed.

Lemma calculateProgress_patternsOwned (input : list Task) (p : gmap string (gmap string Entry)) :
  calculateProgress input goals = Returned p ->
  exists acc,
    processTasks (initialAccumulator goals) input = Returned acc /\
    patternsOwned p =
    if declaredIn goals "Build" "Agentic patterns owned"
    then Some (length (agenticPatternsFound acc), agenticPatternsFound acc)
    else None.
Proof.
  unfold calculateProgress. cbv zeta.
  destruct (processTasks _ input) as [acc|] eqn:Hrun; [|discriminate].
  intros Hp. exists acc. split; [reflexivity|].
  pose proof (progress_after_loop input acc
                "Build" "Agentic patterns owned" Hrun) as Hslot.
  unfold patternsOwned.
  destruct (declaredIn goals "Build" "Agentic patterns owned").
  - rewrite Hslot in Hp. injection Hp as <-.
    rewrite lookupEntry_alter, decide_True by (split; reflexivity).
    rewrite Hslot. reflexivity.
  - rewrite Hslot in Hp. injection Hp as <-. rewrite Hslot. reflexivity.
Qed.

(** C9. Permuting the input task list changes neither whether
    [calculateProgress] returns nor the derived aggregate of the progress
    object it returns: the count of "Agentic patterns owned" is the same and
    the two [patternsFound] arrays hold the same patterns, each once (they
    are permutations of each other), the count being their length.  Taking
    the same list twice is the special case of the identity permutation. *)
Theorem patternsOwned_permutation (input input' : list Task) :
  Permutation input input' ->
  (calculateProgress input goals = ThrewTypeError <->
   calculateProgress input' goals = ThrewTypeError) /\
  forall p p',
    calculateProgress input goals = Returned p ->
    calculateProgress input' goals = Returned p' ->
    match patternsOwned p, patternsOwned p' with
    | Some (n, found), Some (n', found') =>
        n = n' /\ Permutation found found' /\ NoDup found /\ n = length found
    | None, None => True
    | _, _ => False
    end.
Proof.
  intros Hperm. split.
  - rewrite !calculateProgress_throws. split.
    + intros (task & Hin & Ht). exists task. split; [|assumption].
      eapply Permutation_in; eassumption.
    + intros (task & Hin & Ht). exists task. split; [|assumption].
      eapply Permutation_in; [symmetry|]; eassumption.
  - intros p p' Hp Hp'.
    apply calculateProgress_patternsOwned in Hp as (acc & Hrun & ->).
    apply calculateProgress_patternsOwned in Hp' as (acc' & Hrun' & ->).
    destruct (declaredIn goals "Build" "Agentic patterns owned"); [|exact I].
    destruct (processTasks_patterns input (initialAccumulator goals) acc
                slotsMatch_initial Hrun) as [Hnodup Helem].
    destruct (processTasks_patterns input' (initialAccumulator goals) acc'
                slotsMatch_initial Hrun') as [Hnodup' Helem'].
    simpl in *.
    assert (Hsame : Permutation (agenticPatternsFound acc) (agenticPatternsFound acc')).
    { apply NoDup_Permutation.
      - apply Hnodup, NoDup_nil_2.
      - apply Hnodup', NoDup_nil_2.
      - intros x. rewrite Helem, Helem'. split.
        + intros [?|(t & Hin & Ht)]; [by left|]. right. exists t.
          split; [|assumption]. by rewrite <- Hperm.
        + intros [?|(t & Hin & Ht)]; [by left|]. right. exists t.
          split; [|assumption]. by rewrite Hperm. }
    split; [by rewrite Hsame|]. split; [assumption|].
    split; [apply Hnodup, NoDup_nil_2 | reflexivity].
Qed.

End Aggregation.

(** ** Instances of the aggregation theorems *)

(** C1, counterexample.  With the goals of Q1 2026 and the single task
    "Recorded a tutorial video on skills", the counts of all declared pairs
    sum to 2 (Tutorial videos 1, Agentic patterns owned 1) although one task
    only is classified into a declared pair. *)
Lemma calculateProgress_totals_counterexample :
  exists p,
    calculateProgress [sampleTask "Recorded a tutorial video on skills" []]
                      QUARTERLY_GOALS_2026_Q1 = Returned p /\
    sumCompleted p = 2 /\
    length (List.filter (classifiedToDeclared QUARTERLY_GOALS_2026_Q1)
              [sampleTask "Recorded a tutorial video on skills" []]) = 1.
Proof.
  eexists. split; [vm_compute; reflexivity|]. split; vm_compute; reflexivity.
Qed.

Lemma calculateProgress_totals_witness :
  exists p,
    calculateProgress [sampleTask "Recorded a tutorial video on skills" []]
                      QUARTERLY_GOALS_2026_Q1 = Returned p /\
    sumCompletedOfTasks p = 1.
Proof.
  destruct (calculateProgress_totals QUARTERLY_GOALS_2026_Q1
              [sampleTask "Recorded a tutorial video on skills" []])
    as [Hreturns Htotal].
  destruct (Hreturns eq_refl) as [p Hp].
  exists p. split; [exact Hp|]. exact (Htotal p Hp).
Defined.

Lemma calculateProgress_slots_witness :
  exists p,
    calculateProgress [sampleTask "Recorded a tutorial video on skills" []]
                      QUARTERLY_GOALS_2026_Q1 = Returned p /\
    dom p = dom QUARTERLY_GOALS_2026_Q1 /\
    (forall e, lookupEntry p "Videos" "Tutorial videos" = Some e ->
       completed e = length (tasks e) /\
       tasks e = [taskDataOf (sampleTask "Recorded a tutorial video on skills" [])]).
Proof.
  destruct (calculateProgress_slots QUARTERLY_GOALS_2026_Q1
              [sampleTask "Recorded a tutorial video on skills" []])
    as [Hreturns Hslots].
  destruct (Hreturns eq_refl) as [p Hp].
  destruct (Hslots p Hp) as (Hdom & _ & Hentries).
  exists p. split; [exact Hp|]. split; [exact Hdom|].
  intros e He. exact (Hentries "Videos" "Tutorial videos" e He eq_refl).
Defined.

Lemma patternsOwned_permutation_witness :
  exists p p',
    calculateProgress
      [sampleTask "Recorded a tutorial video on skills" [];
       sampleTask "Wrote a blog post on MCP apps and skills" []]
      QUARTERLY_GOALS_2026_Q1 = Returned p /\
    calculateProgress
      [sampleTask "Wrote a blog post on MCP apps and skills" [];
       sampleTask "Recorded a tutorial video on skills" []]
      QUARTERLY_GOALS_2026_Q1 = Returned p' /\
    match patternsOwned p, patternsOwned p' with
    | Some (n, found), Some (n', found') =>
        n = n' /\ Permutation found found' /\ NoDup found /\ n = length found
    | None, None => True
    | _, _ => False
    end.
Proof.
  destruct (calculateProgress_returns QUARTERLY_GOALS_2026_Q1
              [sampleTask "Recorded a tutorial video on skills" [];
               sampleTask "Wrote a blog post on MCP apps and skills" []]
              eq_refl) as [p Hp].
  destruct (calculateProgress_returns QUARTERLY_GOALS_2026_Q1
              [sampleTask "Wrote a blog post on MCP apps and skills" [];
               sampleTask "Recorded a tutorial video on skills" []]
              eq_refl) as [p' Hp'].
  exists p, p'. split; [exact Hp|]. split; [exact Hp'|].
  exact (proj2 (patternsOwned_permutation QUARTERLY_GOALS_2026_Q1 _ _
                  (perm_swap _ _ [])) p p' Hp Hp').
Defined.

(** ** Priority tags *)

Lemma carriesGid_existsb (tags : list Tag) (g : string) (other : Tag -> bool) :
  carriesGid tags g -> existsb (fun t => gid_is t g || other t) tags = true.
Proof.
  intros (tag & Hin & Hgid). apply existsb_exists. exists tag.
  split; [assumption|]. unfold gid_is. rewrite Hgid, String.eqb_refl. reflexivity.
Qed.

(** C3, as amended.  A task carrying a priority-tag identifier is classified
    by the priority-tag phase alone, whatever its name and its other tags:
    into Build / Side projects when it carries the side-project identifier;
    into Public Speaking / CFPs when it carries the cfp identifier and no
    side-project tag; into Build / goose contributions when it carries the
    goose-contribution identifier and neither a side-project nor a cfp tag.
    The task "prep meeting notes" with the side-project tag is a Side
    project. *)
Theorem priority_tags :
  (forall task : Task,
     (carriesGid (tagsOf task) "1212903104247034" ->
      categorizeTask task =
      Returned (Some {| category := "Build"; deliverable := "Side projects" |})) /\
     (carriesGid (tagsOf task) "1212892322315514" ->
      hasSideProjectTag (tagsOf task) = false ->
      categorizeTask task =
      Returned (Some {| category := "Public Speaking";
                        deliverable := "CFPs (submitted or accepted)" |})) /\
     (carriesGid (tagsOf task) "1212903104247031" ->
      hasSideProjectTag (tagsOf task) = false ->
      hasCfpTag (tagsOf task) = false ->
      categorizeTask task =
      Returned (Some {| category := "Build"; deliverable := "goose contributions" |}))) /\
  categorizeTask (sampleTask "prep meeting notes" [sideProjectTag]) =
  Returned (Some {| category := "Build"; deliverable := "Side projects" |}).
Proof.
  split; [|vm_compute; reflexivity].
  intros task. unfold categorizeTask, tagsOf. cbv zeta. repeat split.
  - intros Hside.
    apply (carriesGid_existsb _ _ (fun t => name_lower_is t "side project")) in Hside.
    unfold hasSideProjectTag. rewrite Hside. reflexivity.
  - intros Hcfp Hside. rewrite Hside.
    apply (carriesGid_existsb _ _ (fun t => name_lower_is t "cfp")) in Hcfp.
    unfold hasCfpTag. rewrite Hcfp. reflexivity.
  - intros Hgoose Hside Hcfp. rewrite Hside, Hcfp.
    apply (carriesGid_existsb _ _ (fun t => name_lower_is t "goose contribution"))
      in Hgoose.
    unfold hasGooseContributionTag. rewrite Hgoose. reflexivity.
Qed.

(** C3, counterexample.  A task carrying the cfp identifier is not classified
    into the cfp pair when it also carries the side-project identifier. *)
Lemma priority_tags_counterexample :
  carriesGid (tagsOf (sampleTask "Submit conference CFP" [cfpTag; sideProjectTag]))
             "1212892322315514" /\
  categorizeTask (sampleTask "Submit conference CFP" [cfpTag; sideProjectTag]) =
  Returned (Some {| category := "Build"; deliverable := "Side projects" |}).
Proof.
  split; [|vm_compute; reflexivity].
  exists cfpTag. split; [left; reflexivity | reflexivity].
Qed.

Lemma priority_tags_witness :
  categorizeTask (sampleTask "Submit conference CFP" [cfpTag; gooseContributionTag]) =
  Returned (Some {| category := "Public Speaking";
                    deliverable := "CFPs (submitted or accepted)" |}).
Proof.
  refine (proj1 (proj2 (proj1 priority_tags
            (sampleTask "Submit conference CFP" [cfpTag; gooseContributionTag])))
            _ _).
  - exists cfpTag. split; [left; reflexivity | reflexivity].
  - vm_compute. reflexivity.
Defined.

(** ** Faults *)

(** C2, the failing input.  On a task with a tag object that has an unknown
    identifier and no [name] field, [categorizeTask] throws: phase 2 reads
    [tag.name.toLowerCase()]. *)
Theorem categorizeTask_throws_on_nameless_tag :
  categorizeTask (sampleTask "Team sync" [namelessTag]) = ThrewTypeError.
Proof. vm_compute. reflexivity. Qed.

(** ** The assignee filter *)

Lemma keepsTask_excluded (task : Task) (assigneeName : string) :
  task_assignee task = Some assigneeName ->
  In assigneeName EXCLUDED_ASSIGNEES ->
  keepsTask task = false.
Proof.
  intros Hassignee Hin. unfold keepsTask. rewrite Hassignee.
  destruct (String.eqb_spec assigneeName "") as [->|_].
  - simpl in Hin. intuition discriminate.
  - apply array_includes_In in Hin. rewrite Hin. reflexivity.
Qed.

(** C6. A task whose assignee is on the excluded-contributor list is dropped
    by the filter of [searchCompletedTasks]: the filtered list, and with it
    the progress object computed from it, is the same with and without the
    task, whatever its name.  A task with no assignee is kept. *)
Theorem excluded_assignee_dropped (goals : gmap string (gmap string Target))
    (before after : list Task) (task : Task) :
  (forall assigneeName,
     task_assignee task = Some assigneeName ->
     In assigneeName EXCLUDED_ASSIGNEES ->
     ~ In task (filteredTasks (before ++ task :: after)) /\
     filteredTasks (before ++ task :: after) = filteredTasks (before ++ after) /\
     calculateProgress (filteredTasks (before ++ task :: after)) goals =
     calculateProgress (filteredTasks (before ++ after)) goals) /\
  (task_assignee task = None ->
   In task (filteredTasks (before ++ task :: after))).
Proof.
  split.
  - intros assigneeName Hassignee Hin.
    pose proof (keepsTask_excluded task assigneeName Hassignee Hin) as Hdrop.
    assert (Heq : filteredTasks (before ++ task :: after) =
                  filteredTasks (before ++ after)).
    { unfold filteredTasks. rewrite !List.filter_app. simpl.
      rewrite Hdrop. reflexivity. }
    split; [|split; [exact Heq | by rewrite Heq]].
    unfold filteredTasks. rewrite filter_In. intros [_ Hkeep]. congruence.
  - intros Hnone. unfold filteredTasks. apply filter_In. split.
    + apply in_or_app. right. left. reflexivity.
    + unfold keepsTask. rewrite Hnone. reflexivity.
Qed.

Lemma excluded_assignee_dropped_witness :
  calculateProgress
    (filteredTasks [sampleTask "Wrote a blog post on recipes" [];
                    assignedTask "Wrote a blog post on skills" "Eva Sasson"])
    QUARTERLY_GOALS_2026_Q1 =
  calculateProgress
    (filteredTasks [sampleTask "Wrote a blog post on recipes" []])
    QUARTERLY_GOALS_2026_Q1.
Proof.
  refine (proj2 (proj2 (proj1 (excluded_assignee_dropped QUARTERLY_GOALS_2026_Q1
            [sampleTask "Wrote a blog post on recipes" []] []
            (assignedTask "Wrote a blog post on skills" "Eva Sasson"))
            "Eva Sasson" _ _))).
  - reflexivity.
  - simpl. tauto.
Defined.

(** ** The quarter cache *)

Section Cache.

(** The type of the cached payloads. *)
Context {Data : Type}.

Lemma getCache_setCache (now putAt : Z) (quarterId : string)
    (payload : Data) (quarters : gmap string (CacheEntry Data)) :
  getCache now quarterId (setCache putAt quarterId payload quarters) =
  if (isQuarterPast now quarterId && isQuarterPast putAt quarterId)
     || (now - putAt <? CURRENT_QUARTER_TTL)%Z
  then (Some payload, setCache putAt quarterId payload quarters)
  else (None, delete quarterId (setCache putAt quarterId payload quarters)).
Proof.
  unfold getCache, setCache, getCacheKey, isCacheValid. cbv zeta.
  rewrite lookup_insert_eq. simpl.
  destruct (isQuarterPast now quarterId && isQuarterPast putAt quarterId);
    [reflexivity|].
  simpl. destruct (now - putAt <? CURRENT_QUARTER_TTL)%Z; reflexivity.
Qed.

Lemma isQuarterPast_mono (t t' : Z) (quarterId : string) :
  (t <= t')%Z -> isQuarterPast t quarterId = true -> isQuarterPast t' quarterId = true.
Proof.
  unfold isQuarterPast. destruct (QUARTER_CONFIG !! quarterId) as [config|]; [|done].
  destruct (Date_parse (endDate config)) as [endMs|]; [|done].
  rewrite !Z.ltb_lt. lia.
Qed.

(** A cached closed period stays valid at every instant. *)
Lemma getCache_past (now putAt : Z) (quarterId : string)
    (payload : Data) (quarters : gmap string (CacheEntry Data)) :
  isQuarterPast putAt quarterId = true ->
  getCache now quarterId (setCache putAt quarterId payload quarters) =
  (Some payload, setCache putAt quarterId payload quarters).
Proof.
  intros Hpast. rewrite getCache_setCache, Hpast, andb_true_r.
  destruct (isQuarterPast now quarterId) eqn:Hnow; [reflexivity|].
  simpl. destruct (Z.ltb_spec (now - putAt) CURRENT_QUARTER_TTL) as [|Hage];
    [reflexivity|].
  assert (Hle : (putAt <= now)%Z) by (unfold CURRENT_QUARTER_TTL in Hage; lia).
  rewrite (isQuarterPast_mono putAt now quarterId Hle Hpast) in Hnow. discriminate.
Qed.

(** C5. Once the payload of a period whose end boundary lies strictly before
    the instant of the [setCache] is cached, every later sequence of
    [getCache] calls, at whatever instants, returns that payload each time
    and leaves the cache as it is.  The entry of a period that was open when
    it was stored, or is still open at the time of the [getCache], is
    reported missing (and removed) by a [getCache] made once the TTL of five
    minutes has elapsed since the [setCache]. *)
Theorem cache_semantics (putAt : Z) (quarterId : string)
    (payload : Data) (quarters : gmap string (CacheEntry Data)) :
  (isQuarterPast putAt quarterId = true ->
   forall instants : list Z,
     getCacheAt instants quarterId (setCache putAt quarterId payload quarters) =
     (map (fun _ => Some payload) instants,
      setCache putAt quarterId payload quarters)) /\
  (forall now : Z,
     isQuarterPast putAt quarterId = false \/ isQuarterPast now quarterId = false ->
     (CURRENT_QUARTER_TTL <= now - putAt)%Z ->
     getCache now quarterId (setCache putAt quarterId payload quarters) =
     (None, delete quarterId (setCache putAt quarterId payload quarters))).
Proof.
  split.
  - intros Hpast instants. induction instants as [|now later IH]; simpl.
    + reflexivity.
    + rewrite (getCache_past now putAt quarterId payload quarters Hpast).
      rewrite IH. reflexivity.
  - intros now Hopen Hage.
    assert (Hput : isQuarterPast putAt quarterId = false).
    { destruct Hopen as [Hput|Hnow]; [exact Hput|].
      destruct (isQuarterPast putAt quarterId) eqn:Hpast; [|reflexivity].
      assert (Hle : (putAt <= now)%Z) by (unfold CURRENT_QUARTER_TTL in Hage; lia).
      rewrite (isQuarterPast_mono putAt now quarterId Hle Hpast) in Hnow.
      discriminate. }
    rewrite getCache_setCache, Hput, andb_false_r.
    simpl. destruct (Z.ltb_spec (now - putAt) CURRENT_QUARTER_TTL); [lia|].
    reflexivity.
Qed.

End Cache.

Lemma cache_semantics_witness :
  getCacheAt [1775001600002; 1775001900001; 1893456000000]%Z "2026-Q1"
    (setCache 1775001600001%Z "2026-Q1" "payload" ∅) =
  ([Some "payload"; Some "payload"; Some "payload"],
   setCache 1775001600001%Z "2026-Q1" "payload" ∅) /\
  getCache 1775001600000%Z "2026-Q1"
    (setCache 1775001300000%Z "2026-Q1" "payload" ∅) =
  (None, delete "2026-Q1" (setCache 1775001300000%Z "2026-Q1" "payload" ∅)).
Proof.
  split.
  - refine (proj1 (cache_semantics 1775001600001%Z "2026-Q1" "payload" ∅) _
              [1775001600002; 1775001900001; 1893456000000]%Z).
    vm_compute. reflexivity.
  - refine (proj2 (cache_semantics 1775001300000%Z "2026-Q1" "payload" ∅)
              1775001600000%Z _ _).
    + right. vm_compute. reflexivity.
    + vm_compute. discriminate.
Defined.

(** ** Exclusion patterns *)

Lemma list_to_map_keys {A : Type} (l : list (string * A)) (k : string) (v : A) :
  (list_to_map l : gmap string A) !! k = Some v -> In k (map fst l).
Proof.
  intros Hk. apply elem_of_list_to_map_2 in Hk.
  apply list_elem_of_In. apply (list_elem_of_fmap_2 fst) in Hk. exact Hk.
Qed.

Lemma isExcluded_has_set (taskName d : string) :
  isExcluded taskName d = true -> In d exclusionSets.
Proof.
  unfold isExcluded. destruct (EXCLUSION_PATTERNS !! d) as [patterns|] eqn:Hd;
    [|discriminate].
  intros _. apply list_to_map_keys in Hd. exact Hd.
Qed.

(** Split boolean hypotheses into their atoms. *)
Ltac bool_atoms :=
  repeat match goal with
         | H : _ && _ = true |- _ => apply andb_true_iff in H as [? ?]
         | H : _ || _ = false |- _ => apply orb_false_iff in H as [? ?]
         | H : negb _ = true |- _ => apply negb_true_iff in H
         | H : negb _ = false |- _ => apply negb_false_iff in H
         end.

(** Close a goal in which the excluded deliverable was returned: either a
    guard of the rule says it is not excluded, or it has no exclusion set. *)
Ltac excluded_contra Hex :=
  exfalso; simpl in *; bool_atoms;
  first [ congruence
        | apply isExcluded_has_set, array_includes_In in Hex;
          vm_compute in Hex; discriminate ].

Lemma phase3_excluded (n o c d : string) :
  isExcluded o d = true ->
  phase3 n o <> Some {| category := c; deliverable := d |}.
Proof.
  intros Hex H. unfold phase3 in H.
  split_ifs H; try discriminate; inversion H; subst; excluded_contra Hex.
Qed.

Lemma phase1_tag_excluded (tags : list Tag) (n o c d : string) (tag : Tag) :
  isExcluded o d = true ->
  phase1_tag tags n o tag = Return {| category := c; deliverable := d |} ->
  (d = "Tutorial videos" \/ d = "Docs") /\
  gid_is tag "1208125190486880" || gid_is tag "1204316592156255" = true.
Proof.
  intros Hex H. unfold phase1_tag in H.
  destruct (tableLookup _ _) as [mapping|]; [|discriminate].
  cbv zeta in H.
  split_ifs H; try discriminate; inversion H; subst;
    first [ split; [tauto | first [assumption | reflexivity]]
          | excluded_contra Hex ].
Qed.

Lemma phase2_tag_excluded (o c d : string) (tag : Tag) :
  isExcluded o d = true ->
  phase2_tag o tag = Return {| category := c; deliverable := d |} ->
  d = "goose contributions" /\ name_lower_is tag "goose contribution" = true.
Proof.
  intros Hex H. unfold phase2_tag in H. unfold name_lower_is.
  destruct (tag_name tag) as [name|]; [|discriminate].
  cbv zeta in H.
  destruct (tableLookup _ _) as [mapping|] eqn:Hlook; [|discriminate].
  destruct (String.eqb_spec (toLowerCase name) "goose contribution") as [Hgc|_].
  - inversion H; subst. split; reflexivity.
  - destruct (String.eqb_spec (toLowerCase name) "goose") as [Hgoose|_].
    + rewrite Hgoose in Hlook. vm_compute in Hlook. injection Hlook as <-.
      split_ifs H; try discriminate; inversion H; subst; excluded_contra Hex.
    + split_ifs H; try discriminate; inversion H; subst; excluded_contra Hex.
Qed.

(** C4, as amended.  When the name of a task matches an exclusion regex of a
    deliverable, [categorizeTask] returns that deliverable only through a
    rule that consults no exclusion set: the goose-contribution priority tag
    (for goose contributions) or a tutorial tag identifier (for Tutorial
    videos and Docs).  For every other task, and for every other deliverable
    with an exclusion set, the excluded deliverable is never returned; so
    "Schedule shorts for next week" is not classified as Shorts, whatever
    its tags. *)
Theorem exclusion_dominance :
  (forall (task : Task) (c d : string),
     isExcluded (task_name task) d = true ->
     categorizeTask task = Returned (Some {| category := c; deliverable := d |}) ->
     (d = "goose contributions" /\ hasGooseContributionTag (tagsOf task) = true) \/
     ((d = "Tutorial videos" \/ d = "Docs") /\ hasTutorialTag (tagsOf task) = true)) /\
  (forall (tags : list Tag) (c : string),
     categorizeTask (sampleTask "Schedule shorts for next week" tags) <>
     Returned (Some {| category := c; deliverable := "Shorts" |})).
Proof.
  assert (Hmain : forall (task : Task) (c d : string),
     isExcluded (task_name task) d = true ->
     categorizeTask task = Returned (Some {| category := c; deliverable := d |}) ->
     (d = "goose contributions" /\ hasGooseContributionTag (tagsOf task) = true) \/
     ((d = "Tutorial videos" \/ d = "Docs") /\ hasTutorialTag (tagsOf task) = true)).
  { intros task c d Hex. unfold categorizeTask, tagsOf. cbv zeta. intros H.
    destruct (hasSideProjectTag _); [inversion H; subst; excluded_contra Hex|].
    destruct (hasCfpTag _); [inversion H; subst; excluded_contra Hex|].
    destruct (hasGooseContributionTag _) eqn:Hgc;
      [inversion H; subst; left; split; reflexivity|].
    destruct (forTags (phase1_tag _ _ _) _) as [|m1|] eqn:H1; [| |discriminate].
    - destruct (forTags (phase2_tag _) _) as [|m2|] eqn:H2; [| |discriminate].
      + injection H as H. by apply phase3_excluded in H.
      + injection H as ->. apply forTags_Return in H2 as (tag & Hin & H2).
        apply (phase2_tag_excluded _ _ _ _ Hex) in H2 as [-> Hname].
        exfalso. unfold hasGooseContributionTag in Hgc.
        assert (Hsome : existsb (fun t => gid_is t "1212903104247031"
                                  || name_lower_is t "goose contribution")
                          match task_tags task with Some l => l | None => [] end
                        = true).
        { apply existsb_exists. exists tag. split; [assumption|].
          rewrite Hname. apply orb_true_r. }
        congruence.
    - injection H as ->. apply forTags_Return in H1 as (tag & Hin & H1).
      apply (phase1_tag_excluded _ _ _ _ _ _ Hex) in H1 as [Hd Hgid].
      right. split; [assumption|]. unfold hasTutorialTag.
      apply existsb_exists. eauto. }
  split; [exact Hmain|].
  intros tags c H.
  assert (Hex : isExcluded (task_name (sampleTask "Schedule shorts for next week" tags))
                  "Shorts" = true) by (vm_compute; reflexivity).
  destruct (Hmain _ c "Shorts" Hex H) as [[Hd _]|[[Hd|Hd] _]]; discriminate.
Qed.

(** C4, counterexample.  The name "goose meeting" contains the keyword
    "goose" and matches the exclusion regex [/meeting/i] of goose
    contributions, yet with the goose-contribution priority tag the task is
    classified as Build / goose contributions. *)
Lemma exclusion_dominance_counterexample :
  includes (toLowerCase "goose meeting") "goose" = true /\
  isExcluded "goose meeting" "goose contributions" = true /\
  categorizeTask (sampleTask "goose meeting" [gooseContributionTag]) =
  Returned (Some {| category := "Build"; deliverable := "goose contributions" |}).
Proof. repeat split; vm_compute; reflexivity. Qed.

Lemma exclusion_dominance_witness :
  hasGooseContributionTag
    (tagsOf (sampleTask "goose meeting" [gooseContributionTag])) = true.
Proof.
  destruct (proj1 exclusion_dominance
              (sampleTask "goose meeting" [gooseContributionTag])
              "Build" "goose contributions") as [[_ Htag]|[[Hd|Hd] _]].
  - vm_compute. reflexivity.
  - vm_compute. reflexivity.
  - exact Htag.
  - discriminate.
  - discriminate.
Defined.

(** ** Falling through to the keyword phase *)

Lemma forTags_Continue (body : Tag -> TagStep) (tags : list Tag) :
  (forall tag, In tag tags -> body tag = Continue) ->
  forTags body tags = Continue.
Proof.
  induction tags as [|tag rest IH]; intros Hall; simpl; [reflexivity|].
  rewrite (Hall tag) by (left; reflexivity).
  apply IH. intros tag' Hin. apply Hall. right. exact Hin.
Qed.

Lemma existsb_false {A : Type} (f : A -> bool) (l : list A) :
  (forall x, In x l -> f x = false) -> existsb f l = false.
Proof.
  induction l as [|a l IH]; intros Hall; simpl; [reflexivity|].
  rewrite (Hall a) by (left; reflexivity).
  apply IH. intros x Hin. apply Hall. right. exact Hin.
Qed.

(** A task none of whose tags is a priority tag or makes phase 1 or phase 2
    return is classified by its name. *)
Lemma categorizeTask_keyword_phase (task : Task) :
  (forall tag, In tag (tagsOf task) ->
     gid_is tag "1212903104247034" || name_lower_is tag "side project" = false /\
     gid_is tag "1212892322315514" || name_lower_is tag "cfp" = false /\
     gid_is tag "1212903104247031" || name_lower_is tag "goose contribution" = false /\
     phase1_tag (tagsOf task) (toLowerCase (task_name task)) (task_name task) tag
     = Continue /\
     phase2_tag (task_name task) tag = Continue) ->
  categorizeTask task =
  Returned (phase3 (toLowerCase (task_name task)) (task_name task)).
Proof.
  intros Htags. unfold categorizeTask. fold (tagsOf task). cbv zeta.
  unfold hasSideProjectTag, hasCfpTag, hasGooseContributionTag.
  rewrite !existsb_false by (intros tag Hin; apply (Htags tag Hin)).
  rewrite !forTags_Continue by (intros tag Hin; apply (Htags tag Hin)).
  reflexivity.
Qed.

Lemma unrecognized_gid (tag : Tag) (g : string) :
  isUnrecognizedTag tag = true ->
  is_Some (tableLookup TAG_CATEGORY_MAP g) ->
  gid_is tag g = false.
Proof.
  unfold isUnrecognizedTag, gid_is. intros Hun [m Hm].
  destruct (tag_gid tag) as [x|]; [|reflexivity].
  destruct (String.eqb_spec x g) as [->|_]; [|reflexivity].
  simpl in Hun. rewrite Hm in Hun. discriminate.
Qed.

Lemma unrecognized_name (tag : Tag) (name : string) :
  isUnrecognizedTag tag = true ->
  is_Some (tableLookup TAG_NAME_MAP name) ->
  name_lower_is tag name = false.
Proof.
  unfold isUnrecognizedTag, name_lower_is. intros Hun [m Hm].
  destruct (tableLookup TAG_CATEGORY_MAP _); [discriminate|].
  destruct (tag_name tag) as [x|]; [|reflexivity].
  destruct (String.eqb_spec (toLowerCase x) name) as [Heq|_]; [|reflexivity].
  rewrite Heq, Hm in Hun. discriminate.
Qed.

Ltac known_key := vm_compute; eexists; reflexivity.

Lemma unrecognized_falls_through (tags : list Tag) (n o : string) (tag : Tag) :
  isUnrecognizedTag tag = true ->
  gid_is tag "1212903104247034" || name_lower_is tag "side project" = false /\
  gid_is tag "1212892322315514" || name_lower_is tag "cfp" = false /\
  gid_is tag "1212903104247031" || name_lower_is tag "goose contribution" = false /\
  phase1_tag tags n o tag = Continue /\
  phase2_tag o tag = Continue.
Proof.
  intros Hun.
  rewrite !(unrecognized_gid tag _ Hun) by known_key.
  rewrite !(unrecognized_name tag _ Hun) by known_key.
  repeat split.
  - unfold phase1_tag. unfold isUnrecognizedTag in Hun.
    destruct (tableLookup TAG_CATEGORY_MAP _); [discriminate | reflexivity].
  - unfold phase2_tag. unfold isUnrecognizedTag in Hun.
    destruct (tableLookup TAG_CATEGORY_MAP _); [discriminate|].
    destruct (tag_name tag) as [name|]; [|discriminate].
    cbv zeta. destruct (tableLookup TAG_NAME_MAP _); [discriminate | reflexivity].
Qed.

Lemma genericGoose_inv (tag : Tag) :
  isGenericGooseTag tag = true ->
  exists name, tag_gid tag = Some "1208438924809387" /\
               tag_name tag = Some name /\ toLowerCase name = "goose".
Proof.
  unfold isGenericGooseTag, gid_is, name_lower_is. intros H.
  apply andb_true_iff in H as [Hgid Hname].
  destruct (tag_gid tag) as [g|]; [|discriminate].
  destruct (tag_name tag) as [name|]; [|discriminate].
  apply String.eqb_eq in Hgid, Hname. subst g. eauto.
Qed.

Lemma genericGoose_falls_through (tags : list Tag) (n o : string) (tag : Tag) :
  isGenericGooseTag tag = true ->
  hasConfirmation o "goose contributions" = false ->
  gid_is tag "1212903104247034" || name_lower_is tag "side project" = false /\
  gid_is tag "1212892322315514" || name_lower_is tag "cfp" = false /\
  gid_is tag "1212903104247031" || name_lower_is tag "goose contribution" = false /\
  phase1_tag tags n o tag = Continue /\
  phase2_tag o tag = Continue.
Proof.
  intros Hgoose Hconf.
  destruct (genericGoose_inv tag Hgoose) as (name & Hgid & Hname & Hlower).
  assert (Hid : tableLookup TAG_CATEGORY_MAP "1208438924809387" =
                Some {| category := "Build"; deliverable := "goose contributions" |})
    by (vm_compute; reflexivity).
  assert (Hnm : tableLookup TAG_NAME_MAP "goose" =
                Some {| category := "Build"; deliverable := "goose contributions" |})
    by (vm_compute; reflexivity).
  unfold phase1_tag, phase2_tag, gid_is, name_lower_is.
  rewrite Hgid, Hname, Hlower. cbv zeta. simpl propertyKey. rewrite Hid, Hnm.
  repeat split; try reflexivity.
  - simpl. rewrite Hconf. destruct (isExcluded o "goose contributions"); reflexivity.
  - simpl. rewrite Hconf. destruct (isExcluded o "goose contributions"); reflexivity.
Qed.

Lemma phase3_goose_needs_confirmation (n o c : string) :
  hasConfirmation o "goose contributions" = false ->
  phase3 n o <> Some {| category := c; deliverable := "goose contributions" |}.
Proof.
  intros Hconf H. unfold phase3 in H.
  split_ifs H; try discriminate; inversion H; subst.
  bool_atoms. congruence.
Qed.

(** C7, as amended.  A task whose tags are the generic goose tag or
    unrecognized tags, and whose name matches no confirmation regex of goose
    contributions, is classified by the keyword phase alone and is never
    classified as Build / goose contributions; it is classified to none
    unless a keyword rule of another deliverable matches its name.  The task
    "goose sighting at the park" with the goose tag classifies to none. *)
Theorem goose_tag_needs_confirmation :
  (forall task : Task,
     forallb (fun tag => isGenericGooseTag tag || isUnrecognizedTag tag)
             (tagsOf task) = true ->
     hasConfirmation (task_name task) "goose contributions" = false ->
     categorizeTask task =
     Returned (phase3 (toLowerCase (task_name task)) (task_name task)) /\
     forall c, categorizeTask task <>
               Returned (Some {| category := c;
                                 deliverable := "goose contributions" |})) /\
  categorizeTask (sampleTask "goose sighting at the park" [gooseTag]) = Returned None.
Proof.
  split; [|vm_compute; reflexivity].
  intros task Htags Hconf.
  assert (Hphase : categorizeTask task =
            Returned (phase3 (toLowerCase (task_name task)) (task_name task))).
  { apply categorizeTask_keyword_phase. intros tag Hin.
    rewrite forallb_forall in Htags. specialize (Htags tag Hin).
    apply orb_true_iff in Htags as [Hgoose|Hun].
    - by apply genericGoose_falls_through.
    - by apply unrecognized_falls_through. }
  split; [exact Hphase|].
  intros c. rewrite Hphase. intros [= H].
  by apply (phase3_goose_needs_confirmation _ _ c Hconf) in H.
Qed.

(** C7, counterexample.  The name "goose livestream" matches no confirmation
    regex of goose contributions, and the task carries the goose tag only;
    it is not classified to none but as a livestream. *)
Lemma goose_tag_needs_confirmation_counterexample :
  hasConfirmation "goose livestream" "goose contributions" = false /\
  categorizeTask (sampleTask "goose livestream" [gooseTag]) =
  Returned (Some {| category := "Livestreams";
                    deliverable := "Vibe Code w/ goose streams" |}).
Proof. split; vm_compute; reflexivity. Qed.

Lemma goose_tag_needs_confirmation_witness :
  categorizeTask (sampleTask "goose livestream" [gooseTag]) =
  Returned (phase3 (toLowerCase "goose livestream") "goose livestream").
Proof.
  refine (proj1 (proj1 goose_tag_needs_confirmation
                   (sampleTask "goose livestream" [gooseTag]) _ _)).
  - vm_compute. reflexivity.
  - vm_compute. reflexivity.
Defined.

(** C8, as amended.  For a task with no recognized tags whose name contains
    a tutorial keyword (tutorial, plug & play, plug and play) and to which
    the Shorts rule of the keyword phase does not apply: the task is
    classified as Videos / Tutorial videos when the name contains a
    video-evidence keyword (video, filmed, recorded, youtube) and matches no
    exclusion regex of Tutorial videos, and as Documentation / Docs when the
    name has no video indicator (none of the four keywords, and not
    "published" without "doc" and "blog") and matches no exclusion regex of
    Docs.  "Wrote a tutorial on skills" is classified as Docs and "Recorded
    a tutorial on skills" as Tutorial videos. *)
Theorem tutorial_medium :
  (forall task : Task,
     forallb isUnrecognizedTag (tagsOf task) = true ->
     shortsRuleApplies (toLowerCase (task_name task)) (task_name task) = false ->
     hasTutorialKeyword (toLowerCase (task_name task)) = true ->
     (hasVideoEvidence (toLowerCase (task_name task)) = true ->
      isExcluded (task_name task) "Tutorial videos" = false ->
      categorizeTask task =
      Returned (Some {| category := "Videos"; deliverable := "Tutorial videos" |})) /\
     (hasVideoIndicator (toLowerCase (task_name task)) = false ->
      isExcluded (task_name task) "Docs" = false ->
      categorizeTask task =
      Returned (Some {| category := "Documentation"; deliverable := "Docs" |}))) /\
  categorizeTask (sampleTask "Wrote a tutorial on skills" []) =
  Returned (Some {| category := "Documentation"; deliverable := "Docs" |}) /\
  categorizeTask (sampleTask "Recorded a tutorial on skills" []) =
  Returned (Some {| category := "Videos"; deliverable := "Tutorial videos" |}).
Proof.
  split; [|split; vm_compute; reflexivity].
  intros task Htags Hshorts Htutorial.
  assert (Hphase : categorizeTask task =
            Returned (phase3 (toLowerCase (task_name task)) (task_name task))).
  { apply categorizeTask_keyword_phase. intros tag Hin.
    rewrite forallb_forall in Htags.
    by apply unrecognized_falls_through, Htags. }
  rewrite Hphase. unfold phase3.
  unfold shortsRuleApplies in Hshorts. rewrite Hshorts.
  unfold hasTutorialKeyword in Htutorial. rewrite Htutorial.
  split.
  - intros Hvideo Hex.
    assert (Hindicator : hasVideoIndicator (toLowerCase (task_name task)) = true).
    { unfold hasVideoIndicator. unfold hasVideoEvidence in Hvideo.
      rewrite Hvideo. reflexivity. }
    rewrite Hindicator, Hex. reflexivity.
  - intros Hindicator Hex. rewrite Hindicator, Hex.
    rewrite andb_false_r. reflexivity.
Qed.

(** C8, counterexample.  "Recorded a short tutorial" contains a tutorial
    keyword and a video-evidence keyword, yet the Shorts rule comes first
    and the task is classified as Shorts; "Published a tutorial on skills"
    contains a tutorial keyword and none of the four video-evidence
    keywords, yet it is classified as a tutorial video. *)
Lemma tutorial_medium_counterexample :
  (hasTutorialKeyword (toLowerCase "Recorded a short tutorial") = true /\
   hasVideoEvidence (toLowerCase "Recorded a short tutorial") = true /\
   categorizeTask (sampleTask "Recorded a short tutorial" []) =
   Returned (Some {| category := "Videos"; deliverable := "Shorts" |})) /\
  (hasTutorialKeyword (toLowerCase "Published a tutorial on skills") = true /\
   hasVideoEvidence (toLowerCase "Published a tutorial on skills") = false /\
   categorizeTask (sampleTask "Published a tutorial on skills" []) =
   Returned (Some {| category := "Videos"; deliverable := "Tutorial videos" |})).
Proof. repeat split; vm_compute; reflexivity. Qed.

Lemma tutorial_medium_witness :
  categorizeTask (sampleTask "Filmed the plug & play walkthrough"
                    [{| tag_gid := Some "42"; tag_name := Some "Q1" |}]) =
  Returned (Some {| category := "Videos"; deliverable := "Tutorial videos" |}).
Proof.
  refine (proj1 (proj1 tutorial_medium
            (sampleTask "Filmed the plug & play walkthrough"
               [{| tag_gid := Some "42"; tag_name := Some "Q1" |}]) _ _ _) _ _);
    vm_compute; reflexivity.
Defined.

(* ================================================================== *)
(** * Further properties of the program *)
(* ================================================================== *)

(** ** Removal of duplicates *)

Lemma uniqueTasksFrom_spec (allTasks : list Task) (seenGids : gset string) :
  sublist (uniqueTasksFrom seenGids allTasks) allTasks /\
  NoDup (map task_gid (uniqueTasksFrom seenGids allTasks)) /\
  (forall task, In task (uniqueTasksFrom seenGids allTasks) <->
     (task_gid task ∉ seenGids) /\
     exists before after : list Task,
       allTasks = (before ++ task :: after)%list /\
       ~ In (task_gid task) (map task_gid before)).
Proof.
  revert seenGids. induction allTasks as [|t rest IH]; intros seen; simpl.
  - split; [constructor|]. split; [constructor|].
    intros task. split; [intros []|].
    intros (_ & before & after & Heq & _). by destruct before.
  - destruct (decide (task_gid t ∈ seen)) as [Hseen|Hnew].
    + destruct (IH seen) as (Hsub & Hnodup & Hin).
      split; [by apply sublist_cons|]. split; [assumption|].
      intros task. rewrite Hin. split.
      * intros (Hnot & before & after & -> & Hfirst).
        split; [assumption|]. exists (t :: before), after.
        split; [reflexivity|]. simpl. intros [Heq|Hb]; [|tauto].
        rewrite <- Heq in Hnot. tauto.
      * intros (Hnot & before & after & Heq & Hfirst).
        split; [assumption|]. destruct before as [|b before].
        -- simpl in Heq. injection Heq as -> _. tauto.
        -- simpl in Heq. injection Heq as -> ->.
           exists before, after. split; [reflexivity|].
           simpl in Hfirst. tauto.
    + destruct (IH ({[task_gid t]} ∪ seen)) as (Hsub & Hnodup & Hin).
      split; [by apply sublist_skip|]. split.
      * simpl. constructor; [|assumption].
        intros Hdup. apply list_elem_of_In, in_map_iff in Hdup as (t' & Hgid & Ht').
        apply Hin in Ht' as [Hnot _]. apply Hnot. rewrite Hgid.
        apply elem_of_union. left. by apply elem_of_singleton.
      * intros task. simpl. rewrite Hin. split.
        -- intros [<-|(Hnot & before & after & -> & Hfirst)].
           ++ split; [assumption|]. exists [], rest. split; [reflexivity|]. simpl. tauto.
           ++ split; [intros Hs; apply Hnot, elem_of_union; by right|].
              exists (t :: before), after.
              split; [reflexivity|]. simpl. intros [Heq|Hb]; [|tauto].
              apply Hnot. rewrite <- Heq.
              apply elem_of_union. left. by apply elem_of_singleton.
        -- intros (Hnot & before & after & Heq & Hfirst).
           destruct before as [|b before].
           ++ simpl in Heq. injection Heq as -> _. by left.
           ++ simpl in Heq. injection Heq as -> ->. right.
              simpl in Hfirst. split.
              ** apply not_elem_of_union. split; [|assumption].
                 rewrite elem_of_singleton. intros Heq. apply Hfirst. by left.
              ** exists before, after. split; [reflexivity|]. tauto.
Qed.

(** X1. The duplicate removal of [searchCompletedTasks] keeps, in their
    order, exactly the tasks that are the first of their [gid] in the input:
    the result is a sublist of the input, its identifiers are pairwise
    distinct, and a task is in it if and only if it occurs in the input with
    no task of the same identifier before it. *)
Theorem uniqueTasks_first_occurrences (allTasks : list Task) :
  sublist (uniqueTasks allTasks) allTasks /\
  NoDup (map task_gid (uniqueTasks allTasks)) /\
  (forall task,
     In task (uniqueTasks allTasks) <->
     exists before after : list Task,
       allTasks = (before ++ task :: after)%list /\
       ~ In (task_gid task) (map task_gid before)).
Proof.
  destruct (uniqueTasksFrom_spec allTasks ∅) as (Hsub & Hnodup & Hin).
  split; [exact Hsub|]. split; [exact Hnodup|].
  intros task. unfold uniqueTasks. rewrite Hin. split.
  - intros [_ H]. exact H.
  - intros H. split; [apply not_elem_of_empty | exact H].
Qed.

(** ** The date ranges of a search *)

(** The chunks by position: the [k]-th chunk starts [7 k] days after the
    start and is a week long, cut at the end of the range; there is one as
    long as its start lies before the end.  In particular the loop does not
    run out of fuel. *)
Lemma weeklyChunks_lookup (fuel : nat) (s e : Z) (k : nat) :
  (e - s <= Z.of_nat fuel)%Z ->
  weeklyChunks fuel s e !! k =
  if (s + 7 * Z.of_nat k <? e)%Z
  then Some ((s + 7 * Z.of_nat k)%Z, Z.min (s + 7 * Z.of_nat k + 7) e)
  else None.
Proof.
  revert s k. induction fuel as [|fuel IH]; intros s k Hfuel.
  - simpl. destruct (Z.ltb_spec (s + 7 * Z.of_nat k) e); [lia | reflexivity].
  - cbn [weeklyChunks]. destruct (Z.ltb_spec s e) as [Hlt|Hge].
    + cbv zeta. destruct k as [|k].
      * cbn [lookup list_lookup]. rewrite Z.mul_0_r, Z.add_0_r.
        destruct (Z.ltb_spec s e); [|lia].
        destruct (Z.gtb_spec (s + 7) e); do 2 f_equal; lia.
      * change ((?x :: ?l) !! S k) with (l !! k).
        rewrite IH by (destruct (Z.gtb_spec (s + 7) e); lia).
        destruct (Z.gtb_spec (s + 7) e) as [Hcut|Hweek].
        -- destruct (Z.ltb_spec (e + 7 * Z.of_nat k) e); [lia|].
           destruct (Z.ltb_spec (s + 7 * Z.of_nat (S k)) e); [lia|].
           reflexivity.
        -- replace (s + 7 + 7 * Z.of_nat k)%Z
             with (s + 7 * Z.of_nat (S k))%Z by lia.
           reflexivity.
    + rewrite lookup_nil.
      destruct (Z.ltb_spec (s + 7 * Z.of_nat k) e); [lia | reflexivity].
Qed.

Lemma searchRanges_lookup (s e : Z) (k : nat) :
  (7 < e - s)%Z ->
  searchRanges s e !! k =
  if (s + 7 * Z.of_nat k <? e)%Z
  then Some ((s + 7 * Z.of_nat k)%Z, Z.min (s + 7 * Z.of_nat k + 7) e)
  else None.
Proof.
  intros Hlong. unfold searchRanges. cbv zeta.
  destruct (Z.gtb_spec (e - s) 7); [|lia].
  apply weeklyChunks_lookup. lia.
Qed.

Lemma searchRanges_length (s e : Z) :
  (7 < e - s)%Z ->
  length (searchRanges s e) = Z.to_nat ((e - s + 6) / 7).
Proof.
  intros Hlong.
  pose proof (Z.div_mod (e - s + 6) 7 ltac:(lia)) as Hdiv.
  pose proof (Z.mod_pos_bound (e - s + 6) 7 ltac:(lia)) as Hbound.
  assert (Hq : (1 <= (e - s + 6) / 7)%Z) by lia.
  apply Nat.le_antisymm.
  - apply Nat.nlt_ge. intros Hlt.
    apply lookup_lt_is_Some in Hlt as [r Hr].
    rewrite searchRanges_lookup in Hr by assumption.
    rewrite Z2Nat.id in Hr by lia.
    destruct (Z.ltb_spec (s + 7 * ((e - s + 6) / 7)) e); [lia | discriminate].
  - destruct (Z.to_nat ((e - s + 6) / 7)) as [|n] eqn:Hn; [lia|].
    apply Nat.le_succ_l, lookup_lt_is_Some.
    rewrite searchRanges_lookup by assumption.
    destruct (Z.ltb_spec (s + 7 * Z.of_nat n) e); [eauto | lia].
Qed.

(** X2. For a range of more than seven days, [searchCompletedTasks] queries
    consecutive chunks: the first starts at the start date, the last ends at
    the end date, each chunk starts on the day the one before it ends, and
    every chunk is seven days long, the last one possibly shorter.  There
    are as many chunks as weeks begun in the range. *)
Theorem searchRanges_consecutive (startDate endDate : Z) :
  (7 < endDate - startDate)%Z ->
  length (searchRanges startDate endDate)
  = Z.to_nat ((endDate - startDate + 6) / 7) /\
  fst <$> head (searchRanges startDate endDate) = Some startDate /\
  snd <$> last (searchRanges startDate endDate) = Some endDate /\
  (forall (k : nat) (a b : Z),
     searchRanges startDate endDate !! k = Some (a, b) ->
     (a < b)%Z /\
     ((b = a + 7)%Z \/ (b = endDate /\ (b < a + 7)%Z)) /\
     ((b < endDate)%Z ->
      exists b', searchRanges startDate endDate !! S k = Some (b, b'))).
Proof.
  intros Hlong.
  pose proof (Z.div_mod (endDate - startDate + 6) 7 ltac:(lia)) as Hdiv.
  pose proof (Z.mod_pos_bound (endDate - startDate + 6) 7 ltac:(lia)) as Hbound.
  split; [by apply searchRanges_length|]. split; [|split].
  - rewrite head_lookup, searchRanges_lookup by assumption.
    destruct (Z.ltb_spec (startDate + 7 * Z.of_nat 0) endDate); [|lia].
    simpl. f_equal. lia.
  - rewrite last_lookup, searchRanges_length, searchRanges_lookup by assumption.
    destruct (Z.ltb_spec
                (startDate
                 + 7 * Z.of_nat (Nat.pred (Z.to_nat ((endDate - startDate + 6) / 7))))
                endDate); [|lia].
    simpl. f_equal. lia.
  - intros k a b Hk. rewrite searchRanges_lookup in Hk by assumption.
    destruct (Z.ltb_spec (startDate + 7 * Z.of_nat k) endDate); [|discriminate].
    injection Hk as <- <-. split; [lia|]. split; [lia|].
    intros Hmore. rewrite searchRanges_lookup by assumption.
    destruct (Z.ltb_spec (startDate + 7 * Z.of_nat (S k)) endDate); [|lia].
    replace (startDate + 7 * Z.of_nat (S k))%Z
      with (Z.min (startDate + 7 * Z.of_nat k + 7) endDate) by lia.
    eauto.
Qed.


(** ** The result of a search *)

Lemma filteredTasks_sublist (l : list Task) : sublist (filteredTasks l) l.
Proof.
  unfold filteredTasks. induction l as [|t l IH]; simpl; [constructor|].
  destruct (keepsTask t); by constructor.
Qed.

Lemma sublist_map {A B : Type} (f : A -> B) (l k : list A) :
  sublist l k -> sublist (map f l) (map f k).
Proof. induction 1; simpl; by constructor. Qed.

Lemma sublist_In {A : Type} (l k : list A) (x : A) :
  sublist l k -> In x l -> In x k.
Proof.
  induction 1 as [|y l k _ IH|y l k _ IH]; simpl; [tauto| |]; intuition.
Qed.

Lemma uniqueTasks_sublist (allTasks : list Task) :
  sublist (uniqueTasks allTasks) allTasks.
Proof. apply (uniqueTasksFrom_spec allTasks ∅). Qed.

Lemma searchCompletedTasks_In (api : Z -> Z -> option (list Task))
    (s e : Z) (task : Task) :
  In task (searchCompletedTasks api s e) ->
  keepsTask task = true /\
  exists a b tasks,
    In (a, b) (searchRanges s e) /\ api a b = Some tasks /\ In task tasks.
Proof.
  unfold searchCompletedTasks. cbv zeta. unfold filteredTasks.
  rewrite filter_In. intros [Hin Hkeep]. split; [exact Hkeep|].
  apply (sublist_In _ _ _ (uniqueTasks_sublist _)) in Hin.
  apply in_concat in Hin as (tasks & Htasks & Hin).
  apply in_map_iff in Htasks as ([a b] & Hresp & Hrange). simpl in Hresp.
  exists a, b, tasks. destruct (api a b) as [data|]; [|subst tasks; destruct Hin].
  subst data. auto.
Qed.

(** X3. The tasks [searchCompletedTasks] returns have pairwise distinct
    identifiers, none of them is assigned to an excluded contributor, and
    each of them is in the response to one of the queries made. *)
Theorem searchCompletedTasks_result (api : Z -> Z -> option (list Task))
    (startDate endDate : Z) :
  NoDup (map task_gid (searchCompletedTasks api startDate endDate)) /\
  forall task,
    In task (searchCompletedTasks api startDate endDate) ->
    (forall assigneeName,
       task_assignee task = Some assigneeName ->
       ~ In assigneeName EXCLUDED_ASSIGNEES) /\
    exists a b tasks,
      In (a, b) (searchRanges startDate endDate) /\
      api a b = Some tasks /\ In task tasks.
Proof.
  split.
  - unfold searchCompletedTasks. cbv zeta.
    refine (sublist_NoDup _ _ _
              (sublist_map task_gid _ _ (filteredTasks_sublist _))).
    apply (uniqueTasksFrom_spec _ ∅).
  - intros task Hin. apply searchCompletedTasks_In in Hin as [Hkeep Hsource].
    split; [|exact Hsource].
    intros assigneeName Hassignee Hexcluded.
    rewrite (keepsTask_excluded task assigneeName Hassignee Hexcluded) in Hkeep.
    discriminate.
Qed.

Section ExclusiveSource.

(** The day a task was completed on, and a task source whose answers lie
    strictly between the two bounds of the query, which is how the program
    describes [completed_on.after] and [completed_on.before]. *)
Context (completedOn : Task -> Z) (api : Z -> Z -> option (list Task)).
Hypothesis api_exclusive :
  forall a b tasks task,
    api a b = Some tasks -> In task tasks -> (a < completedOn task < b)%Z.


End ExclusiveSource.

(** Over the range of Q1 2026, 2025-12-31 (day 20453) to 2026-04-01 (day
    20544), thirteen chunks are queried. *)
Lemma searchRanges_consecutive_witness :
  length (searchRanges 20453 20544) = 13 /\
  snd <$> last (searchRanges 20453 20544) = Some 20544%Z.
Proof.
  pose proof (searchRanges_consecutive 20453 20544 ltac:(lia)) as (Hlength & _ & Hlast & _).
  split; [exact Hlength | exact Hlast].
Defined.



(** ** Display records *)

Lemma assignee_eqb (assigneeName : option string) (f : string) :
  (match assigneeName with Some a => String.eqb f a | None => false end) = true <->
  assigneeName = Some f.
Proof.
  destruct assigneeName as [a|]; [|split; discriminate].
  rewrite String.eqb_eq. split; [intros ->; reflexivity | intros [= ->]; reflexivity].
Qed.

Lemma collaboratorsOf_In (assigneeName : option string)
    (followers : list (option string)) (name : string) :
  In name (collaboratorsOf assigneeName followers) <->
  In (Some name) followers /\ name <> "" /\ assigneeName <> Some name /\
  ~ In name EXCLUDED_ASSIGNEES.
Proof.
  induction followers as [|[f|] rest IH]; cbn [collaboratorsOf].
  - simpl. tauto.
  - match goal with
    | |- context [if ?b then _ else _] =>
        assert (Hkeep : b = true <->
                        f <> "" /\ assigneeName <> Some f /\ ~ In f EXCLUDED_ASSIGNEES);
        [|destruct b]
    end.
    + rewrite !andb_true_iff, !negb_true_iff, array_includes_false.
      rewrite <- assignee_eqb, not_true_iff_false.
      destruct (String.eqb_spec f ""); intuition congruence.
    + cbn [In]. rewrite IH. split.
      * intros [<-|?]; [|tauto]. split; [by left | by apply Hkeep].
      * intros [[[= <-]|?] ?]; [by left | tauto].
    + cbn [In]. rewrite IH. split; [tauto|].
      intros [[[= <-]|?] Hname]; [|tauto].
      apply Hkeep in Hname. discriminate.
  - cbn [In]. rewrite IH. split; [tauto|]. intros [[?|?] ?]; [discriminate | tauto].
Qed.

Lemma collaboratorsOf_sublist (assigneeName : option string)
    (followers : list (option string)) :
  sublist (map Some (collaboratorsOf assigneeName followers)) followers.
Proof.
  induction followers as [|[f|] rest IH]; simpl; [constructor| |by constructor].
  destruct (_ && _); simpl; by constructor.
Qed.

(** ** The loop of [calculateProgress], in closed form *)

Lemma processTask_patternTasks (goals : gmap string (gmap string Target))
    (acc acc' : Accumulator) (task : Task) :
  slotsMatch goals (progress acc) ->
  processTask acc task = Returned acc' ->
  agenticPatternsTasks acc' =
  (agenticPatternsTasks acc
   ++ (if isPatternTask goals task then [patternTaskDataOf task] else []))%list.
Proof.
  intros Hmatch.
  unfold processTask, isPatternTask, isContentTask, patternTaskDataOf, deliverableOf,
    taskDataOf.
  destruct (categorizeTask task) as [[m|]|]; [| |discriminate].
  - pose proof (Hmatch (category m) (deliverable m)) as Hdecl.
    destruct (lookupEntry (progress acc) (category m) (deliverable m)) as [e|].
    + cbv zeta. rewrite (proj1 Hdecl) by eauto. rewrite andb_true_l.
      destruct (array_includes CONTENT_DELIVERABLES (deliverable m)
                && (0 <? length (detectAgenticPatterns (task_name task)))%nat);
        intros [= <-]; cbn [agenticPatternsTasks]; [reflexivity | by rewrite app_nil_r].
    + intros [= <-]. destruct (declaredIn goals _ _).
      * destruct (proj2 Hdecl eq_refl). discriminate.
      * by rewrite app_nil_r.
  - intros [= <-]. by rewrite app_nil_r.
Qed.

Lemma processTasks_patternTasks (goals : gmap string (gmap string Target))
    (input : list Task) (acc acc' : Accumulator) :
  slotsMatch goals (progress acc) ->
  processTasks acc input = Returned acc' ->
  agenticPatternsTasks acc' =
  (agenticPatternsTasks acc
   ++ map patternTaskDataOf (List.filter (isPatternTask goals) input))%list /\
  agenticPatternsFound acc' =
  fold_left Set_add
    (concat (map (fun task => detectAgenticPatterns (task_name task))
                 (List.filter (isContentTask goals) input)))
    (agenticPatternsFound acc).
Proof.
  revert acc. induction input as [|task rest IH]; intros acc Hmatch; simpl.
  - intros [= <-]. by rewrite app_nil_r.
  - destruct (processTask acc task) as [acc1|] eqn:Hstep; [|discriminate].
    intros Hrest.
    destruct (IH acc1 (slotsMatch_step goals acc acc1 task Hmatch Hstep) Hrest)
      as [-> ->].
    rewrite (processTask_patternTasks goals acc acc1 task Hmatch Hstep).
    rewrite (processTask_patterns goals acc acc1 task Hmatch Hstep).
    split.
    + destruct (isPatternTask goals task); simpl; by rewrite <- app_assoc.
    + destruct (isContentTask goals task); simpl; [|reflexivity].
      by rewrite fold_left_app.
Qed.

(** Every slot of the progress object as a function of the input. *)
Lemma calculateProgress_lookup (goals : gmap string (gmap string Target))
    (input : list Task) (p : gmap string (gmap string Entry)) (c d : string) :
  calculateProgress input goals = Returned p ->
  lookupEntry p c d =
  if declaredIn goals c d then
    Some (if isPatternsSlot c d then patternsEntry goals input
          else addTasks (List.filter (classifiedAs c d) input) emptyEntry)
  else None.
Proof.
  unfold calculateProgress. cbv zeta.
  destruct (processTasks _ input) as [acc|] eqn:Hrun; [|discriminate].
  pose proof (progress_after_loop goals input acc) as Hslot.
  destruct (processTasks_patternTasks goals input (initialAccumulator goals) acc
              (slotsMatch_initial goals) Hrun)
    as [Htasks Hfound].
  cbn [initialAccumulator agenticPatternsTasks agenticPatternsFound app] in Htasks, Hfound.
  rewrite (Hslot "Build" "Agentic patterns owned" Hrun).
  destruct (declaredIn goals "Build" "Agentic patterns owned") eqn:Hdecl;
    intros [= <-].
  - rewrite lookupEntry_alter, (Hslot c d Hrun).
    destruct (isPatternsSlot c d) eqn:Hpat.
    + apply isPatternsSlot_true in Hpat as [-> ->].
      rewrite decide_True, Hdecl by done. cbn [fmap option_fmap option_map].
      unfold populatePatterns, patternsEntry, patternsOf. by rewrite Htasks, Hfound.
    + rewrite decide_False; [reflexivity|].
      intros Heq. apply isPatternsSlot_true in Heq. congruence.
  - rewrite (Hslot c d Hrun). destruct (declaredIn goals c d) eqn:Hcd; [|reflexivity].
    destruct (isPatternsSlot c d) eqn:Hpat; [|reflexivity].
    apply isPatternsSlot_true in Hpat as [-> ->]. congruence.
Qed.

Lemma calculateProgress_dom (goals : gmap string (gmap string Target))
    (input : list Task) (p : gmap string (gmap string Entry)) :
  calculateProgress input goals = Returned p -> dom p = dom goals.
Proof.
  unfold calculateProgress. cbv zeta.
  destruct (processTasks _ input) as [acc|] eqn:Hrun; [|discriminate].
  pose proof (processTasks_dom _ _ _ Hrun) as Hdom. simpl in Hdom.
  assert (Hinit : dom (initialProgress goals) = dom goals).
  { unfold initialProgress. apply dom_fmap_L. }
  destruct (lookupEntry _ _ _); intros [= <-].
  - by rewrite dom_alter_L, Hdom.
  - by rewrite Hdom.
Qed.

(** Two progress objects with the same categories and the same slots are
    the same object. *)
Lemma progress_ext (p p' : gmap string (gmap string Entry)) :
  dom p = dom p' ->
  (forall c d, lookupEntry p c d = lookupEntry p' c d) ->
  p = p'.
Proof.
  intros Hdom Hlook. apply map_eq. intros c.
  pose proof (Hlook c) as Hc. unfold lookupEntry in Hc.
  pose proof (elem_of_dom p c) as Hp. pose proof (elem_of_dom p' c) as Hp'.
  rewrite Hdom in Hp.
  destruct (p !! c) as [m|], (p' !! c) as [m'|]; simpl in Hc.
  - f_equal. apply map_eq. intros d. apply (Hc d).
  - exfalso. apply (is_Some_None (A := gmap string Entry)). apply Hp', Hp. eauto.
  - exfalso. apply (is_Some_None (A := gmap string Entry)). apply Hp, Hp'. eauto.
  - reflexivity.
Qed.

Lemma detectAgenticPatterns_sublist (taskName : string) :
  sublist (detectAgenticPatterns taskName) (map fst AGENTIC_PATTERNS).
Proof.
  unfold detectAgenticPatterns. apply sublist_map.
  induction AGENTIC_PATTERNS as [|entry rest IH]; simpl; [constructor|].
  destruct (some_test _ _); by constructor.
Qed.

Lemma patternsOf_elem (goals : gmap string (gmap string Target))
    (input : list Task) (x : string) :
  In x (patternsOf goals input) <->
  exists task, In task input /\ isContentTask goals task = true /\
               In x (detectAgenticPatterns (task_name task)).
Proof.
  unfold patternsOf. rewrite <- list_elem_of_In, fold_Set_add_elem, elem_of_nil.
  rewrite list_elem_of_In, in_concat. split.
  - intros [[]|(l & Hl & Hx)]. apply in_map_iff in Hl as (task & <- & Htask).
    apply filter_In in Htask as [Hin Hcontent]. eauto.
  - intros (task & Hin & Hcontent & Hx). right.
    exists (detectAgenticPatterns (task_name task)). split; [|assumption].
    apply in_map_iff. exists task. split; [reflexivity|].
    apply filter_In. by split.
Qed.

Lemma patternsOf_NoDup (goals : gmap string (gmap string Target)) (input : list Task) :
  NoDup (patternsOf goals input).
Proof. apply fold_Set_add_NoDup, NoDup_nil_2. Qed.

Lemma patternsOf_length (goals : gmap string (gmap string Target)) (input : list Task) :
  length (patternsOf goals input) <= 14.
Proof.
  change 14 with (length (map fst AGENTIC_PATTERNS)).
  apply NoDup_incl_length; [apply NoDup_ListNoDup, patternsOf_NoDup|].
  intros x Hx. apply patternsOf_elem in Hx as (task & _ & _ & Hx).
  eapply sublist_In; [apply detectAgenticPatterns_sublist | exact Hx].
Qed.

(** ** The derived aggregate *)

(** X5. The slot Build / "Agentic patterns owned" of the progress object is
    derived from the content tasks alone: [patternsFound] holds a pattern
    exactly when it is detected in the name of a task classified into a
    declared content deliverable, the count is the number of these patterns
    and never exceeds the 14 patterns of the library, and the task list
    holds, in input order, the records of the content tasks with a pattern,
    each marked with the deliverable it was classified into. *)
Theorem patterns_slot (goals : gmap string (gmap string Target))
    (input : list Task) (p : gmap string (gmap string Entry)) (e : Entry) :
  calculateProgress input goals = Returned p ->
  lookupEntry p "Build" "Agentic patterns owned" = Some e ->
  exists found,
    patternsFound e = Some found /\
    completed e = length found /\
    length found <= 14 /\
    (forall x, In x found <->
       exists task, In task input /\ isContentTask goals task = true /\
                    In x (detectAgenticPatterns (task_name task))) /\
    tasks e = map patternTaskDataOf (List.filter (isPatternTask goals) input).
Proof.
  intros Hp. rewrite (calculateProgress_lookup goals input p _ _ Hp).
  destruct (declaredIn goals _ _); [|discriminate]. intros [= <-].
  exists (patternsOf goals input). cbn.
  split; [reflexivity|]. split; [reflexivity|].
  split; [apply patternsOf_length|]. split; [|reflexivity].
  apply patternsOf_elem.
Qed.

Lemma patterns_slot_witness :
  exists p e,
    calculateProgress [sampleTask "Recorded a tutorial video on skills" []]
                      QUARTERLY_GOALS_2026_Q1 = Returned p /\
    lookupEntry p "Build" "Agentic patterns owned" = Some e /\
    exists found,
      patternsFound e = Some found /\
      completed e = length found /\
      length found <= 14 /\
      (forall x, In x found <->
         exists task,
           In task [sampleTask "Recorded a tutorial video on skills" []] /\
           isContentTask QUARTERLY_GOALS_2026_Q1 task = true /\
           In x (detectAgenticPatterns (task_name task))) /\
      tasks e = map patternTaskDataOf
                  (List.filter (isPatternTask QUARTERLY_GOALS_2026_Q1)
                     [sampleTask "Recorded a tutorial video on skills" []]).
Proof.
  destruct (calculateProgress_returns QUARTERLY_GOALS_2026_Q1
              [sampleTask "Recorded a tutorial video on skills" []] eq_refl)
    as [p Hp].
  pose proof (calculateProgress_lookup QUARTERLY_GOALS_2026_Q1 _ p
                "Build" "Agentic patterns owned" Hp) as He.
  exists p. eexists. split; [exact Hp|]. split; [exact He|].
  exact (patterns_slot QUARTERLY_GOALS_2026_Q1 _ p _ Hp He).
Defined.

(** ** Names shown in the progress object *)

Lemma calculateProgress_records (goals : gmap string (gmap string Target))
    (input : list Task) (p : gmap string (gmap string Entry))
    (c d : string) (e : Entry) (r : TaskData) :
  calculateProgress input goals = Returned p ->
  lookupEntry p c d = Some e ->
  In r (tasks e) ->
  exists task, In task input /\ (r = taskDataOf task \/ r = patternTaskDataOf task).
Proof.
  intros Hp. rewrite (calculateProgress_lookup goals input p c d Hp).
  destruct (declaredIn goals c d); [|discriminate].
  destruct (isPatternsSlot c d); intros [= <-]; cbn [tasks patternsEntry addTasks emptyEntry app];
    intros Hr; apply in_map_iff in Hr as (task & <- & Hin);
    apply filter_In in Hin as [Hin _]; eauto.
Qed.

Lemma keepsTask_assignee (task : Task) :
  keepsTask task = true -> ~ In (td_assignee (taskDataOf task)) EXCLUDED_ASSIGNEES.
Proof.
  unfold keepsTask, taskDataOf, makeTaskData. cbn [td_assignee].
  destruct (task_assignee task) as [n|].
  - destruct (String.eqb n "").
    + intros _. apply array_includes_false. reflexivity.
    + intros Hkeep. apply negb_true_iff in Hkeep. by apply array_includes_false.
  - intros _. apply array_includes_false. reflexivity.
Qed.

Lemma taskDataOf_collaborators (task : Task) (name : string) :
  In name (td_collaborators (taskDataOf task)) ->
  ~ In name EXCLUDED_ASSIGNEES /\ name <> "" /\
  (name = td_assignee (taskDataOf task) -> name = "Unassigned").
Proof.
  unfold taskDataOf, makeTaskData. cbn [td_collaborators td_assignee].
  intros Hin. apply collaboratorsOf_In in Hin as (_ & Hne & Hassignee & Hex).
  split; [assumption|]. split; [assumption|].
  destruct (task_assignee task) as [n|]; [|intros ->; reflexivity].
  destruct (String.eqb n ""); [intros ->; reflexivity|].
  intros ->. by destruct Hassignee.
Qed.

(** X6. The progress object computed from the result of
    [searchCompletedTasks] shows no excluded contributor: in every record of
    every slot, the assignee shown is not on the excluded list, and no
    collaborator is on it, has an empty name, or repeats the assignee shown
    (unless that is the placeholder "Unassigned"). *)
Theorem excluded_contributors_hidden (api : Z -> Z -> option (list Task))
    (startDate endDate : Z) (goals : gmap string (gmap string Target))
    (p : gmap string (gmap string Entry)) (c d : string) (e : Entry) (r : TaskData) :
  calculateProgress (searchCompletedTasks api startDate endDate) goals = Returned p ->
  lookupEntry p c d = Some e ->
  In r (tasks e) ->
  ~ In (td_assignee r) EXCLUDED_ASSIGNEES /\
  forall name, In name (td_collaborators r) ->
    ~ In name EXCLUDED_ASSIGNEES /\ name <> "" /\
    (name = td_assignee r -> name = "Unassigned").
Proof.
  intros Hp He Hr.
  destruct (calculateProgress_records goals _ p c d e r Hp He Hr) as (task & Hin & Hrec).
  apply filter_In in Hin as [_ Hkeep].
  assert (Hsame : td_assignee r = td_assignee (taskDataOf task) /\
                  td_collaborators r = td_collaborators (taskDataOf task)).
  { destruct Hrec as [-> | ->]; split; reflexivity. }
  destruct Hsame as [-> ->]. split; [by apply keepsTask_assignee|].
  apply taskDataOf_collaborators.
Qed.

Lemma excluded_contributors_hidden_witness :
  exists p e r,
    calculateProgress (searchCompletedTasks sampleSource 20453 20544)
                      QUARTERLY_GOALS_2026_Q1 = Returned p /\
    lookupEntry p "Blogs" "Blog posts" = Some e /\
    In r (tasks e) /\
    td_gid r = "101" /\
    ~ In (td_assignee r) EXCLUDED_ASSIGNEES /\
    forall name, In name (td_collaborators r) ->
      ~ In name EXCLUDED_ASSIGNEES /\ name <> "" /\
      (name = td_assignee r -> name = "Unassigned").
Proof.
  destruct (calculateProgress_returns QUARTERLY_GOALS_2026_Q1
              (searchCompletedTasks sampleSource 20453 20544) eq_refl) as [p Hp].
  pose proof (calculateProgress_lookup QUARTERLY_GOALS_2026_Q1 _ p
                "Blogs" "Blog posts" Hp) as He.
  assert (Hr : In (taskDataOf (completedTask "101" "Published blog post on MCP apps"
                                 "2026-01-05T10:00:00.000Z" (Some "Ada")
                                 ["Eva Sasson"; "Grace"; "Ada"]))
                  (tasks (addTasks
                            (List.filter (classifiedAs "Blogs" "Blog posts")
                               (searchCompletedTasks sampleSource 20453 20544))
                            emptyEntry))).
  { vm_compute. left. reflexivity. }
  exists p. eexists. eexists. split; [exact Hp|]. split; [exact He|].
  split; [exact Hr|]. split; [reflexivity|].
  exact (excluded_contributors_hidden sampleSource 20453 20544
           QUARTERLY_GOALS_2026_Q1 p "Blogs" "Blog posts" _ _ Hp He Hr).
Defined.

(** ** Faults of the aggregation *)


(** ** Tasks that leave no trace *)

Lemma filter_filter_implies {A : Type} (f g : A -> bool) (l : list A) :
  (forall x, In x l -> g x = true -> f x = true) ->
  List.filter g (List.filter f l) = List.filter g l.
Proof.
  induction l as [|x l IH]; intros Himp; simpl; [reflexivity|].
  assert (Hl : forall y, In y l -> g y = true -> f y = true).
  { intros y Hy. apply Himp. by right. }
  destruct (f x) eqn:Hf; simpl.
  - by rewrite IH.
  - destruct (g x) eqn:Hg; [|by apply IH].
    rewrite (Himp x (or_introl eq_refl) Hg) in Hf. discriminate.
Qed.

Lemma isContentTask_declared (goals : gmap string (gmap string Target)) (task : Task) :
  isContentTask goals task = true -> classifiedToDeclared goals task = true.
Proof.
  unfold isContentTask, classifiedToDeclared.
  destruct (categorizeTask task) as [[m|]|]; try discriminate.
  intros H. by apply andb_true_iff in H as [? _].
Qed.

Lemma classifiedAs_declared (goals : gmap string (gmap string Target))
    (c d : string) (task : Task) :
  declaredIn goals c d = true ->
  classifiedAs c d task = true -> classifiedToDeclared goals task = true.
Proof.
  unfold classifiedAs, classifiedToDeclared.
  destruct (categorizeTask task) as [[m|]|]; try discriminate.
  intros Hdecl H. apply andb_true_iff in H as [Hc Hd].
  apply String.eqb_eq in Hc, Hd. by rewrite Hc, Hd.
Qed.

(** X8. Tasks that [categorizeTask] does not classify, or classifies into a
    pair the goal spec does not declare, leave no trace in the progress
    object: removing them from the input gives the same object. *)
Theorem unclassified_tasks_ignored (goals : gmap string (gmap string Target))
    (input : list Task) (p : gmap string (gmap string Entry)) :
  calculateProgress input goals = Returned p ->
  calculateProgress (List.filter (classifiedToDeclared goals) input) goals = Returned p.
Proof.
  intros Hp.
  destruct (calculateProgress (List.filter (classifiedToDeclared goals) input) goals)
    as [p'|] eqn:Hp'.
  - f_equal. apply progress_ext.
    + by rewrite (calculateProgress_dom goals _ p' Hp'),
        (calculateProgress_dom goals _ p Hp).
    + intros c d.
      rewrite (calculateProgress_lookup goals _ p' c d Hp'),
        (calculateProgress_lookup goals _ p c d Hp).
      destruct (declaredIn goals c d) eqn:Hdecl; [|reflexivity].
      unfold patternsEntry, patternsOf.
      rewrite !filter_filter_implies; [reflexivity| | |].
      * intros task _. by apply classifiedAs_declared.
      * intros task _ Hpat. apply isContentTask_declared.
        unfold isPatternTask in Hpat. by apply andb_true_iff in Hpat as [? _].
      * intros task _. apply isContentTask_declared.
  - apply calculateProgress_throws in Hp' as (task & Hin & Ht).
    apply filter_In in Hin as [_ Hdecl].
    unfold classifiedToDeclared in Hdecl. rewrite Ht in Hdecl. discriminate.
Qed.

Lemma unclassified_tasks_ignored_witness :
  exists p,
    calculateProgress
      [sampleTask "Recorded a tutorial video on skills" [];
       sampleTask "Lunch" []]
      QUARTERLY_GOALS_2026_Q1 = Returned p /\
    calculateProgress [sampleTask "Recorded a tutorial video on skills" []]
      QUARTERLY_GOALS_2026_Q1 = Returned p.
Proof.
  destruct (calculateProgress_returns QUARTERLY_GOALS_2026_Q1
              [sampleTask "Recorded a tutorial video on skills" [];
               sampleTask "Lunch" []] eq_refl) as [p Hp].
  exists p. split; [exact Hp|].
  exact (unclassified_tasks_ignored QUARTERLY_GOALS_2026_Q1 _ p Hp).
Defined.

(** ** Composition *)

Lemma Set_add_present (s : list string) (x : string) :
  array_includes s x = true -> Set_add s x = s.
Proof. unfold Set_add. by intros ->. Qed.

Lemma Set_add_absent (s : list string) (x : string) :
  array_includes s x = false -> Set_add s x = (s ++ [x])%list.
Proof. unfold Set_add. by intros ->. Qed.

Lemma fold_Set_add_fold (l t s : list string) :
  fold_left Set_add (fold_left Set_add l t) s =
  fold_left Set_add l (fold_left Set_add t s).
Proof.
  revert t. induction l as [|x l IH]; intros t; simpl; [reflexivity|].
  rewrite IH. f_equal.
  destruct (array_includes t x) eqn:Hin.
  - rewrite (Set_add_present t x Hin). symmetry. apply Set_add_present.
    apply array_includes_In, list_elem_of_In, fold_Set_add_elem. right.
    by apply list_elem_of_In, array_includes_In.
  - rewrite (Set_add_absent t x Hin). by rewrite fold_left_app.
Qed.

Lemma patternsOf_app (goals : gmap string (gmap string Target)) (l1 l2 : list Task) :
  patternsOf goals (l1 ++ l2) =
  fold_left Set_add (patternsOf goals l2) (patternsOf goals l1).
Proof.
  unfold patternsOf.
  rewrite List.filter_app, map_app, concat_app, fold_left_app.
  by rewrite fold_Set_add_fold.
Qed.

(** X9. The progress of two lists of tasks, one after the other, is
    composed of their two progress objects: in every slot other than
    Build / "Agentic patterns owned" the counts add up and the task lists
    are appended; the patterns of the second list are added to the pattern
    set of the first, and the derived count is the size of the result. *)
Theorem calculateProgress_app (goals : gmap string (gmap string Target))
    (l1 l2 : list Task) (p1 p2 : gmap string (gmap string Entry)) :
  calculateProgress l1 goals = Returned p1 ->
  calculateProgress l2 goals = Returned p2 ->
  exists p,
    calculateProgress (l1 ++ l2) goals = Returned p /\
    (forall c d, isPatternsSlot c d = false ->
       lookupEntry p c d =
       match lookupEntry p1 c d, lookupEntry p2 c d with
       | Some e1, Some e2 => Some (mergeEntries e1 e2)
       | _, _ => None
       end) /\
    patternsOwned p =
    match patternsOwned p1, patternsOwned p2 with
    | Some (_, found1), Some (_, found2) =>
        Some (length (fold_left Set_add found2 found1),
              fold_left Set_add found2 found1)
    | _, _ => None
    end.
Proof.
  intros Hp1 Hp2.
  destruct (calculateProgress (l1 ++ l2) goals) as [p|] eqn:Hp.
  - exists p. split; [reflexivity|]. split.
    + intros c d Hslot.
      rewrite (calculateProgress_lookup goals _ p c d Hp),
        (calculateProgress_lookup goals _ p1 c d Hp1),
        (calculateProgress_lookup goals _ p2 c d Hp2), Hslot.
      destruct (declaredIn goals c d); [|reflexivity].
      unfold addTasks, mergeEntries. cbn.
      by rewrite List.filter_app, map_app, length_app.
    + unfold patternsOwned.
      rewrite (calculateProgress_lookup goals _ p _ _ Hp),
        (calculateProgress_lookup goals _ p1 _ _ Hp1),
        (calculateProgress_lookup goals _ p2 _ _ Hp2).
      destruct (declaredIn goals _ _); [|reflexivity]. cbn.
      by rewrite patternsOf_app.
  - apply calculateProgress_throws in Hp as (task & Hin & Ht).
    apply in_app_or in Hin as [Hin|Hin].
    + assert (Hthrows : calculateProgress l1 goals = ThrewTypeError)
        by (apply calculateProgress_throws; eauto).
      congruence.
    + assert (Hthrows : calculateProgress l2 goals = ThrewTypeError)
        by (apply calculateProgress_throws; eauto).
      congruence.
Qed.

Lemma calculateProgress_app_witness :
  exists p1 p2 p,
    calculateProgress [sampleTask "Recorded a tutorial video on skills" []]
      QUARTERLY_GOALS_2026_Q1 = Returned p1 /\
    calculateProgress [sampleTask "Wrote a blog post on MCP apps and skills" []]
      QUARTERLY_GOALS_2026_Q1 = Returned p2 /\
    calculateProgress
      [sampleTask "Recorded a tutorial video on skills" [];
       sampleTask "Wrote a blog post on MCP apps and skills" []]
      QUARTERLY_GOALS_2026_Q1 = Returned p /\
    patternsOwned p =
    match patternsOwned p1, patternsOwned p2 with
    | Some (_, found1), Some (_, found2) =>
        Some (length (fold_left Set_add found2 found1),
              fold_left Set_add found2 found1)
    | _, _ => None
    end.
Proof.
  destruct (calculateProgress_returns QUARTERLY_GOALS_2026_Q1
              [sampleTask "Recorded a tutorial video on skills" []] eq_refl)
    as [p1 Hp1].
  destruct (calculateProgress_returns QUARTERLY_GOALS_2026_Q1
              [sampleTask "Wrote a blog post on MCP apps and skills" []] eq_refl)
    as [p2 Hp2].
  destruct (calculateProgress_app QUARTERLY_GOALS_2026_Q1 _ _ p1 p2 Hp1 Hp2)
    as (p & Hp & _ & Hpatterns).
  exists p1, p2, p. split; [exact Hp1|]. split; [exact Hp2|].
  split; [exact Hp | exact Hpatterns].
Defined.

(** ** Order of the input *)

Lemma Permutation_List_filter {A : Type} (f : A -> bool) (l l' : list A) :
  Permutation l l' -> Permutation (List.filter f l) (List.filter f l').
Proof.
  induction 1 as [|x l l' _ IH|x y l|l l' l'' _ IH _ IH']; simpl.
  - constructor.
  - destruct (f x); [by constructor | assumption].
  - destruct (f x), (f y); try reflexivity. apply perm_swap.
  - by etransitivity.
Qed.

(** X10. The counts of the progress object do not depend on the order of
    the input: after a permutation of the tasks every slot has the same
    completed count, and its task list holds the same records in a possibly
    different order. *)
Theorem calculateProgress_permutation (goals : gmap string (gmap string Target))
    (input input' : list Task) (p p' : gmap string (gmap string Entry)) :
  Permutation input input' ->
  calculateProgress input goals = Returned p ->
  calculateProgress input' goals = Returned p' ->
  forall c d,
    match lookupEntry p c d, lookupEntry p' c d with
    | Some e, Some e' => completed e = completed e' /\ Permutation (tasks e) (tasks e')
    | None, None => True
    | _, _ => False
    end.
Proof.
  intros Hperm Hp Hp' c d.
  rewrite (calculateProgress_lookup goals _ p c d Hp),
    (calculateProgress_lookup goals _ p' c d Hp').
  destruct (declaredIn goals c d); [|exact I].
  destruct (isPatternsSlot c d); cbn.
  - split.
    + apply Permutation_length, NoDup_Permutation; try apply patternsOf_NoDup.
      intros x. rewrite !list_elem_of_In, !patternsOf_elem.
      split; intros (task & Hin & Htask); exists task; (split; [|assumption]).
      * eapply Permutation_in; eassumption.
      * eapply Permutation_in; [symmetry|]; eassumption.
    + by apply Permutation_map, Permutation_List_filter.
  - split.
    + by apply Permutation_length, Permutation_List_filter.
    + by apply Permutation_map, Permutation_List_filter.
Qed.

Lemma calculateProgress_permutation_witness :
  exists p p',
    calculateProgress
      [sampleTask "Recorded a tutorial video on skills" [];
       sampleTask "Wrote a blog post on MCP apps and skills" []]
      QUARTERLY_GOALS_2026_Q1 = Returned p /\
    calculateProgress
      [sampleTask "Wrote a blog post on MCP apps and skills" [];
       sampleTask "Recorded a tutorial video on skills" []]
      QUARTERLY_GOALS_2026_Q1 = Returned p' /\
    match lookupEntry p "Blogs" "Blog posts", lookupEntry p' "Blogs" "Blog posts" with
    | Some e, Some e' => completed e = completed e' /\ Permutation (tasks e) (tasks e')
    | None, None => True
    | _, _ => False
    end.
Proof.
  destruct (calculateProgress_returns QUARTERLY_GOALS_2026_Q1
              [sampleTask "Recorded a tutorial video on skills" [];
               sampleTask "Wrote a blog post on MCP apps and skills" []]
              eq_refl) as [p Hp].
  destruct (calculateProgress_returns QUARTERLY_GOALS_2026_Q1
              [sampleTask "Wrote a blog post on MCP apps and skills" [];
               sampleTask "Recorded a tutorial video on skills" []]
              eq_refl) as [p' Hp'].
  exists p, p'. split; [exact Hp|]. split; [exact Hp'|].
  exact (calculateProgress_permutation QUARTERLY_GOALS_2026_Q1 _ _ p p'
           (perm_swap _ _ []) Hp Hp' "Blogs" "Blog posts").
Defined.

(** ** Letter case *)

Lemma lower_ascii_classes (a : ascii) :
  is_space (lower_ascii a) = is_space a /\
  is_digit (lower_ascii a) = is_digit a /\
  is_word (lower_ascii a) = is_word a.
Proof.
  destruct a as [[] [] [] [] [] [] [] []]; vm_compute; repeat split.
Qed.

Lemma is_word_opt_case (o o' : option ascii) :
  option_map lower_ascii o = option_map lower_ascii o' ->
  is_word_opt o = is_word_opt o'.
Proof.
  destruct o as [a|], o' as [a'|]; try discriminate; [|reflexivity].
  intros [= H]. simpl.
  rewrite <- (proj2 (proj2 (lower_ascii_classes a))),
    <- (proj2 (proj2 (lower_ascii_classes a'))).
  by rewrite H.
Qed.

Lemma toLowerCase_length (s : string) :
  String.length (toLowerCase s) = String.length s.
Proof. induction s as [|a s IH]; simpl; congruence. Qed.

Lemma sameCase_length (s s' : string) :
  toLowerCase s = toLowerCase s' -> String.length s = String.length s'.
Proof.
  intros H. by rewrite <- (toLowerCase_length s), <- (toLowerCase_length s'), H.
Qed.

Lemma iterate_case (step step' : option ascii -> string -> cont -> bool) :
  (forall prev prev' s s' k k',
     option_map lower_ascii prev = option_map lower_ascii prev' ->
     toLowerCase s = toLowerCase s' ->
     caseBlind k k' ->
     step prev s k = step' prev' s' k') ->
  forall fuel prev prev' s s' k k',
    option_map lower_ascii prev = option_map lower_ascii prev' ->
    toLowerCase s = toLowerCase s' ->
    caseBlind k k' ->
    iterate step fuel prev s k = iterate step' fuel prev' s' k'.
Proof.
  intros Hstep. induction fuel as [|fuel IH]; intros prev prev' s s' k k' Hprev Hs Hk;
    simpl.
  - by rewrite (Hk prev prev' s s').
  - rewrite (Hk prev prev' s s') by assumption. f_equal.
    apply Hstep; [assumption..|].
    intros p p' t t' Hp Ht.
    rewrite (sameCase_length s s' Hs), (sameCase_length t t' Ht). f_equal.
    by apply IH.
Qed.

Lemma matches_case (r : regex) :
  forall prev prev' s s' k k',
    option_map lower_ascii prev = option_map lower_ascii prev' ->
    toLowerCase s = toLowerCase s' ->
    caseBlind k k' ->
    matches r prev s k = matches r prev' s' k'.
Proof.
  induction r as [c| | | | |r1 IH1 r2 IH2|r1 IH1 r2 IH2|r1 IH1|r1 IH1|r1 IH1];
    intros prev prev' s s' k k' Hprev Hs Hk; cbn [matches].
  - destruct s as [|a t], s' as [|a' t']; try discriminate; [reflexivity|].
    injection Hs as Ha Ht. rewrite Ha. f_equal. apply Hk; [|assumption].
    simpl. by rewrite Ha.
  - destruct s as [|a t], s' as [|a' t']; try discriminate; [reflexivity|].
    injection Hs as Ha Ht.
    rewrite <- (proj1 (lower_ascii_classes a)), <- (proj1 (lower_ascii_classes a')), Ha.
    f_equal. apply Hk; [|assumption]. simpl. by rewrite Ha.
  - destruct s as [|a t], s' as [|a' t']; try discriminate; [reflexivity|].
    injection Hs as Ha Ht.
    rewrite <- (proj1 (proj2 (lower_ascii_classes a))),
      <- (proj1 (proj2 (lower_ascii_classes a'))), Ha.
    f_equal. apply Hk; [|assumption]. simpl. by rewrite Ha.
  - rewrite (is_word_opt_case prev prev' Hprev).
    rewrite (is_word_opt_case (head_char s) (head_char s')).
    + f_equal. by apply Hk.
    + destruct s as [|a t], s' as [|a' t']; try discriminate; [reflexivity|].
      injection Hs as Ha _. simpl. by rewrite Ha.
  - by apply Hk.
  - apply IH1; [assumption..|]. intros p p' t t' Hp Ht. by apply IH2.
  - f_equal; [by apply IH1 | by apply IH2].
  - f_equal; [by apply IH1 | by apply Hk].
  - rewrite (sameCase_length s s' Hs). by apply iterate_case.
  - apply IH1; [assumption..|]. intros p p' t t' Hp Ht.
    rewrite (sameCase_length t t' Ht). by apply iterate_case.
Qed.

Lemma search_case (r : regex) (s : string) :
  forall prev prev' s',
    option_map lower_ascii prev = option_map lower_ascii prev' ->
    toLowerCase s = toLowerCase s' ->
    search r prev s = search r prev' s'.
Proof.
  induction s as [|a t IH]; intros prev prev' s' Hprev Hs;
    destruct s' as [|a' t']; try discriminate; cbn [search].
  - f_equal. by apply matches_case.
  - f_equal; [by apply matches_case|].
    injection Hs as Ha Ht. apply IH; [|assumption]. simpl. by rewrite Ha.
Qed.

Lemma regex_test_case (r : regex) (s s' : string) :
  toLowerCase s = toLowerCase s' -> regex_test r s = regex_test r s'.
Proof. intros Hs. by apply search_case. Qed.

Lemma some_test_case (patterns : list regex) (s s' : string) :
  toLowerCase s = toLowerCase s' -> some_test patterns s = some_test patterns s'.
Proof.
  intros Hs. unfold some_test. induction patterns as [|r rest IH]; simpl; [reflexivity|].
  by rewrite IH, (regex_test_case r s s' Hs).
Qed.

Lemma isExcluded_case (s s' d : string) :
  toLowerCase s = toLowerCase s' -> isExcluded s d = isExcluded s' d.
Proof.
  intros Hs. unfold isExcluded. destruct (EXCLUSION_PATTERNS !! d); [|reflexivity].
  by apply some_test_case.
Qed.

Lemma hasConfirmation_case (s s' d : string) :
  toLowerCase s = toLowerCase s' -> hasConfirmation s d = hasConfirmation s' d.
Proof.
  intros Hs. unfold hasConfirmation. destruct (CONFIRMATION_PATTERNS !! d); [|reflexivity].
  by apply some_test_case.
Qed.

Lemma detectAgenticPatterns_case (s s' : string) :
  toLowerCase s = toLowerCase s' ->
  detectAgenticPatterns s = detectAgenticPatterns s'.
Proof.
  intros Hs. unfold detectAgenticPatterns. f_equal.
  induction AGENTIC_PATTERNS as [|entry rest IH]; simpl; [reflexivity|].
  by rewrite IH, (some_test_case _ s s' Hs).
Qed.

Lemma existsb_Forall2 {A : Type} (R : A -> A -> Prop) (f : A -> bool) (l l' : list A) :
  (forall x y, R x y -> f x = f y) ->
  Forall2 R l l' -> existsb f l = existsb f l'.
Proof.
  intros Hf. induction 1 as [|x y l l' Hxy _ IH]; simpl; [reflexivity|].
  by rewrite IH, (Hf x y Hxy).
Qed.

Lemma forTags_Forall2 (R : Tag -> Tag -> Prop) (body body' : Tag -> TagStep)
    (tags tags' : list Tag) :
  (forall tag tag', R tag tag' -> body tag = body' tag') ->
  Forall2 R tags tags' -> forTags body tags = forTags body' tags'.
Proof.
  intros Hbody. induction 1 as [|x y l l' Hxy _ IH]; simpl; [reflexivity|].
  by rewrite IH, (Hbody x y Hxy).
Qed.

Lemma gid_is_case (tag tag' : Tag) (g : string) :
  sameTagUpToCase tag tag' -> gid_is tag g = gid_is tag' g.
Proof. intros [Hgid _]. unfold gid_is. by rewrite Hgid. Qed.

Lemma name_lower_is_case (tag tag' : Tag) (s : string) :
  sameTagUpToCase tag tag' -> name_lower_is tag s = name_lower_is tag' s.
Proof.
  intros [_ Hname]. unfold name_lower_is.
  destruct (tag_name tag), (tag_name tag'); try discriminate; [|reflexivity].
  injection Hname as ->. reflexivity.
Qed.

Lemma phase1_tag_case (tags tags' : list Tag) (n o o' : string) (tag tag' : Tag) :
  Forall2 sameTagUpToCase tags tags' ->
  toLowerCase o = toLowerCase o' ->
  sameTagUpToCase tag tag' ->
  phase1_tag tags n o tag = phase1_tag tags' n o' tag'.
Proof.
  intros Htags Ho Htag. unfold phase1_tag.
  rewrite (proj1 Htag), !(gid_is_case tag tag' _ Htag).
  assert (Htutorial : hasTutorialTag tags = hasTutorialTag tags').
  { apply (existsb_Forall2 sameTagUpToCase); [|assumption].
    intros x y Hxy. by rewrite !(gid_is_case x y _ Hxy). }
  assert (Hvideo : hasVideoTag tags = hasVideoTag tags').
  { apply (existsb_Forall2 sameTagUpToCase); [|assumption].
    intros x y Hxy. by rewrite !(gid_is_case x y _ Hxy). }
  rewrite Htutorial, Hvideo.
  destruct (tableLookup _ _) as [mapping|]; [|reflexivity].
  by rewrite !(isExcluded_case o o' _ Ho), !(hasConfirmation_case o o' _ Ho).
Qed.

Lemma phase2_tag_case (o o' : string) (tag tag' : Tag) :
  toLowerCase o = toLowerCase o' ->
  sameTagUpToCase tag tag' ->
  phase2_tag o tag = phase2_tag o' tag'.
Proof.
  intros Ho [_ Hname]. unfold phase2_tag.
  destruct (tag_name tag), (tag_name tag'); try discriminate; [|reflexivity].
  injection Hname as ->. cbv zeta.
  destruct (tableLookup _ _) as [mapping|]; [|reflexivity].
  by rewrite !(isExcluded_case o o' _ Ho), !(hasConfirmation_case o o' _ Ho).
Qed.

Lemma phase3_case (n o o' : string) :
  toLowerCase o = toLowerCase o' -> phase3 n o = phase3 n o'.
Proof.
  intros Ho. unfold phase3.
  by rewrite !(isExcluded_case o o' _ Ho), !(hasConfirmation_case o o' _ Ho),
    (regex_test_case _ o o' Ho).
Qed.

(** X11. The classification does not depend on letter case: two tasks whose
    names, and whose tags' names, differ in the case of letters only (the
    tags having the same identifiers, in the same order) get the same result
    from [categorizeTask], a fault included, and the same agentic patterns
    are detected in their names. *)
Theorem categorizeTask_case_insensitive (task task' : Task) :
  sameTaskUpToCase task task' ->
  categorizeTask task = categorizeTask task' /\
  detectAgenticPatterns (task_name task) = detectAgenticPatterns (task_name task').
Proof.
  intros [Hname Htags]. split; [|by apply detectAgenticPatterns_case].
  unfold categorizeTask. cbv zeta. rewrite Hname.
  assert (Hside : hasSideProjectTag (tagsOf task) = hasSideProjectTag (tagsOf task')).
  { apply (existsb_Forall2 sameTagUpToCase); [|assumption]. intros x y Hxy.
    by rewrite (gid_is_case x y _ Hxy), (name_lower_is_case x y _ Hxy). }
  assert (Hcfp : hasCfpTag (tagsOf task) = hasCfpTag (tagsOf task')).
  { apply (existsb_Forall2 sameTagUpToCase); [|assumption]. intros x y Hxy.
    by rewrite (gid_is_case x y _ Hxy), (name_lower_is_case x y _ Hxy). }
  assert (Hgoose : hasGooseContributionTag (tagsOf task)
                   = hasGooseContributionTag (tagsOf task')).
  { apply (existsb_Forall2 sameTagUpToCase); [|assumption]. intros x y Hxy.
    by rewrite (gid_is_case x y _ Hxy), (name_lower_is_case x y _ Hxy). }
  rewrite Hside, Hcfp, Hgoose.
  rewrite (forTags_Forall2 sameTagUpToCase
             (phase1_tag (tagsOf task) _ (task_name task))
             (phase1_tag (tagsOf task') _ (task_name task'))
             _ _ (fun x y => phase1_tag_case _ _ _ _ _ x y Htags Hname) Htags).
  rewrite (forTags_Forall2 sameTagUpToCase
             (phase2_tag (task_name task)) (phase2_tag (task_name task'))
             _ _ (fun x y => phase2_tag_case _ _ x y Hname) Htags).
  by rewrite (phase3_case _ _ _ Hname).
Qed.

Lemma categorizeTask_case_insensitive_witness :
  categorizeTask
    (sampleTask "RECORDED A TUTORIAL VIDEO ON SKILLS"
       [{| tag_gid := None; tag_name := Some "Video Tutorial" |}]) =
  categorizeTask
    (sampleTask "Recorded a tutorial video on skills"
       [{| tag_gid := None; tag_name := Some "video tutorial" |}]).
Proof.
  apply categorizeTask_case_insensitive. split; [reflexivity|].
  repeat constructor.
Defined.

(** ** The range of the classifier *)

Ltac known_pair := cbn [In]; repeat (first [left; reflexivity | right]).

Lemma tableLookup_category_pair (k : string) (m : Mapping) :
  tableLookup TAG_CATEGORY_MAP k = Some m -> In m classifierPairs.
Proof.
  unfold tableLookup. destruct (TAG_CATEGORY_MAP !! k) as [m'|] eqn:Hk.
  - intros [= <-]. revert Hk. unfold TAG_CATEGORY_MAP.
    apply (list_to_map_values (fun m => In m classifierPairs)).
    repeat (apply Forall_cons_2; [known_pair|]). apply Forall_nil_2.
  - destruct (array_includes _ _); intros [= <-]. known_pair.
Qed.

Lemma tableLookup_name_pair (k : string) (m : Mapping) :
  tableLookup TAG_NAME_MAP k = Some m -> In m classifierPairs.
Proof.
  unfold tableLookup. destruct (TAG_NAME_MAP !! k) as [m'|] eqn:Hk.
  - intros [= <-]. revert Hk. unfold TAG_NAME_MAP.
    apply (list_to_map_values (fun m => In m classifierPairs)).
    repeat (apply Forall_cons_2; [known_pair|]). apply Forall_nil_2.
  - destruct (array_includes _ _); intros [= <-]. known_pair.
Qed.

Lemma phase1_tag_pair (tags : list Tag) (n o : string) (tag : Tag) (m : Mapping) :
  phase1_tag tags n o tag = Return m -> In m classifierPairs.
Proof.
  unfold phase1_tag.
  destruct (tableLookup _ _) as [mapping|] eqn:Hlook; [|discriminate].
  apply tableLookup_category_pair in Hlook.
  intros H. split_ifs H; try discriminate;
    injection H as <-; first [assumption | known_pair].
Qed.

Lemma phase2_tag_pair (o : string) (tag : Tag) (m : Mapping) :
  phase2_tag o tag = Return m -> In m classifierPairs.
Proof.
  unfold phase2_tag. destruct (tag_name tag) as [name|]; [|discriminate].
  cbv zeta.
  destruct (tableLookup _ _) as [mapping|] eqn:Hlook; [|discriminate].
  apply tableLookup_name_pair in Hlook.
  intros H. split_ifs H; try discriminate;
    injection H as <-; first [assumption | known_pair].
Qed.

Lemma phase3_pair (n o : string) (m : Mapping) :
  phase3 n o = Some m -> In m classifierPairs.
Proof.
  unfold phase3. intros H.
  split_ifs H; try discriminate; injection H as <-; known_pair.
Qed.

Lemma categorizeTask_pair (task : Task) (m : Mapping) :
  categorizeTask task = Returned (Some m) -> In m classifierPairs.
Proof.
  unfold categorizeTask. cbv zeta. intros H.
  destruct (hasSideProjectTag _); [injection H as <-; known_pair|].
  destruct (hasCfpTag _); [injection H as <-; known_pair|].
  destruct (hasGooseContributionTag _); [injection H as <-; known_pair|].
  destruct (forTags (phase1_tag _ _ _) _) as [|m1|] eqn:H1; [| |discriminate].
  - destruct (forTags (phase2_tag _) _) as [|m2|] eqn:H2; [| |discriminate].
    + injection H as H. by apply phase3_pair in H.
    + injection H as <-. apply forTags_Return in H2 as (tag & _ & H2).
      by apply phase2_tag_pair in H2.
  - injection H as <-. apply forTags_Return in H1 as (tag & _ & H1).
    by apply phase1_tag_pair in H1.
Qed.

Lemma classifierSamples_classified :
  map categorizeTask classifierSamples = map (fun m => Returned (Some m)) classifierPairs.
Proof. vm_compute. reflexivity. Qed.

(** X12. The range of [categorizeTask]: a classification is returned for
    some task exactly when it is one of fourteen pairs of a category and a
    deliverable, or the inherited property of a tag table.  The pair
    Build / "Agentic patterns owned" is not among them, and the deliverable
    of a result determines its category. *)
Theorem categorizeTask_range :
  (forall m : Mapping,
     (exists task, categorizeTask task = Returned (Some m)) <-> In m classifierPairs) /\
  ~ In {| category := "Build"; deliverable := "Agentic patterns owned" |}
       classifierPairs /\
  (forall task task' m m',
     categorizeTask task = Returned (Some m) ->
     categorizeTask task' = Returned (Some m') ->
     deliverable m = deliverable m' -> category m = category m').
Proof.
  split; [|split].
  - intros m. split.
    + intros [task Htask]. by apply categorizeTask_pair in Htask.
    + intros Hin.
      assert (Hsample : In (Returned (Some m)) (map categorizeTask classifierSamples)).
      { rewrite classifierSamples_classified.
        exact (in_map (fun m => Returned (Some m)) _ _ Hin). }
      apply in_map_iff in Hsample as (task & Htask & _). eauto.
  - cbn [In classifierPairs]. intros H.
    repeat (destruct H as [H|H]; [discriminate|]). exact H.
  - intros task task' m m' Hm Hm' Hd.
    apply categorizeTask_pair in Hm, Hm'. cbn [In classifierPairs] in Hm, Hm'.
    repeat (destruct Hm as [<-|Hm]);
      repeat (destruct Hm' as [<-|Hm']);
      first [reflexivity | discriminate | contradiction].
Qed.

(** ** Uncategorized tasks *)





(** ** Open documentation tasks *)




(** ** The request counter *)

Lemma limiterStep_count (s s' : Limiter) (ev : LimiterEvent) (stretch : Stretch) :
  limiterStep s ev = (s', stretch) ->
  (0 <= requestCount s <= MAX_REQUESTS_PER_WINDOW)%Z ->
  (0 <= requestCount s' <= MAX_REQUESTS_PER_WINDOW)%Z /\
  requestCount s' = sentInWindow (requestCount s) [stretch] /\
  match outcome stretch with
  | Sends => (1 <= requestCount s')%Z
  | Waits waitTime =>
      restarted stretch = false /\
      requestCount s' = MAX_REQUESTS_PER_WINDOW /\
      forall tTest tRestart tWait,
        ev = Enter tTest tRestart tWait ->
        (waitTime = RATE_LIMIT_WINDOW - (tWait - requestWindowStart s) /\
         (tTest <= tWait -> requestWindowStart s <= tTest ->
          tTest - tWait <= waitTime <= RATE_LIMIT_WINDOW))%Z
  end.
Proof.
  unfold MAX_REQUESTS_PER_WINDOW, RATE_LIMIT_WINDOW.
  destruct ev as [tTest tRestart tWait|now]; cbn [limiterStep].
  - unfold enter, MAX_REQUESTS_PER_WINDOW, RATE_LIMIT_WINDOW. cbv zeta.
    destruct (Z.gtb_spec (tTest - requestWindowStart s) (60 * 1000)) as [Hexp|Hexp].
    + cbn [requestCount requestWindowStart].
      destruct (Z.geb_spec 0 50); [lia|]. intros [= <- <-] Hs. cbn. lia.
    + destruct (Z.geb_spec (requestCount s) 50) as [Hfull|Hfree];
        intros [= <- <-] Hs; cbn.
      * split; [lia|]. split; [lia|]. split; [reflexivity|]. split; [lia|].
        intros t1 t2 t3 [= <- <- <-]. lia.
      * lia.
  - unfold resume. intros [= <- <-] Hs. cbn. lia.
Qed.

Lemma sentInWindow_app (n : Z) (l k : list Stretch) :
  sentInWindow n (l ++ k) = sentInWindow (sentInWindow n l) k.
Proof. revert n. induction l as [|x l IH]; intros n; simpl; [reflexivity | apply IH]. Qed.

(** X15. The request counter of [rateLimitedFetch], for calls interleaved
    in any way: after every synchronous stretch the counter equals the
    number of requests sent since the window was last restarted and lies
    between 0 and 50, so at most 50 requests are sent between two restarts
    of the window.  A call sleeps only when the counter has reached 50, and
    when the clock does not run backwards the sleep is no longer than the
    window of one minute. *)
Theorem limiter_invariant (events : list LimiterEvent) (s s' : Limiter)
    (stretches : list Stretch) :
  (0 <= requestCount s <= MAX_REQUESTS_PER_WINDOW)%Z ->
  limiterRun s events = (s', stretches) ->
  (0 <= requestCount s' <= MAX_REQUESTS_PER_WINDOW)%Z /\
  requestCount s' = sentInWindow (requestCount s) stretches /\
  length stretches = length events /\
  (forall k, (0 <= sentInWindow (requestCount s) (take k stretches)
              <= MAX_REQUESTS_PER_WINDOW)%Z) /\
  (forall k tTest tRestart tWait waitTime,
     events !! k = Some (Enter tTest tRestart tWait) ->
     outcome <$> stretches !! k = Some (Waits waitTime) ->
     sentInWindow (requestCount s) (take k stretches) = MAX_REQUESTS_PER_WINDOW /\
     (tTest <= tWait ->
      requestWindowStart (limiterRun s (take k events)).1 <= tTest ->
      waitTime <= RATE_LIMIT_WINDOW)%Z).
Proof.
  revert s s' stretches. induction events as [|ev later IH];
    intros s s' stretches Hs; cbn [limiterRun].
  - intros [= <- <-]. cbn. split; [assumption|]. split; [reflexivity|].
    split; [reflexivity|]. split.
    + intros k. by rewrite take_nil.
    + intros k ? ? ? ? Hk. by rewrite lookup_nil in Hk.
  - destruct (limiterStep s ev) as [s1 stretch] eqn:Hstep.
    destruct (limiterRun s1 later) as [s2 rest] eqn:Hrest.
    intros [= <- <-].
    destruct (limiterStep_count s s1 ev stretch Hstep Hs) as (Hs1 & Hcount & Hout).
    destruct (IH s1 s2 rest Hs1 Hrest) as (Hs2 & Hfinal & Hlen & Hprefix & Hwait).
    cbn [sentInWindow] in Hcount.
    split; [assumption|]. split; [|split; [|split]].
    + cbn [sentInWindow]. by rewrite <- Hcount.
    + cbn. by rewrite Hlen.
    + intros [|k]; [cbn; assumption|].
      cbn [take sentInWindow]. rewrite <- Hcount. apply Hprefix.
    + intros [|k] tTest tRestart tWait waitTime Hk Hw.
      * cbn in Hk, Hw. injection Hk as ->. injection Hw as Hw.
        rewrite Hw in Hout. destruct Hout as (Hkept & Hfull & Htimes).
        destruct (Htimes tTest tRestart tWait eq_refl) as [_ Hbound].
        assert (Hsame : requestCount s1 = requestCount s).
        { rewrite Hcount, Hkept, Hw. lia. }
        cbn. split; [congruence|]. intros H1 H2. apply Hbound; assumption.
      * cbn [take lookup] in Hk, Hw |- *.
        change ((ev :: later) !! S k) with (later !! k) in Hk.
        change ((stretch :: rest) !! S k) with (rest !! k) in Hw.
        destruct (Hwait k tTest tRestart tWait waitTime Hk Hw) as [Hfull Hbound].
        cbn [sentInWindow limiterRun]. rewrite <- Hcount, Hstep.
        destruct (limiterRun s1 (take k later)) as [s3 pre] eqn:Hpre.
        cbn. split; [assumption|]. exact Hbound.
Qed.

Lemma limiter_invariant_witness :
  (limiterRun {| requestCount := 50; requestWindowStart := 0 |}
     [Enter 10 10 10; Resume 60000; Enter 60001 60001 60001]).2 =
  [ {| restarted := false; outcome := Waits 59990 |};
    {| restarted := true; outcome := Sends |};
    {| restarted := false; outcome := Sends |} ] /\
  (0 <= requestCount
          (limiterRun {| requestCount := 50; requestWindowStart := 0 |}
             [Enter 10 10 10; Resume 60000; Enter 60001 60001 60001]).1
   <= MAX_REQUESTS_PER_WINDOW)%Z.
Proof.
  split; [vm_compute; reflexivity|].
  refine (proj1 (limiter_invariant
                   [Enter 10 10 10; Resume 60000; Enter 60001 60001 60001]
                   {| requestCount := 50; requestWindowStart := 0 |} _ _ _ _)).
  - vm_compute. split; discriminate.
  - apply surjective_pairing.
Defined.

(** ** The windows of the months *)

Lemma days_from_civil_bounds (y m : Z) :
  (0 <= y <= 200001)%Z -> (1 <= m <= 12)%Z ->
  (-1000000 <= days_from_civil y m 1 <= 73000000)%Z.
Proof.
  intros Hy Hm. unfold days_from_civil. cbv zeta.
  set (y' := if (m <=? 2)%Z then (y - 1)%Z else y).
  set (mp := if (m >? 2)%Z then (m - 3)%Z else (m + 9)%Z).
  assert (Hy' : (-1 <= y' <= 200001)%Z) by (unfold y'; destruct (m <=? 2)%Z; lia).
  assert (Hmp : (0 <= mp <= 21)%Z) by (unfold mp; destruct (Z.gtb_spec m 2); lia).
  pose proof (Z.div_mod y' 400 ltac:(lia)) as Hdiv.
  pose proof (Z.mod_pos_bound y' 400 ltac:(lia)) as Hmod.
  set (era := (y' / 400)%Z) in *. set (yoe := (y' - era * 400)%Z).
  assert (Hyoe : (0 <= yoe < 400)%Z) by (unfold yoe; lia).
  assert (Hera : (-1 <= era <= 500)%Z) by lia.
  pose proof (Z.div_pos yoe 4 ltac:(lia) ltac:(lia)).
  pose proof (Z.div_le_upper_bound yoe 4 100 ltac:(lia) ltac:(lia)).
  pose proof (Z.div_pos yoe 100 ltac:(lia) ltac:(lia)).
  pose proof (Z.div_le_upper_bound yoe 100 4 ltac:(lia) ltac:(lia)).
  pose proof (Z.div_pos (153 * mp + 2) 5 ltac:(lia) ltac:(lia)).
  pose proof (Z.div_le_upper_bound (153 * mp + 2) 5 700 ltac:(lia) ltac:(lia)).
  lia.
Qed.

Lemma localDate_day (localTZA : Z -> Z) (year month date : Z) :
  (100 <= year <= 200000)%Z -> (0 <= month <= 12)%Z -> (0 <= date <= 1)%Z ->
  ((forall t, (- msPerDay < localTZA t <= 0)%Z) ->
   exists utc, localDate localTZA year month date = Some utc /\
               (utc / msPerDay = MakeDay year month date)%Z) /\
  ((forall t, (0 < localTZA t < msPerDay)%Z) ->
   exists utc, localDate localTZA year month date = Some utc /\
               (utc / msPerDay = MakeDay year month date - 1)%Z).
Proof.
  intros Hyear Hmonth Hdate. unfold localDate. cbv zeta.
  destruct (Z.leb_spec 0 year); [|lia].
  destruct (Z.leb_spec year 99); [lia|]. cbn [andb].
  assert (Hday : (-1000001 <= MakeDay year month date <= 73000001)%Z).
  { unfold MakeDay.
    pose proof (Z.div_pos month 12 ltac:(lia) ltac:(lia)).
    pose proof (Z.div_le_upper_bound month 12 1 ltac:(lia) ltac:(lia)).
    pose proof (Z.mod_pos_bound month 12 ltac:(lia)).
    pose proof (days_from_civil_bounds (year + month / 12) (month mod 12 + 1)
                  ltac:(lia) ltac:(lia)). lia. }
  unfold msPerDay in *.
  split; intros Htz;
    specialize (Htz (MakeDay year month date * 86400000)%Z);
    (destruct (Z.leb_spec
                 (Z.abs (MakeDay year month date * 86400000
                         - localTZA (MakeDay year month date * 86400000)))%Z
                 8640000000000000%Z); [|lia]);
    eexists; (split; [reflexivity|]).
  - symmetry. apply (Z.div_unique_pos _ _ _
      (- localTZA (MakeDay year month date * 86400000))%Z); lia.
  - symmetry. apply (Z.div_unique_pos _ _ _
      (86400000 - localTZA (MakeDay year month date * 86400000))%Z); lia.
Qed.

Lemma monthIndex_range (monthName : string) (month : Z) :
  monthIndex monthName = Some (Some month) -> (0 <= month <= 11)%Z.
Proof.
  unfold monthIndex. destruct (monthMap !! monthName) as [m|] eqn:Hm.
  - intros [= <-]. revert Hm. unfold monthMap.
    apply (list_to_map_values (fun m => (0 <= m <= 11)%Z)).
    repeat (apply Forall_cons_2; [cbn; lia|]). apply Forall_nil_2.
  - destruct (array_includes _ _); discriminate.
Qed.

Lemma getMonthDateRange_days (localTZA : Z -> Z) (year month : Z)
    (monthName : string) :
  monthIndex monthName = Some (Some month) ->
  (100 <= year <= 200000)%Z ->
  ((forall t, (- msPerDay < localTZA t <= 0)%Z) ->
   getMonthDateRange localTZA year monthName =
   Range (MakeDay year month 1 - 1) (MakeDay year (month + 1) 1)) /\
  ((forall t, (0 < localTZA t < msPerDay)%Z) ->
   getMonthDateRange localTZA year monthName =
   Range (MakeDay year month 1 - 2) (MakeDay year (month + 1) 1 - 1)).
Proof.
  intros Hmonth Hyear. pose proof (monthIndex_range _ _ Hmonth) as Hrange.
  unfold getMonthDateRange. rewrite Hmonth.
  destruct (localDate_day localTZA year month 0 Hyear ltac:(lia) ltac:(lia))
    as [Hwest0 Heast0].
  destruct (localDate_day localTZA year (month + 1) 1 Hyear ltac:(lia) ltac:(lia))
    as [Hwest1 Heast1].
  split; intros Htz.
  - destruct (Hwest0 Htz) as (a & -> & Ha). destruct (Hwest1 Htz) as (b & -> & Hb).
    rewrite Ha, Hb. f_equal. unfold MakeDay. lia.
  - destruct (Heast0 Htz) as (a & -> & Ha). destruct (Heast1 Htz) as (b & -> & Hb).
    rewrite Ha, Hb. f_equal. unfold MakeDay. lia.
Qed.

(** X16. For a year from 100 to 200000 and a month of the table,
    [getMonthDateRange] returns the day before the first of the month and
    the first of the following month when the server's zone is UTC or west
    of it: the two exclusive bounds enclose the month exactly.  When the
    zone is east of UTC both dates are one day earlier, so the window
    leaves out the last day of the month and takes in the last day of the
    month before.  A name that is not in the table makes the call throw: a
    [RangeError] when [Object.prototype] provides the name, a [TypeError]
    otherwise. *)
Theorem getMonthDateRange_window (localTZA : Z -> Z) (year : Z) (monthName : string) :
  (100 <= year <= 200000)%Z ->
  match monthIndex monthName with
  | Some (Some month) =>
      ((forall t, (- msPerDay < localTZA t <= 0)%Z) ->
       getMonthDateRange localTZA year monthName =
       Range (MakeDay year month 1 - 1) (MakeDay year (month + 1) 1)) /\
      ((forall t, (0 < localTZA t < msPerDay)%Z) ->
       getMonthDateRange localTZA year monthName =
       Range (MakeDay year month 1 - 2) (MakeDay year (month + 1) 1 - 1))
  | Some None => getMonthDateRange localTZA year monthName = RangeThrewRangeError
  | None => getMonthDateRange localTZA year monthName = RangeThrewTypeError
  end.
Proof.
  intros Hyear. destruct (monthIndex monthName) as [[month|]|] eqn:Hmonth.
  - by apply getMonthDateRange_days.
  - unfold getMonthDateRange. by rewrite Hmonth.
  - unfold getMonthDateRange. by rewrite Hmonth.
Qed.

(** February 2026, five hours west and one hour east of UTC. *)
Lemma getMonthDateRange_window_witness :
  getMonthDateRange (fun _ => (-18000000)%Z) 2026 "February" = Range 20484 20513 /\
  getMonthDateRange (fun _ => 3600000%Z) 2026 "February" = Range 20483 20512.
Proof.
  pose proof (getMonthDateRange_window (fun _ => (-18000000)%Z) 2026 "February"
                ltac:(lia)) as Hwest.
  pose proof (getMonthDateRange_window (fun _ => 3600000%Z) 2026 "February"
                ltac:(lia)) as Heast.
  change (monthIndex "February") with (Some (Some 1%Z)) in Hwest, Heast.
  split.
  - apply Hwest. intros _. unfold msPerDay. lia.
  - apply Heast. intros _. unfold msPerDay. lia.
Defined.

(** X17. For every configured quarter, when the server's zone is UTC or
    west of it, the windows of the monthly searches of [fetchQuarterData]
    tile the window of the quarterly search: the first starts on the
    quarter's start date, the last ends on its end date, and each month
    starts on the day before the end date of the month before it, so that
    with exclusive bounds no day of the quarter is left out or covered
    twice.  East of UTC the same windows lie one day earlier than the
    quarter's. *)
Theorem month_windows_tile_quarter (localTZA : Z -> Z) (quarterId : string)
    (config : QuarterConfig) :
  QUARTER_CONFIG !! quarterId = Some config ->
  exists (year first : Z) (lengths : list Z),
    quarterYear quarterId = Some year /\
    dayOf (startDate config) = Some first /\
    dayOf (endDate config) = Some (first + fold_right Z.add 0 lengths + 1)%Z /\
    Forall (fun n => (28 <= n <= 31)%Z) lengths /\
    ((forall t, (- msPerDay < localTZA t <= 0)%Z) ->
     monthWindows localTZA year (months config) =
     tiledWindows first lengths) /\
    ((forall t, (0 < localTZA t < msPerDay)%Z) ->
     monthWindows localTZA year (months config) =
     tiledWindows (first - 1)%Z lengths).
Proof.
  intros Hconfig. unfold QUARTER_CONFIG in Hconfig.
  apply elem_of_list_to_map_2, list_elem_of_In in Hconfig.
  assert (Hyear : (100 <= 2026 <= 200000)%Z) by lia.
  cbn [In] in Hconfig.
  destruct Hconfig as [[= <- <-]|[[= <- <-]|[[= <- <-]|[[= <- <-]|[]]]]].
  - exists 2026%Z, 20453%Z, [31; 28; 31]%Z.
    split; [reflexivity|]. split; [reflexivity|]. split; [reflexivity|].
    split; [repeat constructor; lia|].
    split; intros Htz; cbn [monthWindows map months].
    + rewrite (proj1 (getMonthDateRange_days localTZA 2026 0 "January" eq_refl Hyear) Htz),
        (proj1 (getMonthDateRange_days localTZA 2026 1 "February" eq_refl Hyear) Htz),
        (proj1 (getMonthDateRange_days localTZA 2026 2 "March" eq_refl Hyear) Htz).
      reflexivity.
    + rewrite (proj2 (getMonthDateRange_days localTZA 2026 0 "January" eq_refl Hyear) Htz),
        (proj2 (getMonthDateRange_days localTZA 2026 1 "February" eq_refl Hyear) Htz),
        (proj2 (getMonthDateRange_days localTZA 2026 2 "March" eq_refl Hyear) Htz).
      reflexivity.
  - exists 2026%Z, 20543%Z, [30; 31; 30]%Z.
    split; [reflexivity|]. split; [reflexivity|]. split; [reflexivity|].
    split; [repeat constructor; lia|].
    split; intros Htz; cbn [monthWindows map months].
    + rewrite (proj1 (getMonthDateRange_days localTZA 2026 3 "April" eq_refl Hyear) Htz),
        (proj1 (getMonthDateRange_days localTZA 2026 4 "May" eq_refl Hyear) Htz),
        (proj1 (getMonthDateRange_days localTZA 2026 5 "June" eq_refl Hyear) Htz).
      reflexivity.
    + rewrite (proj2 (getMonthDateRange_days localTZA 2026 3 "April" eq_refl Hyear) Htz),
        (proj2 (getMonthDateRange_days localTZA 2026 4 "May" eq_refl Hyear) Htz),
        (proj2 (getMonthDateRange_days localTZA 2026 5 "June" eq_refl Hyear) Htz).
      reflexivity.
  - exists 2026%Z, 20634%Z, [31; 31; 30]%Z.
    split; [reflexivity|]. split; [reflexivity|]. split; [reflexivity|].
    split; [repeat constructor; lia|].
    split; intros Htz; cbn [monthWindows map months].
    + rewrite (proj1 (getMonthDateRange_days localTZA 2026 6 "July" eq_refl Hyear) Htz),
        (proj1 (getMonthDateRange_days localTZA 2026 7 "August" eq_refl Hyear) Htz),
        (proj1 (getMonthDateRange_days localTZA 2026 8 "September" eq_refl Hyear) Htz).
      reflexivity.
    + rewrite (proj2 (getMonthDateRange_days localTZA 2026 6 "July" eq_refl Hyear) Htz),
        (proj2 (getMonthDateRange_days localTZA 2026 7 "August" eq_refl Hyear) Htz),
        (proj2 (getMonthDateRange_days localTZA 2026 8 "September" eq_refl Hyear) Htz).
      reflexivity.
  - exists 2026%Z, 20726%Z, [31; 30; 31]%Z.
    split; [reflexivity|]. split; [reflexivity|]. split; [reflexivity|].
    split; [repeat constructor; lia|].
    split; intros Htz; cbn [monthWindows map months].
    + rewrite (proj1 (getMonthDateRange_days localTZA 2026 9 "October" eq_refl Hyear) Htz),
        (proj1 (getMonthDateRange_days localTZA 2026 10 "November" eq_refl Hyear) Htz),
        (proj1 (getMonthDateRange_days localTZA 2026 11 "December" eq_refl Hyear) Htz).
      reflexivity.
    + rewrite (proj2 (getMonthDateRange_days localTZA 2026 9 "October" eq_refl Hyear) Htz),
        (proj2 (getMonthDateRange_days localTZA 2026 10 "November" eq_refl Hyear) Htz),
        (proj2 (getMonthDateRange_days localTZA 2026 11 "December" eq_refl Hyear) Htz).
      reflexivity.
Qed.

Lemma month_windows_tile_quarter_witness :
  exists (year first : Z) (lengths : list Z),
    quarterYear "2026-Q4" = Some year /\
    dayOf "2026-09-30" = Some first /\
    dayOf "2027-01-01" = Some (first + fold_right Z.add 0 lengths + 1)%Z.
Proof.
  destruct (month_windows_tile_quarter (fun _ => 0%Z) "2026-Q4"
              {| quarter_name := "Q4 2026"; startDate := "2026-09-30";
                 endDate := "2027-01-01";
                 months := ["October"; "November"; "December"] |} eq_refl)
    as (year & first & lengths & Hyear & Hstart & Hend & _).
  exists year, first, lengths. split; [exact Hyear|]. split; [exact Hstart | exact Hend].
Defined.

(** ** Caching of the quarter data *)

Section Fetching.

Context {Payload : Type}.
Implicit Types (quarters : gmap string (CacheEntry (QuarterData Payload))).

Lemma fetchQuarterData_hit (fresh : option Payload) (tGet tSet : Z) (quarterId : string)
    quarters (entry : CacheEntry (QuarterData Payload)) :
  quarters !! quarterId = Some entry ->
  isCacheValid tGet (Some entry) quarterId = true ->
  fetchQuarterData fresh tGet tSet quarterId quarters = (Some (data entry), quarters).
Proof.
  intros Hentry Hvalid. unfold fetchQuarterData, getCache, getCacheKey. cbv zeta.
  rewrite Hentry, Hvalid. reflexivity.
Qed.

Lemma fetchQuarterData_miss (fresh : option Payload) (tGet tSet : Z) (quarterId : string)
    quarters :
  isCacheValid tGet (quarters !! quarterId) quarterId = false ->
  fetchQuarterData fresh tGet tSet quarterId quarters =
  match fresh with
  | Some p =>
      (Some {| payload := p; cached := false; cacheAge := None |},
       setCache tSet quarterId {| payload := p; cached := false; cacheAge := None |}
         quarters)
  | None => (None, delete quarterId quarters)
  end.
Proof.
  intros Hvalid. unfold fetchQuarterData, getCache, getCacheKey. cbv zeta.
  rewrite Hvalid. destruct (quarters !! quarterId) as [entry|] eqn:Hentry.
  - destruct fresh as [p|]; [|reflexivity]. unfold setCache, getCacheKey.
    by rewrite insert_delete_eq.
  - destruct fresh as [p|]; [reflexivity|]. by rewrite delete_id.
Qed.

Lemma fetchQuarterData_entry (fresh : option Payload) (tGet tSet : Z)
    (quarterId : string) quarters (d : QuarterData Payload) quarters1 :
  fetchQuarterData fresh tGet tSet quarterId quarters = (Some d, quarters1) ->
  exists entry,
    quarters1 !! quarterId = Some entry /\ data entry = d /\
    (isCacheValid tGet (quarters !! quarterId) quarterId = true /\
     quarters !! quarterId = Some entry /\ quarters1 = quarters \/
     isCacheValid tGet (quarters !! quarterId) quarterId = false /\
     timestamp entry = tSet /\ cached d = false /\ cacheAge d = None /\
     fresh = Some (payload d)).
Proof.
  destruct (isCacheValid tGet (quarters !! quarterId) quarterId) eqn:Hvalid.
  - destruct (quarters !! quarterId) as [entry|] eqn:Hentry; [|discriminate].
    rewrite (fetchQuarterData_hit _ _ _ _ _ entry Hentry Hvalid).
    intros [= <- <-]. exists entry. split; [assumption|]. split; [reflexivity|].
    left. auto.
  - rewrite (fetchQuarterData_miss _ _ _ _ _ Hvalid).
    destruct fresh as [p|]; [|discriminate]. intros [= <- <-].
    eexists. split; [apply lookup_insert_eq|]. split; [reflexivity|].
    right. cbn. auto.
Qed.

(** X18. [fetchQuarterData] and the cache.  Data computed afresh is stored
    under its quarter, and until its entry expires (within five minutes of
    the [setCache], or for good when the quarter was over by then) every
    later call returns the stored object without consulting the task source
    and leaves the cache as it is.  A call changes the entry of no other
    quarter, and a call that fails leaves no entry for its own. *)
Theorem fetchQuarterData_caches (fresh : option Payload) (tGet tSet : Z)
    (quarterId : string) quarters :
  (forall d quarters1,
     fetchQuarterData fresh tGet tSet quarterId quarters = (Some d, quarters1) ->
     forall fresh' tGet' tSet',
       isCacheValid tGet' (quarters1 !! quarterId) quarterId = true ->
       fetchQuarterData fresh' tGet' tSet' quarterId quarters1 = (Some d, quarters1)) /\
  (forall p,
     isCacheValid tGet (quarters !! quarterId) quarterId = false ->
     fresh = Some p ->
     forall fresh' tGet' tSet',
       (isQuarterPast tSet quarterId = true \/ tGet' - tSet < CURRENT_QUARTER_TTL)%Z ->
       fetchQuarterData fresh' tGet' tSet' quarterId
         (fetchQuarterData fresh tGet tSet quarterId quarters).2 =
       (Some {| payload := p; cached := false; cacheAge := None |},
        (fetchQuarterData fresh tGet tSet quarterId quarters).2)) /\
  (forall other,
     other <> quarterId ->
     (fetchQuarterData fresh tGet tSet quarterId quarters).2 !! other =
     quarters !! other) /\
  ((fetchQuarterData fresh tGet tSet quarterId quarters).1 = None ->
   (fetchQuarterData fresh tGet tSet quarterId quarters).2 !! quarterId = None).
Proof.
  split; [|split; [|split]].
  - intros d quarters1 Hfetch fresh' tGet' tSet' Hvalid.
    destruct (fetchQuarterData_entry _ _ _ _ _ _ _ Hfetch) as (entry & Hentry & <- & _).
    rewrite Hentry in Hvalid. by apply fetchQuarterData_hit.
  - intros p Hmiss -> fresh' tGet' tSet' Hfresh.
    rewrite (fetchQuarterData_miss _ _ _ _ _ Hmiss). cbn [snd].
    unfold fetchQuarterData. rewrite getCache_setCache.
    destruct (isQuarterPast tSet quarterId) eqn:Hpast.
    + assert (Hhit : (isQuarterPast tGet' quarterId && true
                      || (tGet' - tSet <? CURRENT_QUARTER_TTL)%Z) = true).
      { destruct (Z.ltb_spec (tGet' - tSet) CURRENT_QUARTER_TTL) as [|Hage];
          [apply orb_true_r|].
        assert (Hle : (tSet <= tGet')%Z) by (unfold CURRENT_QUARTER_TTL in Hage; lia).
        by rewrite (isQuarterPast_mono tSet tGet' quarterId Hle Hpast). }
      by rewrite Hhit.
    + destruct Hfresh as [?|Hage]; [discriminate|].
      apply Z.ltb_lt in Hage. by rewrite Hage, orb_true_r.
  - intros other Hother.
    destruct (isCacheValid tGet (quarters !! quarterId) quarterId) eqn:Hvalid.
    + destruct (quarters !! quarterId) as [entry|] eqn:Hentry; [|discriminate].
      by rewrite (fetchQuarterData_hit _ _ _ _ _ entry Hentry Hvalid).
    + rewrite (fetchQuarterData_miss _ _ _ _ _ Hvalid).
      destruct fresh as [p|]; cbn [snd].
      * unfold setCache, getCacheKey. by rewrite lookup_insert_ne.
      * by rewrite lookup_delete_ne.
  - destruct (isCacheValid tGet (quarters !! quarterId) quarterId) eqn:Hvalid.
    + destruct (quarters !! quarterId) as [entry|] eqn:Hentry; [|discriminate].
      by rewrite (fetchQuarterData_hit _ _ _ _ _ entry Hentry Hvalid).
    + rewrite (fetchQuarterData_miss _ _ _ _ _ Hvalid).
      destruct fresh as [p|]; [discriminate|]. intros _. apply lookup_delete_eq.
Qed.

(** X19. The flag [cached] does not tell whether the data came from the
    cache: every successful answer of the progress endpoint carries
    [cached: true] and a cache age, also when the data has just been
    computed, and the marked object is the one the cache holds afterwards;
    a successful answer of the refresh endpoint always carries freshly
    computed data with [cached: false] and no cache age. *)
Theorem cached_flag (tokenSet : bool) (fresh : option Payload)
    (tGet tSet tFlag : Z) (quarterId : string) quarters :
  (forall body quarters1,
     progressHandler tokenSet fresh tGet tSet tFlag quarterId quarters
     = (Success body, quarters1) ->
     cached body = true /\
     (exists entry,
        quarters1 !! quarterId = Some entry /\ data entry = body /\
        cacheAge body = Some (tFlag - timestamp entry)%Z) /\
     (isCacheValid tGet (quarters !! quarterId) quarterId = false ->
      fresh = Some (payload body) /\ cacheAge body = Some (tFlag - tSet)%Z)) /\
  (forall body quarters1,
     refreshHandler tokenSet fresh tGet tSet quarterId quarters
     = (Success body, quarters1) ->
     fresh = Some (payload body) /\ cached body = false /\ cacheAge body = None /\
     exists entry, quarters1 !! quarterId = Some entry /\ data entry = body /\
                   timestamp entry = tSet).
Proof.
  split.
  - intros body quarters1. unfold progressHandler.
    destruct tokenSet; [|discriminate]. cbn [negb].
    destruct (hasTruthyProperty QUARTERLY_GOALS quarterId); [|discriminate].
    destruct (hasTruthyProperty QUARTER_CONFIG quarterId); [|discriminate].
    cbn [negb].
    destruct (fetchQuarterData fresh tGet tSet quarterId quarters) as [[d|] quarters2]
      eqn:Hfetch; [|discriminate].
    destruct (fetchQuarterData_entry _ _ _ _ _ _ _ Hfetch)
      as (entry & Hentry & Hdata & Hcases).
    unfold getCacheKey. rewrite Hentry. intros [= <- <-]. cbn.
    split; [reflexivity|]. split.
    + eexists. split; [apply lookup_insert_eq|]. cbn. split; reflexivity.
    + intros Hmiss. destruct Hcases as [[Hhit _]|(_ & Htime & _ & _ & Hfresh)];
        [congruence|].
      by rewrite Htime.
  - intros body quarters1. unfold refreshHandler.
    destruct tokenSet; [|discriminate]. cbn [negb].
    destruct (fetchQuarterData fresh tGet tSet quarterId _) as [[d|] quarters2]
      eqn:Hfetch; [|discriminate].
    intros [= <- <-].
    destruct (fetchQuarterData_entry _ _ _ _ _ _ _ Hfetch)
      as (entry & Hentry & Hdata & Hcases).
    unfold getCacheKey in Hcases. rewrite lookup_delete_eq in Hcases.
    destruct Hcases as [[Hhit _]|(_ & Htime & Hcached & Hage & Hfresh)];
      [discriminate|].
    split; [assumption|]. split; [assumption|]. split; [assumption|]. eauto.
Qed.

End Fetching.

(** Data of Q1 2026 computed at 1000 ms and stored at 2000 ms is returned
    again at 200000 ms, whatever the task source would give then. *)
Lemma fetchQuarterData_caches_witness :
  fetchQuarterData None 200000 200001 "2026-Q1"
    (fetchQuarterData (Some "fresh") 1000 2000 "2026-Q1" ∅).2 =
  (Some {| payload := "fresh"; cached := false; cacheAge := None |},
   (fetchQuarterData (Some "fresh") 1000 2000 "2026-Q1" ∅).2).
Proof.
  apply (proj1 (proj2 (fetchQuarterData_caches (Some "fresh") 1000 2000 "2026-Q1" ∅))
           "fresh").
  - reflexivity.
  - reflexivity.
  - right. vm_compute. reflexivity.
Defined.

(** The first request for Q1 2026 computes the data and yet answers
    [cached: true]. *)
Lemma cached_flag_witness :
  exists body quarters1,
    progressHandler true (Some "fresh") 1000 2000 2005 "2026-Q1" ∅
    = (Success body, quarters1) /\
    payload body = "fresh" /\ cached body = true /\ cacheAge body = Some 5%Z.
Proof.
  destruct (progressHandler true (Some "fresh") 1000 2000 2005 "2026-Q1" ∅)
    as [[status|body] quarters1] eqn:Hanswer.
  - vm_compute in Hanswer. discriminate.
  - exists body, quarters1. split; [reflexivity|].
    destruct (proj1 (cached_flag true (Some "fresh") 1000 2000 2005 "2026-Q1" ∅)
                body quarters1 Hanswer) as (Hcached & _ & Hfresh).
    destruct (Hfresh eq_refl) as [Hpayload Hage].
    split; [congruence|]. split; [exact Hcached | exact Hage].
Defined.

(** ** Precedence of the tags *)

Lemma forTags_app_Continue (body : Tag -> TagStep) (before rest : list Tag) :
  forTags body before = Continue ->
  forTags body (before ++ rest) = forTags body rest.
Proof.
  induction before as [|tag before IH]; simpl; [reflexivity|].
  destruct (body tag); try discriminate. exact IH.
Qed.

Lemma gid_is_other (tag : Tag) (g x : string) :
  tag_gid tag = Some g -> g <> x -> gid_is tag x = false.
Proof.
  intros Hgid Hne. unfold gid_is. rewrite Hgid. by apply String.eqb_neq.
Qed.

(** X20. Tags come before keywords, in their order: when a task carries no
    priority tag and the first of its tags that a tag table knows has an
    identifier of [TAG_CATEGORY_MAP] without a rule of its own, the task is
    classified as that table entry says, provided its name matches no
    exclusion regex of the deliverable; neither the later tags nor the
    keywords in the name are consulted. *)
Theorem first_known_tag_wins (task : Task) (before after : list Tag) (tag : Tag)
    (g : string) (m : Mapping) :
  tagsOf task = (before ++ tag :: after)%list ->
  hasSideProjectTag (tagsOf task) = false ->
  hasCfpTag (tagsOf task) = false ->
  hasGooseContributionTag (tagsOf task) = false ->
  forallb isUnrecognizedTag before = true ->
  tag_gid tag = Some g ->
  TAG_CATEGORY_MAP !! g = Some m ->
  ~ In g specialTagGids ->
  isExcluded (task_name task) (deliverable m) = false ->
  categorizeTask task = Returned (Some m).
Proof.
  intros Htags Hside Hcfp Hgoose Hbefore Hgid Hm Hplain Hex.
  unfold categorizeTask. cbv zeta. rewrite Hside, Hcfp, Hgoose.
  assert (Hphase1 : forTags (phase1_tag (tagsOf task) (toLowerCase (task_name task))
                               (task_name task)) (tagsOf task) = Return m).
  { rewrite Htags at 2. rewrite forTags_app_Continue.
    - cbn [forTags]. unfold phase1_tag. rewrite Hgid. cbn [propertyKey].
      unfold tableLookup. rewrite Hm.
      cbn [In specialTagGids] in Hplain.
      rewrite !(gid_is_other tag g _ Hgid) by (intros ->; tauto).
      cbn [orb]. by rewrite Hex.
    - apply forTags_Continue. intros t Hin.
      rewrite forallb_forall in Hbefore.
      apply (unrecognized_falls_through _ _ _ t (Hbefore t Hin)). }
  by rewrite Hphase1.
Qed.

Lemma first_known_tag_wins_witness :
  categorizeTask
    (sampleTask "Recorded a tutorial video on skills"
       [{| tag_gid := Some "42"; tag_name := Some "Q1" |};
        {| tag_gid := Some "1204316592156228"; tag_name := Some "podcast" |};
        {| tag_gid := Some "1204316592156209"; tag_name := Some "blog" |}]) =
  Returned (Some {| category := "Public Speaking"; deliverable := "Podcast recordings" |}).
Proof.
  apply (first_known_tag_wins _
           [{| tag_gid := Some "42"; tag_name := Some "Q1" |}]
           [{| tag_gid := Some "1204316592156209"; tag_name := Some "blog" |}]
           {| tag_gid := Some "1204316592156228"; tag_name := Some "podcast" |}
           "1204316592156228");
    try (vm_compute; reflexivity).
  cbn [In specialTagGids]. intros H.
  repeat (destruct H as [H|H]; [discriminate|]). exact H.
Defined.

Lemma carriesName_existsb (tags : list Tag) (s : string) (other : Tag -> bool) :
  carriesName tags s -> existsb (fun t => other t || name_lower_is t s) tags = true.
Proof.
  intros (tag & Hin & Hname). apply existsb_exists. exists tag.
  split; [assumption|]. rewrite Hname. apply orb_true_r.
Qed.

(** X21. The priority tags are recognised by name as well, in any letter
    case and without their identifier: a task with a tag named "side
    project" is a Side project; one with a tag named "cfp" and no
    side-project tag is a CFP; one with a tag named "goose contribution"
    and neither of the other two is a goose contribution, whatever the
    task's name, its other tags and their order. *)
Theorem priority_tag_names (task : Task) :
  (carriesName (tagsOf task) "side project" ->
   categorizeTask task =
   Returned (Some {| category := "Build"; deliverable := "Side projects" |})) /\
  (carriesName (tagsOf task) "cfp" ->
   hasSideProjectTag (tagsOf task) = false ->
   categorizeTask task =
   Returned (Some {| category := "Public Speaking";
                     deliverable := "CFPs (submitted or accepted)" |})) /\
  (carriesName (tagsOf task) "goose contribution" ->
   hasSideProjectTag (tagsOf task) = false ->
   hasCfpTag (tagsOf task) = false ->
   categorizeTask task =
   Returned (Some {| category := "Build"; deliverable := "goose contributions" |})).
Proof.
  unfold categorizeTask. cbv zeta. repeat split.
  - intros Hside.
    apply (carriesName_existsb _ _ (fun t => gid_is t "1212903104247034")) in Hside.
    unfold hasSideProjectTag. by rewrite Hside.
  - intros Hcfp Hside. rewrite Hside.
    apply (carriesName_existsb _ _ (fun t => gid_is t "1212892322315514")) in Hcfp.
    unfold hasCfpTag. by rewrite Hcfp.
  - intros Hgoose Hside Hcfp. rewrite Hside, Hcfp.
    apply (carriesName_existsb _ _ (fun t => gid_is t "1212903104247031")) in Hgoose.
    unfold hasGooseContributionTag. by rewrite Hgoose.
Qed.

Lemma priority_tag_names_witness :
  categorizeTask
    (sampleTask "Schedule shorts for next week"
       [{| tag_gid := Some "1204316592156209"; tag_name := Some "blog" |};
        {| tag_gid := None; tag_name := Some "CFP" |}]) =
  Returned (Some {| category := "Public Speaking";
                    deliverable := "CFPs (submitted or accepted)" |}).
Proof.
  refine (proj1 (proj2 (priority_tag_names _)) _ _).
  - eexists. split; [right; left; reflexivity | reflexivity].
  - vm_compute. reflexivity.
Defined.

(** ** The current quarter *)

Lemma digit_value_digitChar (d : Z) :
  (0 <= d <= 9)%Z -> digit_value (digitChar d) = Some d /\ is_digit (digitChar d) = true.
Proof.
  intros Hd.
  assert (Hcases : (d = 0 \/ d = 1 \/ d = 2 \/ d = 3 \/ d = 4 \/ d = 5 \/ d = 6 \/
                    d = 7 \/ d = 8 \/ d = 9)%Z) by lia.
  repeat (destruct Hcases as [->|Hcases]; [split; reflexivity|]).
  subst d. split; reflexivity.
Qed.

Lemma decimalFrom_digits (fuel : nat) :
  forall (n : Z) (rest : string),
    (0 <= n < 2 ^ Z.of_nat fuel)%Z ->
    (allDigits rest = true -> allDigits (decimalFrom fuel n rest) = true) /\
    (rest <> "" \/ fuel <> O -> decimalFrom fuel n rest <> "") /\
    exists k : Z,
      (0 <= k)%Z /\
      forall acc, digits_value acc (decimalFrom fuel n rest)
                  = digits_value (acc * 10 ^ k + n)%Z rest.
Proof.
  induction fuel as [|fuel IH]; intros n rest Hn.
  - cbn [decimalFrom]. split; [tauto|]. split; [tauto|].
    exists 0%Z. split; [lia|]. intros acc. f_equal.
    change (2 ^ Z.of_nat 0)%Z with 1%Z in Hn. lia.
  - cbn [decimalFrom]. cbv zeta.
    pose proof (Z.mod_pos_bound n 10 ltac:(lia)) as Hmod.
    pose proof (Z.div_mod n 10 ltac:(lia)) as Hdiv.
    destruct (digit_value_digitChar (n mod 10) ltac:(lia)) as [Hvalue Hdigit].
    destruct (Z.ltb_spec n 10) as [Hsmall|Hlarge].
    + split; [|split].
      * intros Hrest. cbn [allDigits]. by rewrite Hdigit, Hrest.
      * discriminate.
      * exists 1%Z. split; [lia|]. intros acc. cbn [digits_value].
        rewrite Hvalue. f_equal. rewrite Z.mod_small by lia. lia.
    + assert (Hquot : (0 <= n / 10 < 2 ^ Z.of_nat fuel)%Z).
      { split; [apply Z.div_pos; lia|].
        apply Z.div_lt_upper_bound; [lia|].
        rewrite Nat2Z.inj_succ, Z.pow_succ_r in Hn by lia.
        assert (Hpow : (0 < 2 ^ Z.of_nat fuel)%Z) by (apply Z.pow_pos_nonneg; lia).
        revert Hn Hpow. generalize (2 ^ Z.of_nat fuel)%Z. intros p Hn Hpow. lia. }
      destruct (IH (n / 10)%Z (String (digitChar (n mod 10)) rest) Hquot)
        as (Hall & Hne & k & Hpos & Hk).
      split; [|split].
      * intros Hrest. apply Hall. cbn [allDigits]. by rewrite Hdigit, Hrest.
      * intros _. apply Hne. left. discriminate.
      * exists (Z.succ k). split; [lia|]. intros acc. rewrite Hk.
        cbn [digits_value]. rewrite Hvalue. f_equal.
        rewrite Z.pow_succ_r by lia. lia.
Qed.

Lemma Number_toString_digits (n : Z) :
  (0 <= n)%Z ->
  allDigits (Number_toString n) = true /\ Number_toString n <> "" /\
  digits_value 0 (Number_toString n) = Some n.
Proof.
  intros Hn. unfold Number_toString. destruct (Z.ltb_spec n 0); [lia|].
  assert (Hfuel : (0 <= n < 2 ^ Z.of_nat (S (Z.to_nat (Z.log2 n))))%Z).
  { split; [assumption|]. rewrite Nat2Z.inj_succ, Z2Nat.id by apply Z.log2_nonneg.
    destruct (Z.eq_dec n 0%Z) as [->|Hne]; [reflexivity|].
    apply Z.log2_spec. lia. }
  destruct (decimalFrom_digits _ n "" Hfuel) as (Hall & Hne & k & _ & Hk).
  split; [by apply Hall|]. split; [apply Hne; by right|].
  rewrite Hk. reflexivity.
Qed.

Lemma beforeHyphen_digits (s rest : string) :
  allDigits s = true -> beforeHyphen (s ++ String "-" rest) = s.
Proof.
  induction s as [|c s IH]; cbn [allDigits].
  - intros _. reflexivity.
  - intros Hall. apply andb_true_iff in Hall as [Hc Hs].
    change (String c s ++ String "-" rest) with (String c (s ++ String "-" rest)).
    cbn [beforeHyphen].
    destruct (Ascii.eqb_spec c "-") as [->|_]; [discriminate|].
    by rewrite IH.
Qed.

Lemma quarterYear_getCurrentQuarter (year month : Z) :
  (0 <= year)%Z -> quarterYear (getCurrentQuarter year month) = Some year.
Proof.
  intros Hyear. unfold quarterYear, getCurrentQuarter. cbv zeta.
  destruct (Number_toString_digits year Hyear) as (Hall & Hne & Hvalue).
  change ("-Q" ++ ?q) with (String "-" ("Q" ++ q)).
  rewrite (beforeHyphen_digits _ _ Hall).
  destruct (Number_toString year); [by destruct Hne | exact Hvalue].
Qed.

(** X22. [getCurrentQuarter] and the configuration.  The identifier it
    builds reads back as the year of the clock, and [QUARTERLY_GOALS] has
    an entry for it only in the first three months of 2026: in every other
    month of a year that is not negative, a request for the progress of the
    current quarter is answered with status 404 and leaves the cache
    untouched. *)
Theorem current_quarter_configured (year month : Z) :
  (0 <= year)%Z ->
  (0 <= month <= 11)%Z ->
  quarterYear (getCurrentQuarter year month) = Some year /\
  (hasTruthyProperty QUARTERLY_GOALS (getCurrentQuarter year month) = true <->
   (year = 2026 /\ month < 3)%Z) /\
  (~ (year = 2026 /\ month < 3)%Z ->
   forall (Payload : Type) (fresh : option Payload) (tGet tSet tFlag : Z)
          (quarters : gmap string (CacheEntry (QuarterData Payload))),
     progressHandler true fresh tGet tSet tFlag (getCurrentQuarter year month) quarters
     = (Failure 404, quarters)).
Proof.
  intros Hyear Hmonth.
  pose proof (quarterYear_getCurrentQuarter year month Hyear) as Hread.
  assert (Hconfigured :
    hasTruthyProperty QUARTERLY_GOALS (getCurrentQuarter year month) = true <->
    (year = 2026 /\ month < 3)%Z).
  { unfold hasTruthyProperty. split.
    - destruct (QUARTERLY_GOALS !! getCurrentQuarter year month) as [goals|] eqn:Hgoals.
      + intros _. unfold QUARTERLY_GOALS in Hgoals.
        apply lookup_singleton_Some in Hgoals as [Hid _].
        rewrite <- Hid in Hread. injection Hread as <-. split; [reflexivity|].
        revert Hid. unfold getCurrentQuarter. cbv zeta.
        destruct (Z.ltb_spec month 3); [lia|].
        destruct (month <? 6)%Z; [discriminate|].
        destruct (month <? 9)%Z; discriminate.
      + intros Hinherited. apply array_includes_In in Hinherited.
        cbn [In Object_prototype_names] in Hinherited.
        repeat (destruct Hinherited as [Hid|Hinherited];
                [rewrite <- Hid in Hread; discriminate|]).
        contradiction.
    - intros [-> Hq]. unfold getCurrentQuarter. cbv zeta.
      destruct (Z.ltb_spec month 3); [reflexivity | lia]. }
  split; [exact Hread|]. split; [exact Hconfigured|].
  intros Hnot Payload fresh tGet tSet tFlag quarters. unfold progressHandler. cbn [negb].
  destruct (hasTruthyProperty QUARTERLY_GOALS (getCurrentQuarter year month));
    [|reflexivity].
  destruct Hnot. by apply Hconfigured.
Qed.

Lemma current_quarter_configured_witness :
  getCurrentQuarter 2026 10 = "2026-Q4" /\
  progressHandler true (Some "fresh") 1000 2000 2005 (getCurrentQuarter 2026 10) ∅
  = (Failure 404, ∅).
Proof.
  split; [reflexivity|].
  apply (current_quarter_configured 2026 10); lia.
Defined.
